(** * Health assistant bot: the symptom triage rules and their routing

    A shallow embedding of [src/health_ai.py] (class [HealthAI]),
    [src/gemini_ai.py] (class [EnhancedAI]) and the message handler of
    [src/whatsapp_bot.py] (class [WhatsAppBot]), followed by the properties
    of the specification that concern them.

    Conventions of the embedding.
    - A Python [str] is a [string] whose characters are read as code points
      below 256; [lower], [strip] and [split] follow Python on that range.
      Literal texts that only flow to the output keep the bytes of the
      source file.
    - A Python [float] is an IEEE-754 binary64 number, [spec_float] with
      [prec = 53] and [emax = 1024]; arithmetic is the correctly rounded
      arithmetic of [SpecFloat].
    - A Python [dict] literal is an association list in insertion order,
      which is the order Python iterates it in.
    - [list(set(xs))] is modelled by [nodup]: Python fixes neither the order
      of the result nor do the properties below rely on it. *)

From Stdlib Require Import String Ascii List Bool Arith ZArith Lia DecimalString.
From Stdlib Require Import SpecFloat.
Import ListNotations.

Local Open Scope list_scope.
Local Open Scope string_scope.
Local Open Scope nat_scope.

(* ------------------------------------------------------------------ *)
(** ** Text primitives of the Python standard library *)

Module Text.

Definition code (c : ascii) : nat := nat_of_ascii c.

  (** [c.lower()] on code points below 256: the ASCII capitals and the
      Latin-1 capitals (all of 192..222 but the multiplication sign 215)
      move up by 32. *)
Definition lower_char (c : ascii) : ascii :=
    let n := code c in
    if ((65 <=? n) && (n <=? 90)) || ((192 <=? n) && (n <=? 222) && negb (n =? 215))
    then ascii_of_nat (n + 32) else c.

Fixpoint lower (s : string) : string :=
    match s with
    | EmptyString => EmptyString
    | String c s' => String (lower_char c) (lower s')
    end.

  (** [c.isspace()] on code points below 256. *)
Definition isspace (c : ascii) : bool :=
    let n := code c in
    ((9 <=? n) && (n <=? 13)) || ((28 <=? n) && (n <=? 32)) || (n =? 133) || (n =? 160).

Fixpoint lstrip (s : string) : string :=
    match s with
    | EmptyString => EmptyString
    | String c s' => if isspace c then lstrip s' else s
    end.

  (** Drops the trailing white space: a character stays when it is not
      white space or when something stays after it. *)
Fixpoint rstrip (s : string) : string :=
    match s with
    | EmptyString => EmptyString
    | String c s' =>
        match rstrip s' with
        | EmptyString => if isspace c then EmptyString else String c EmptyString
        | r => String c r
        end
    end.

  (** [s.strip()] *)
Definition strip (s : string) : string := rstrip (lstrip s).

  (** [sub in s]: [sub] occurs in [s] as a contiguous substring. *)
Fixpoint contains (sub s : string) : bool :=
    prefix sub s ||
    match s with
    | EmptyString => false
    | String _ s' => contains sub s'
    end.

  (** [len(s.split())]: the number of maximal runs of characters that are
      not white space. [inword] tells whether the previous character
      belonged to a run. *)
Fixpoint count_words (inword : bool) (s : string) : nat :=
    match s with
    | EmptyString => 0
    | String c s' =>
        if isspace c then count_words false s'
        else (if inword then 0 else 1) + count_words true s'
    end.

Definition word_count (s : string) : nat := count_words false s.

  (** [s.replace(a, b)] for single characters [a] and [b]. *)
Fixpoint replace_char (a b : ascii) (s : string) : string :=
    match s with
    | EmptyString => EmptyString
    | String c s' => String (if Ascii.eqb c a then b else c) (replace_char a b s')
    end.

Definition is_lower_letter (c : ascii) : bool := (97 <=? code c) && (code c <=? 122).
Definition is_upper_letter (c : ascii) : bool := (65 <=? code c) && (code c <=? 90).
Definition upper_char (c : ascii) : ascii :=
    if is_lower_letter c then ascii_of_nat (code c - 32) else c.

  (** [s.title()] for ASCII text (it is only applied to the names of the
      knowledge base): a letter that follows a non-letter is upper-cased,
      a letter that follows a letter is lower-cased. *)
Fixpoint title_from (prev_cased : bool) (s : string) : string :=
    match s with
    | EmptyString => EmptyString
    | String c s' =>
        let cased := is_lower_letter c || is_upper_letter c in
        String (if cased then (if prev_cased then lower_char c else upper_char c) else c)
               (title_from cased s')
    end.

Definition title (s : string) : string := title_from false s.

  (** [x in xs] for a list of strings. *)
Definition mem (x : string) (xs : list string) : bool :=
    existsb (String.eqb x) xs.

End Text.

(* ------------------------------------------------------------------ *)
(** ** The fragment of [re] used by the symptom patterns *)

Module Regex.

  (** The syntax the five patterns are written in. *)
Inductive re : Type :=
  | Empty                    (* the empty pattern *)
  | Lit (c : ascii)          (* a literal character, compared ignoring case *)
  | Dot                      (* [.]: any character but a newline *)
  | Eos                      (* [$]: the end, or just before a final newline *)
  | Seq (a b : re)
  | Alt (a b : re)           (* [a|b], [a] tried first *)
  | Opt (a : re)             (* [a?], greedy *)
  | LazyStar (a : re)        (* [a*?] *)
  | Group (a : re).          (* [(a)], the capture group *)

Definition newline : ascii := ascii_of_nat 10.

Fixpoint lits (s : string) : re :=
    match s with
    | EmptyString => Empty
    | String c s' => Seq (Lit c) (lits s')
    end.

Definition at_end (s : string) : bool :=
    match s with
    | EmptyString => true
    | String c EmptyString => Ascii.eqb c newline
    | _ => false
    end.

  (** The text consumed between two suffixes [s0] and [s1] of the input. *)
Definition consumed (s0 s1 : string) : string :=
    substring 0 (String.length s0 - String.length s1) s0.

Section Matcher.
Context {A : Type}.

    (** Backtracking matcher in continuation-passing style. The state is
        the capture of the group, if it has closed, and the remaining
        input. With [re.IGNORECASE] a literal matches a character with the
        same lower case. A lazy star first tries to go on without a
        further round; its rounds are bounded by the length of the
        remaining input, which the one-character body [.] of the patterns
        never exhausts. *)
Fixpoint run (r : re) (cap : option string) (s : string)
             (k : option string -> string -> option A) {struct r} : option A :=
      match r with
      | Empty => k cap s
      | Lit c =>
          match s with
          | String d s' =>
              if Ascii.eqb (Text.lower_char c) (Text.lower_char d) then k cap s' else None
          | EmptyString => None
          end
      | Dot =>
          match s with
          | String d s' => if Ascii.eqb d newline then None else k cap s'
          | EmptyString => None
          end
      | Eos => if at_end s then k cap s else None
      | Seq a b => run a cap s (fun cap' s' => run b cap' s' k)
      | Alt a b =>
          match run a cap s k with
          | Some x => Some x
          | None => run b cap s k
          end
      | Opt a =>
          match run a cap s k with
          | Some x => Some x
          | None => k cap s
          end
      | LazyStar a =>
          (fix loop (fuel : nat) (cap : option string) (s : string) : option A :=
             match k cap s with
             | Some x => Some x
             | None =>
                 match fuel with
                 | O => None
                 | S fuel' => run a cap s (fun cap' s' => loop fuel' cap' s')
                 end
             end) (String.length s) cap s
      | Group a => run a cap s (fun _ s' => k (Some (consumed s s')) s')
      end.
End Matcher.

  (** [pattern.match] at the start of [s]: the capture and the rest. *)
Definition match_here (r : re) (s : string) : option (string * string) :=
    run r None s (fun cap s' => Some (match cap with Some c => c | None => "" end, s')).

  (** [re.findall(r, s)] for a pattern with one group: scan left to right,
      take the leftmost match, continue after it. [fuel] bounds the number
      of start positions still to try. After an empty match the scan moves
      on by one character. *)
Fixpoint findall_from (fuel : nat) (r : re) (s : string) : list string :=
    match fuel with
    | O => []
    | S fuel' =>
        let skip := match s with
                    | EmptyString => []
                    | String _ s' => findall_from fuel' r s'
                    end in
        match match_here r s with
        | Some (cap, rest) =>
            cap :: (if String.length rest <? String.length s
                    then findall_from fuel' r rest else skip)
        | None => skip
        end
    end.

Definition findall (r : re) (s : string) : list string :=
    findall_from (S (String.length s)) r s.

End Regex.

(* ------------------------------------------------------------------ *)
(** ** Python floats: IEEE-754 binary64 *)

Module F64.

Definition prec : Z := 53%Z.
Definition emax : Z := 1024%Z.

Definition float : Type := spec_float.

  (** [float(n)] for a non-negative [int], rounded to nearest even. From
      [2 ** 1024] on, where Python raises [OverflowError], the model gives
      infinity; no [len(...)] is that large. *)
Definition of_nat (n : nat) : float :=
    binary_normalize prec emax (Z.of_nat n) 0%Z false.

Definition mul : float -> float -> float := SFmul prec emax.
Definition add : float -> float -> float := SFadd prec emax.
Definition div : float -> float -> float := SFdiv prec emax.
Definition ltb : float -> float -> bool := SFltb.
Definition leb : float -> float -> bool := SFleb.

  (** [min(a, b)]: the first argument unless the second is smaller. *)
Definition min (a b : float) : float := if ltb b a then b else a.

  (** The decimal literals of the source, as the nearest binary64. *)
Definition lit_0_6  : float := S754_finite false 5404319552844595 (-53).
Definition lit_0_1  : float := S754_finite false 7205759403792794 (-56).
Definition lit_0_3  : float := S754_finite false 5404319552844595 (-54).
Definition lit_0_01 : float := S754_finite false 5764607523034235 (-59).
Definition lit_0_95 : float := S754_finite false 8556839292003942 (-53).
Definition lit_0_9  : float := S754_finite false 8106479329266893 (-53).

End F64.

(* ------------------------------------------------------------------ *)
(** ** [health_ai.py]: the triage core *)

Module HealthAI.

Import Regex.

  (** [SymptomAnalysis]; [is_emergency] and [response] have the defaults
      [False] and [""] of the dataclass. *)
Record SymptomAnalysis : Type := mkAnalysis {
    symptoms : list string;
    severity : string;
    urgency : string;
    confidence : F64.float;
    recommendations : list string;
    potential_conditions : list string;
    is_emergency : bool;
    response : string
  }.

Definition default_is_emergency : bool := false.
Definition default_response : string := "".

Definition emergency_keywords : list string :=
    [ "chest pain"; "heart attack"; "stroke"; "seizure"; "unconscious";
      "difficulty breathing"; "severe bleeding"; "poisoning"; "overdose";
      "severe allergic reaction"; "broken bone"; "head injury" ].

Record category_data : Type := mkCategory {
    keywords : list string;
    severity_indicators : list (string * list string)
  }.

  (** [_load_symptom_keywords] *)
Definition symptom_keywords : list (string * category_data) :=
    [ ("pain",
       mkCategory
         ["pain"; "ache"; "hurt"; "sore"; "tender"; "throbbing"; "stabbing"]
         [ ("mild", ["slight"; "minor"; "little"]);
           ("moderate", ["moderate"; "noticeable"]);
           ("severe", ["severe"; "intense"; "unbearable"; "excruciating"]) ]);
      ("fever",
       mkCategory
         ["fever"; "temperature"; "hot"; "chills"; "sweating"]
         [ ("mild", ["low grade"; "slight fever"]);
           ("moderate", ["fever"; "high temperature"]);
           ("severe", ["high fever"; "burning up"]) ]);
      ("respiratory",
       mkCategory
         ["cough"; "breathing"; "shortness of breath"; "wheezing"; "congestion"]
         [ ("mild", ["slight cough"; "light congestion"]);
           ("moderate", ["persistent cough"; "difficulty breathing"]);
           ("severe", ["severe breathing problems"; "can't breathe"]) ]);
      ("digestive",
       mkCategory
         ["nausea"; "vomiting"; "diarrhea"; "stomach pain"; "constipation"]
         [ ("mild", ["slight nausea"; "mild stomach upset"]);
           ("moderate", ["vomiting"; "stomach pain"]);
           ("severe", ["severe vomiting"; "intense stomach pain"]) ]);
      ("neurological",
       mkCategory
         ["headache"; "dizziness"; "confusion"; "memory problems"]
         [ ("mild", ["mild headache"; "slight dizziness"]);
           ("moderate", ["headache"; "dizzy"]);
           ("severe", ["severe headache"; "extreme dizziness"; "confusion"]) ]) ].

Record condition_data : Type := mkCondition {
    cond_symptoms : list string;
    cond_recommendations : list string
  }.

  (** [_load_medical_knowledge]['common_conditions'] *)
Definition common_conditions : list (string * condition_data) :=
    [ ("cold",
       mkCondition
         ["runny nose"; "sneezing"; "mild cough"; "sore throat"]
         ["Get plenty of rest"; "Drink fluids";
          "Consider over-the-counter medications";
          "Monitor symptoms for 7-10 days"]);
      ("flu",
       mkCondition
         ["fever"; "body aches"; "fatigue"; "cough"]
         ["Rest and isolation"; "Increase fluid intake";
          "Consider antiviral medication if within 48 hours";
          "Seek medical care if symptoms worsen"]);
      ("headache",
       mkCondition
         ["head pain"; "pressure"; "tension"]
         ["Rest in a quiet, dark room"; "Apply cold or warm compress";
          "Stay hydrated"; "Consider over-the-counter pain relievers"]);
      ("stomach_bug",
       mkCondition
         ["nausea"; "vomiting"; "diarrhea"; "stomach cramps"]
         ["Stay hydrated with clear fluids";
          "BRAT diet (bananas, rice, applesauce, toast)";
          "Rest"; "Avoid dairy and fatty foods"]) ].

  (** [_load_medical_knowledge]['general_advice'] *)
Definition general_advice : list string :=
    [ "This is not a substitute for professional medical advice";
      "Consult a healthcare provider for persistent or severe symptoms";
      "Call emergency services for life-threatening situations";
      "Keep track of your symptoms and their progression" ].

  (** [_is_emergency]: the loop returns at the first phrase found. *)
Fixpoint is_emergency_in (kws : list string) (message : string) : bool :=
    match kws with
    | [] => false
    | keyword :: rest =>
        if Text.contains keyword message then true else is_emergency_in rest message
    end.

Definition _is_emergency (message : string) : bool :=
    is_emergency_in emergency_keywords message.

  (** [_create_emergency_response]: the constructor call names six fields;
      [is_emergency] and [response] are left to their defaults. *)
Definition _create_emergency_response (message : string) : SymptomAnalysis :=
    mkAnalysis
      ["emergency situation detected"]
      "severe"
      "emergency"
      F64.lit_0_9
      [ "🚨 EMERGENCY: Call emergency services immediately (911)";
        "If possible, go to the nearest emergency room";
        "Do not drive yourself if experiencing severe symptoms";
        "Stay calm and follow emergency operator instructions" ]
      ["medical emergency"]
      default_is_emergency
      default_response.

  (** The five [symptom_patterns], in the order of the source. *)
Definition capture_any : re := Group (LazyStar Dot).
Definition dot_or_end : re := Alt (Lit ".") Eos.

Definition symptom_patterns : list re :=
    [ Seq (lits "i have ") (Seq capture_any dot_or_end);
      Seq (lits "experiencing ") (Seq capture_any dot_or_end);
      Seq (lits "feeling ") (Seq capture_any dot_or_end);
      Seq (lits "my ") (Seq capture_any (Seq (lits " hurt") (Opt (Lit "s"))));
      Seq capture_any (lits " is bothering me") ].

  (** First loop of [_extract_symptoms]: every keyword of every category
      found in the message is appended. *)
Definition scan_keywords (kws : list string) (message : string)
             (acc : list string) : list string :=
    fold_left
      (fun symptoms keyword =>
         if Text.contains keyword message then (symptoms ++ [keyword])%list else symptoms)
      kws acc.

Definition keyword_pass (message : string) (acc : list string) : list string :=
    fold_left
      (fun symptoms entry => scan_keywords (keywords (snd entry)) message symptoms)
      symptom_keywords acc.

  (** Body of the inner loop of the second loop. *)
Definition add_match (symptoms : list string) (m : string) : list string :=
    let clean_symptom := Text.strip m in
    if (2 <? String.length clean_symptom) && negb (Text.mem clean_symptom symptoms)
    then (symptoms ++ [clean_symptom])%list else symptoms.

Definition pattern_pass (message : string) (acc : list string) : list string :=
    fold_left
      (fun symptoms pattern => fold_left add_match (findall pattern message) symptoms)
      symptom_patterns acc.

  (** [_extract_symptoms] *)
Definition _extract_symptoms (message : string) : list string :=
    firstn 10 (pattern_pass message (keyword_pass message [])).

  (** The [if]/[elif] chain on the level name in [_assess_severity]. *)
Definition level_weight (level : string) : nat :=
    if String.eqb level "mild" then 1
    else if String.eqb level "moderate" then 3
    else if String.eqb level "severe" then 5
    else 0.

Definition scan_indicators (level : string) (indicators : list string)
             (message : string) (score : nat) : nat :=
    fold_left
      (fun severity_score indicator =>
         if Text.contains indicator message
         then severity_score + level_weight level else severity_score)
      indicators score.

Definition scan_levels (levels : list (string * list string))
             (message : string) (score : nat) : nat :=
    fold_left
      (fun severity_score entry => scan_indicators (fst entry) (snd entry) message severity_score)
      levels score.

Definition severity_score (message : string) (symptoms : list string) : nat :=
    fold_left
      (fun score entry => scan_levels (severity_indicators (snd entry)) message score)
      symptom_keywords 0
    + List.length symptoms.

  (** [_assess_severity] *)
Definition _assess_severity (message : string) (symptoms : list string) : string :=
    let score := severity_score message symptoms in
    if 8 <=? score then "severe"
    else if 4 <=? score then "moderate"
    else "mild".

  (** [_assess_urgency] *)
Definition _assess_urgency (severity : string) (symptoms : list string) : string :=
    if String.eqb severity "severe" then "high"
    else if String.eqb severity "moderate" then "medium"
    else "low".

Definition severity_advice (severity : string) : list string :=
    if String.eqb severity "severe" then
      [ "Seek immediate medical attention";
        "Consider visiting an urgent care center or emergency room";
        "Monitor symptoms closely" ]
    else if String.eqb severity "moderate" then
      [ "Consider consulting with a healthcare provider";
        "Monitor symptoms for changes";
        "Rest and self-care measures may help" ]
    else
      [ "Try home remedies and self-care";
        "Monitor symptoms for any worsening";
        "Consider over-the-counter treatments if appropriate" ].

Definition symptom_advice (recs : list string) (symptom : string) : list string :=
    if Text.contains "fever" symptom then
      (recs ++ ["Stay hydrated and consider fever reducers"])%list
    else if Text.contains "pain" symptom then
      (recs ++ ["Apply appropriate hot/cold therapy"])%list
    else if Text.contains "cough" symptom then
      (recs ++ ["Try throat lozenges or warm liquids"])%list
    else recs.

  (** [_generate_recommendations]; the final [list(set(...))] keeps one
      copy of every entry. *)
Definition _generate_recommendations (symptoms : list string) (severity : string)
    : list string :=
    let recs := severity_advice severity in
    let recs := fold_left symptom_advice symptoms recs in
    let recs := (recs ++ general_advice)%list in
    nodup string_dec recs.

  (** The two inner loops of [_identify_conditions]: one count per pair of
      a defining phrase and a user symptom that contains it. *)
Definition count_user_matches (condition_symptom : string)
             (symptoms : list string) (match_count : nat) : nat :=
    fold_left
      (fun count user_symptom =>
         if Text.contains (Text.lower condition_symptom) (Text.lower user_symptom)
         then count + 1 else count)
      symptoms match_count.

Definition match_count (data : condition_data) (symptoms : list string) : nat :=
    fold_left
      (fun count condition_symptom => count_user_matches condition_symptom symptoms count)
      (cond_symptoms data) 0.

  (** [condition.replace('_', ' ').title()] *)
Definition display_name (condition : string) : string :=
    Text.title (Text.replace_char "_" " " condition).

Definition identify_in (conds : list (string * condition_data))
             (symptoms : list string) : list string :=
    fold_left
      (fun potential_conditions entry =>
         if 2 <=? match_count (snd entry) symptoms
         then (potential_conditions ++ [display_name (fst entry)])%list
         else potential_conditions)
      conds [].

  (** [_identify_conditions] *)
Definition _identify_conditions (symptoms : list string) : list string :=
    identify_in common_conditions symptoms.

  (** [_calculate_confidence] *)
Definition _calculate_confidence (symptoms : list string) (message : string) : F64.float :=
    let base_confidence := F64.lit_0_6 in
    let symptom_bonus :=
      F64.min (F64.mul (F64.of_nat (List.length symptoms)) F64.lit_0_1) F64.lit_0_3 in
    let message_length_bonus :=
      F64.min (F64.mul (F64.of_nat (Text.word_count message)) F64.lit_0_01) F64.lit_0_1 in
    F64.min (F64.add (F64.add base_confidence symptom_bonus) message_length_bonus)
            F64.lit_0_95.

  (** [analyze_message] *)
Definition analyze_message (message : string) : SymptomAnalysis :=
    let message := Text.strip (Text.lower message) in
    if _is_emergency message then _create_emergency_response message
    else
      let symptoms := _extract_symptoms message in
      let severity := _assess_severity message symptoms in
      let urgency := _assess_urgency severity symptoms in
      let recommendations := _generate_recommendations symptoms severity in
      let potential_conditions := _identify_conditions symptoms in
      let confidence := _calculate_confidence symptoms message in
      mkAnalysis symptoms severity urgency confidence recommendations
                 potential_conditions default_is_emergency default_response.

  (** [_format_emergency_response] *)
Definition _format_emergency_response : string :=
    "🚨 EMERGENCY DETECTED 🚨

This appears to be a medical emergency!

IMMEDIATE ACTIONS:
1. Call emergency services (911) NOW
2. If possible, go to the nearest emergency room
3. Do not drive yourself
4. Stay calm and follow emergency operator instructions

This AI cannot provide emergency medical care. Please seek immediate professional help.

Stay safe! 🙏".

Section Formatting.
    (** The format specification [:.0%] applied to a float. *)
Variable format_percent : F64.float -> string.

Definition string_of_nat (n : nat) : string :=
      NilEmpty.string_of_uint (Nat.to_uint n).

    (** The numbered lines [f"{i}. {rec}"] of [enumerate(recs, i)]. *)
Fixpoint numbered (i : nat) (recs : list string) : list string :=
      match recs with
      | [] => []
      | rec :: rest => (string_of_nat i ++ ". " ++ rec) :: numbered (S i) rest
      end.

    (** [format_response] *)
Definition format_response (analysis : SymptomAnalysis) (user_name : string) : string :=
      if String.eqb (urgency analysis) "emergency" then _format_emergency_response
      else
        let response_parts := ["Hi " ++ user_name ++ "! I've analyzed your symptoms."] in
        let response_parts :=
          match symptoms analysis with
          | [] => response_parts
          | _ =>
              (app response_parts ["📋 Symptoms identified: " ++ String.concat ", " (firstn 5 (symptoms analysis))])
          end in
        let response_parts :=
          (app response_parts ["📊 Severity: " ++ Text.title (severity analysis)]) in
        let response_parts :=
          match potential_conditions analysis with
          | [] => response_parts
          | _ =>
              (app response_parts ["🔍 This might be related to: " ++ String.concat ", " (potential_conditions analysis)])
          end in
        let response_parts := (app response_parts ["💡 Recommendations:"]) in
        let response_parts :=
          (app response_parts (numbered 1 (firstn 6 (recommendations analysis)))) in
        let response_parts :=
          (app response_parts ["ℹ️ Confidence: " ++ format_percent (confidence analysis)]) in
        let response_parts :=
          (app response_parts ["⚠️ This is AI-generated advice. Always consult healthcare professionals for serious concerns."]) in
        String.concat (String Regex.newline (String Regex.newline "")) response_parts.
End Formatting.

  (** [get_health_tips] *)
Definition get_health_tips : list string :=
    [ "💧 Stay hydrated - drink 8 glasses of water daily";
  "🏃‍♂️ Get regular exercise - at least 30 minutes daily";
  "😴 Maintain good sleep hygiene - 7-9 hours per night";
  "🥗 Eat a balanced diet with plenty of fruits and vegetables";
  "🧼 Wash your hands regularly to prevent infections";
  "😌 Manage stress through relaxation techniques";
  "🩺 Schedule regular check-ups with your healthcare provider" ].

End HealthAI.

(* ------------------------------------------------------------------ *)
(** ** Calls to the collaborators: results, exceptions and the call trace *)

Module Effects.

  (** A raised exception: whether its class derives from [Exception] (what
      [except Exception] catches) and its [str(e)]. *)
Record exn : Type := mkExn { is_Exception : bool; exn_str : string }.

Inductive result (A : Type) : Type :=
  | Ok (a : A)
  | Raised (e : exn).
Arguments Ok {A} a.
Arguments Raised {A} e.

  (** What a handler does besides computing its reply. *)
Inductive event : Type :=
  | HealthAnalyze (message : string)          (* [HealthAI.analyze_message] ran *)
  | GeminiGenerate (prompt : string)          (* [gemini_model.generate_content] *)
  | LogError (text : string)                  (* [logger.error] *)
  | DbGetUserInfo (phone : string)            (* [db.get_user_info] *)
  | DbStoreMessage (phone text kind : string). (* [db.store_message] *)

  (** A computation: the calls it made, in order, and how it ended. *)
Definition M (A : Type) : Type := list event * result A.

Definition ret {A} (a : A) : M A := ([], Ok a).
Definition raise {A} (e : exn) : M A := ([], Raised e).
Definition emit (ev : event) : M unit := ([ev], Ok tt).

Definition bind {A B} (m : M A) (f : A -> M B) : M B :=
    match m with
    | (t, Ok a) => let (t', r) := f a in ((t ++ t')%list, r)
    | (t, Raised e) => (t, Raised e)
    end.

  (** [try: body except Exception as e: handler(e)] *)
Definition try_except {A} (body : M A) (handler : exn -> M A) : M A :=
    match body with
    | (t, Raised e) =>
        if is_Exception e
        then let (t', r) := handler e in ((t ++ t')%list, r)
        else (t, Raised e)
    | ok => ok
    end.

Definition trace {A} (m : M A) : list event := fst m.
Definition outcome {A} (m : M A) : result A := snd m.

Definition is_triage (ev : event) : bool :=
    match ev with HealthAnalyze _ => true | _ => false end.

End Effects.

Declare Scope eff_scope.
Notation "x <- m ;; k" := (Effects.bind m (fun x => k))
  (at level 61, m at next level, right associativity) : eff_scope.
Notation "m ;;; k" := (Effects.bind m (fun _ => k))
  (at level 61, right associativity) : eff_scope.

(* ------------------------------------------------------------------ *)
(** ** [gemini_ai.py]: health questions to the triage core, the rest to the delegate *)

Module EnhancedAI.

Import Effects.
Local Open Scope eff_scope.

Definition health_keywords : list string :=
    [ "pain"; "hurt"; "ache"; "fever"; "sick"; "ill"; "nausea"; "vomit";
      "headache"; "stomach"; "cough"; "cold"; "flu"; "dizzy"; "tired";
      "fatigue"; "symptom"; "doctor"; "medicine"; "treatment"; "health";
      "medical"; "hospital"; "injury"; "wound"; "bleeding"; "infection";
      "allergy"; "rash"; "breathing"; "chest"; "heart"; "temperature";
      "swollen"; "sore"; "cramp"; "sprain"; "broken"; "burn"; "cut" ].

Definition health_patterns : list string :=
    [ "i feel"; "i have"; "my body"; "experiencing"; "suffering from";
      "what should i do for"; "how to treat"; "is it normal";
      "should i see a doctor"; "medical advice" ].

  (** A loop that returns [True] at the first entry found in the text. *)
Fixpoint any_in (entries : list string) (text : string) : bool :=
    match entries with
    | [] => false
    | entry :: rest => if Text.contains entry text then true else any_in rest text
    end.

  (** [is_health_related] *)
Definition is_health_related (message : string) : bool :=
    let message_lower := Text.lower message in
    if any_in health_keywords message_lower then true
    else if any_in health_patterns message_lower then true
    else false.

  (** [_get_fallback_health_response] *)
Definition _get_fallback_health_response (user_name : string) : string :=
    "Hi " ++ user_name ++ "! I'm having trouble analyzing your symptoms right now.
        
ðŸ¥ For health concerns, I recommend:
â€¢ Consulting with a healthcare professional
â€¢ Calling your doctor if symptoms are concerning
â€¢ Visiting urgent care for serious issues
â€¢ Calling 911 for emergencies

ðŸ’¡ You can also try rephrasing your question and I'll do my best to help!".

  (** [_get_fallback_general_response] *)
Definition _get_fallback_general_response (user_name : string) : string :=
    "Hi " ++ user_name ++ "! I'm currently optimized for health and medical questions.
        
ðŸ¥ I can help you with:
â€¢ Symptom analysis
â€¢ Health recommendations  
â€¢ Medical advice and guidance
â€¢ Emergency situation assessment

ðŸ’¡ Try asking me about any health concerns you might have!

âš ï¸ For other topics, I'm still learning. My AI capabilities are expanding soon!".

  (** The prompt built in [_handle_general_question]. *)
Definition general_prompt (message : string) : string :=
    "You are a helpful AI assistant responding to a WhatsApp message. 
            Keep your response concise (under 300 words), friendly, and helpful.
            
            User's message: " ++ message ++ "
            
            Provide a helpful response. If it's a question, answer it clearly. 
            If it's a request for advice, provide practical suggestions.
            Use emojis sparingly but appropriately to make it friendly for messaging.".

Definition health_note : string :=
    "

ðŸ¥ Need health advice? I can also analyze symptoms and provide medical guidance!".

Definition general_note : string :=
    "

ðŸ’¡ I can also help with general questions, advice, or any other topics!".

Section Instance.
    (** The state of an [EnhancedAI] object and its delegate:
        [gemini_available], and what [generate_content(prompt)] followed by
        reading [.text] gives, a text or an exception. *)
Variable gemini_available : bool.
Variable generate_content : string -> result string.
Variable format_percent : F64.float -> string.

Definition call_health_ai (message : string) : M HealthAI.SymptomAnalysis :=
      emit (HealthAnalyze message) ;;; ret (HealthAI.analyze_message message).

Definition call_gemini (prompt : string) : M string :=
      ([GeminiGenerate prompt], generate_content prompt).

    (** [_handle_health_question] *)
Definition _handle_health_question (message user_name : string) : M string :=
      try_except
        (analysis <- call_health_ai message ;;
         let response := HealthAI.format_response format_percent analysis user_name in
         let response := if gemini_available then response ++ general_note else response in
         ret response)
        (fun e =>
           emit (LogError ("Health analysis error: " ++ exn_str e)) ;;;
           ret (_get_fallback_health_response user_name)).

    (** [_handle_general_question] *)
Definition _handle_general_question (message user_name : string) : M string :=
      if negb gemini_available then ret (_get_fallback_general_response user_name)
      else
        try_except
          (let prompt := general_prompt message in
           response_text <- call_gemini prompt ;;
           let ai_response := "Hi " ++ user_name ++ "! " ++ response_text in
           let ai_response := ai_response ++ health_note in
           ret ai_response)
          (fun e =>
             emit (LogError ("Gemini API error: " ++ exn_str e)) ;;;
             ret (_get_fallback_general_response user_name)).

    (** [analyze_message] *)
Definition analyze_message (message user_name : string) : M string :=
      if is_health_related message
      then _handle_health_question message user_name
      else _handle_general_question message user_name.

    (** [get_health_tips] *)
Definition get_health_tips : string :=
      String.concat (String Regex.newline "") HealthAI.get_health_tips.

End Instance.

End EnhancedAI.

(* ------------------------------------------------------------------ *)
(** ** [whatsapp_bot.py]: the message handler *)

Module WhatsAppBot.

Import Effects.
Local Open Scope eff_scope.

Definition dq : string := String (ascii_of_nat 34) "".

  (** [_get_welcome_message] *)
Definition _get_welcome_message : string :=
    "👋 Welcome to your AI Assistant!

I'm here to help you with:
🩺 Health questions and symptom analysis
🤖 General questions and advice
💡 Tips and guidance on any topic

🔹 Ask me about your health concerns
🔹 Ask me general questions (weather, advice, etc.)
🔹 Type 'help' for more options

⚠️ IMPORTANT: For medical emergencies, call 911 immediately.

How can I help you today?".

  (** [_get_help_message] *)
Definition _get_help_message : string :=
    "🆘 How I can help you:

1. 🩺 **Health & Medical Questions**
   Describe your symptoms for personalized health guidance

2. 🤖 **General AI Assistant**
   Ask me anything! I can help with advice, questions, explanations, and more

3. 💡 **Health Tips**
   Type 'tips' for general health advice

4. 🚨 **Emergencies**
   For medical emergencies, call 911 immediately

**Example messages:**
• " ++ dq ++ "I have a headache and feel nauseous" ++ dq ++ "
• " ++ dq ++ "What's the weather like today?" ++ dq ++ "
• " ++ dq ++ "Tell me a joke" ++ dq ++ "
• " ++ dq ++ "How do I cook pasta?" ++ dq ++ "
• " ++ dq ++ "Give me some health tips" ++ dq ++ "

I'm powered by advanced AI and can help with both medical and general questions!".

  (** [_get_emergency_message] *)
Definition _get_emergency_message : string :=
    "🚨 EMERGENCY RESPONSE 🚨

If this is a medical emergency:
📞 Call 911 immediately
🏥 Go to the nearest emergency room

For urgent but non-emergency care:
📞 Call your doctor
🏥 Visit an urgent care center

I'm an AI assistant and cannot provide emergency medical care. Please seek immediate professional help for serious medical situations.

Stay safe! 🙏".

  (** [_get_health_tips] *)
Definition _get_health_tips : string :=
    let tips := EnhancedAI.get_health_tips in
    "💡 Daily Health Tips:

" ++ tips ++ "

Remember: Small daily habits make a big difference in your overall health! 

Need help with specific symptoms or have other questions? Just ask me anything!".

  (** [any(w in text for w in words)] *)
Definition any_word_in (words : list string) (text : string) : bool :=
    existsb (fun w => Text.contains w text) words.

Definition greetings : list string := ["hi"; "hello"; "hey"; "start"].
Definition help_words : list string := ["help"; "menu"; "options"].
Definition emergency_words : list string := ["emergency"; "911"; "urgent"].

Section Instance.
Variable gemini_available : bool.
Variable generate_content : string -> result string.
Variable format_percent : F64.float -> string.
    (** The storage collaborator: [get_user_info] gives [None] or a row
        whose [name] column may be [NULL]; [store_message] gives nothing
        back. Either may raise. *)
Variable get_user_info : string -> result (option (option string)).
Variable store_message : string -> string -> string -> result unit.

Definition db_get_user_info (phone : string) : M (option (option string)) :=
      ([DbGetUserInfo phone], get_user_info phone).

Definition db_store_message (phone text kind : string) : M unit :=
      ([DbStoreMessage phone text kind], store_message phone text kind).

    (** [user_info.get('name', 'there') if user_info else 'there'], as the
        f-strings render it: a [NULL] name prints as [None]. *)
Definition user_name_of (user_info : option (option string)) : string :=
      match user_info with
      | None => "there"
      | Some None => "None"
      | Some (Some name) => name
      end.

    (** [_analyze_message]. The [hasattr] guard never fires: [__init__]
        sets [enhanced_ai]. The slice [response[:100]] of the stored copy
        counts bytes here where the reply holds characters outside ASCII. *)
Definition _analyze_message (phone_number message : string) : M string :=
      try_except
        (user_info <- db_get_user_info phone_number ;;
         let user_name := user_name_of user_info in
         response <- EnhancedAI.analyze_message gemini_available generate_content
                       format_percent message user_name ;;
         db_store_message phone_number
           ("AI Response: " ++ substring 0 100 response ++ "...") "analysis" ;;;
         ret response)
        (fun e =>
           emit (LogError ("Error in message analysis: " ++ exn_str e)) ;;;
           ret ("Debug Error: " ++ exn_str e)).

    (** [_handle_message] *)
Definition _handle_message (phone_number message : string) : M string :=
      let message_lower := Text.strip (Text.lower message) in
      if any_word_in greetings message_lower then ret _get_welcome_message
      else if any_word_in help_words message_lower then ret _get_help_message
      else if Text.contains "tips" message_lower || Text.contains "advice" message_lower
      then ret _get_health_tips
      else if any_word_in emergency_words message_lower then ret _get_emergency_message
      else _analyze_message phone_number message.

End Instance.

End WhatsAppBot.

(* ------------------------------------------------------------------ *)
(** ** Further [str] methods used by the transport and utility code *)

Module Str.

(** [c.isdigit()] on code points below 256: the ASCII digits and the
    superscripts two, three and one. *)
Definition isdigit (c : ascii) : bool :=
  let n := Text.code c in
  ((48 <=? n) && (n <=? 57)) || (n =? 178) || (n =? 179) || (n =? 185).

(** The class [\d] of [re] on code points below 256: the ASCII digits. *)
Definition is_decimal (c : ascii) : bool :=
  let n := Text.code c in (48 <=? n) && (n <=? 57).

(** [''.join(c for c in s if keep(c))] *)
Fixpoint filter_chars (keep : ascii -> bool) (s : string) : string :=
  match s with
  | EmptyString => EmptyString
  | String c s' => if keep c then String c (filter_chars keep s') else filter_chars keep s'
  end.

(** Scan of [s.replace(sub, '')]: [skip] characters of an occurrence found
    earlier are still to be dropped; an occurrence is looked for only
    after the previous one has ended. *)
Fixpoint remove_from (sub : string) (skip : nat) (s : string) : string :=
  match s with
  | EmptyString => EmptyString
  | String c s' =>
      match skip with
      | S k => remove_from sub k s'
      | O =>
          if prefix sub s then remove_from sub (String.length sub - 1) s'
          else String c (remove_from sub 0 s')
      end
  end.

(** [s.replace(sub, '')]; an empty [sub] leaves [s] as it is. *)
Definition remove_all (sub s : string) : string :=
  match sub with
  | EmptyString => s
  | _ => remove_from sub 0 s
  end.

(** Scan of [s.split(sep)] for a non-empty [sep]: [cur] is the piece read
    so far. *)
Fixpoint split_from (sep : string) (skip : nat) (cur : string) (s : string) : list string :=
  match s with
  | EmptyString => [cur]
  | String c s' =>
      match skip with
      | S k => split_from sep k cur s'
      | O =>
          if prefix sep s then cur :: split_from sep (String.length sep - 1) "" s'
          else split_from sep 0 (cur ++ String c "") s'
      end
  end.

(** [s.split(sep)], [sep] not empty. *)
Definition split (sep s : string) : list string := split_from sep 0 "" s.

End Str.

(* ------------------------------------------------------------------ *)
(** ** [gemini_ai.py]: the connection test *)

Module GeminiCheck.

Import Effects.

(** The dictionary [test_gemini_connection] returns. *)
Record report : Type := mkReport {
  status : string;
  message : string;
  gemini_configured : bool
}.

Definition test_prompt : string := "Hello! Please respond with 'Gemini is working!'".

Section Instance.
Variable gemini_available : bool.
Variable generate_content : string -> result string.

(** [test_gemini_connection] *)
Definition test_gemini_connection : M report :=
  if negb gemini_available
  then ret (mkReport "error" "Gemini API not available" false)
  else
    try_except
      (bind (EnhancedAI.call_gemini generate_content test_prompt)
            (fun text => ret (mkReport "success" text true)))
      (fun e => ret (mkReport "error" ("Gemini test failed: " ++ exn_str e) false)).

End Instance.

End GeminiCheck.

(* ------------------------------------------------------------------ *)
(** ** [whatsapp_bot.py]: receiving and sending *)

Module Transport.

Import Effects.
Local Open Scope eff_scope.

(** [_clean_phone_number] *)
Definition _clean_phone_number (phone_number : string) : string :=
  let clean_number := Str.remove_all "whatsapp:" phone_number in
  Str.filter_chars (fun c => Str.isdigit c || Ascii.eqb c "+") clean_number.

(** [n if n.startswith('whatsapp:') else f'whatsapp:{n}'], the statement
    [send_message] applies to both numbers. *)
Definition with_whatsapp_prefix (number : string) : string :=
  if prefix "whatsapp:" number then number else "whatsapp:" ++ number.

Definition apology : string :=
  "I'm sorry, I encountered an error processing your message. Please try again later.".

Section Instance.
Variable gemini_available : bool.
Variable generate_content : string -> result string.
Variable format_percent : F64.float -> string.
Variable get_user_info : string -> result (option (option string)).
Variable store_message : string -> string -> string -> result unit.
(** The Twilio client: [client.messages.create(body, from_, to)] gives the
    message with its [sid], or raises; [is_twilio] tells the exceptions of
    class [TwilioException], which have an [except] clause of their own. *)
Variable twilio_number : string.
Variable messages_create : string -> string -> string -> result string.
Variable is_twilio : exn -> bool.

(** [process_incoming_message]. The two [logger.info] calls leave no entry
    in the call trace. *)
Definition process_incoming_message (from_number message_body : string) : M string :=
  try_except
    (let clean_number := _clean_phone_number from_number in
     WhatsAppBot.db_store_message store_message clean_number message_body "incoming" ;;;
     response <- WhatsAppBot._handle_message gemini_available generate_content
                   format_percent get_user_info store_message clean_number message_body ;;
     WhatsAppBot.db_store_message store_message clean_number response "outgoing" ;;;
     ret response)
    (fun e =>
       emit (LogError ("Error processing message: " ++ exn_str e)) ;;;
       ret apology).

(** The arguments [send_message] passes to the client: body, sender,
    recipient. *)
Definition create_arguments (to_number message_body : string) : string * string * string :=
  (message_body, with_whatsapp_prefix twilio_number, with_whatsapp_prefix to_number).

(** [send_message] *)
Definition send_message (to_number message_body : string) : M bool :=
  try_except
    (let '(body, from_, to) := create_arguments to_number message_body in
     sid <- ([], messages_create body from_ to) ;;
     ret true)
    (fun e =>
       emit (LogError ((if is_twilio e then "Twilio error sending message: "
                        else "Unexpected error sending message: ") ++ exn_str e)) ;;;
       ret false).

End Instance.

End Transport.

(* ------------------------------------------------------------------ *)
(** ** [utils.py]: phone numbers, chunks, rate limiting *)

Module Utils.

(** [sanitize_phone_number]; [re.sub(r'[^\d+]', '', s)] keeps the decimal
    digits and the plus signs. *)
Definition sanitize_phone_number (phone_number : string) : string :=
  let clean_number := Str.remove_all "whatsapp:" phone_number in
  let clean_number :=
    Str.filter_chars (fun c => Str.is_decimal c || Ascii.eqb c "+") clean_number in
  if negb (prefix "+" clean_number) then
    if String.length clean_number =? 10 then "+1" ++ clean_number
    else if (String.length clean_number =? 11) && prefix "1" clean_number
         then "+" ++ clean_number
         else clean_number
  else clean_number.

Definition paragraph_sep : string := String Regex.newline (String Regex.newline "").






Section RateLimiter.
(** Clock readings, and the test [now - call_time < self.time_window] of
    the limiter at hand. *)
Variable time : Type.
Variable within_window : time -> time -> bool.
Variable max_calls : Z.

(** [self.calls]: the call times recorded per identifier. *)
Definition calls_map : Type := string -> option (list time).

Definition no_calls : calls_map := fun _ => None.

Definition set_calls (calls : calls_map) (identifier : string) (times : list time)
  : calls_map :=
  fun i => if String.eqb i identifier then Some times else calls i.

(** [is_allowed], with the reading [now] of the clock: the new dictionary
    and the answer. *)
Definition is_allowed (calls : calls_map) (identifier : string) (now : time)
  : calls_map * bool :=
  let kept :=
    match calls identifier with
    | Some times => filter (fun call_time => within_window now call_time) times
    | None => []
    end in
  let calls := set_calls calls identifier kept in
  if (Z.of_nat (List.length kept) <? max_calls)%Z
  then (set_calls calls identifier (kept ++ [now])%list, true)
  else (calls, false).

(** A run of requests, each an identifier and the clock reading of its
    call, from a given dictionary: the final dictionary and the answers. *)
Fixpoint run_requests (calls : calls_map) (requests : list (string * time))
  : calls_map * list bool :=
  match requests with
  | [] => (calls, [])
  | (identifier, now) :: rest =>
      let '(calls', answer) := is_allowed calls identifier now in
      let '(final, answers) := run_requests calls' rest in
      (final, answer :: answers)
  end.

End RateLimiter.

End Utils.

(* ================================================================== *)
(** * Vocabulary of the properties *)

Import Effects.

(** The text every analysis works on: [message.lower().strip()]. *)
Definition normalize (message : string) : string := Text.strip (Text.lower message).

(** [sub] occurs in [s]: some text before it and some text after it. *)
Definition occurs_in (sub s : string) : Prop :=
  exists pre post, s = pre ++ sub ++ post.

(** A phrase that neither starts nor ends with white space. *)
Definition starts_solid (sub : string) : bool :=
  match sub with
  | EmptyString => false
  | String a _ => negb (Text.isspace a)
  end.

Fixpoint ends_solid (sub : string) : bool :=
  match sub with
  | EmptyString => false
  | String a EmptyString => negb (Text.isspace a)
  | String _ sub' => ends_solid sub'
  end.

Definition solid (sub : string) : bool := starts_solid sub && ends_solid sub.

(** Every (category, level, indicator phrase) triple of the knowledge
    base, as the specification enumerates them. *)
Definition indicator_triples : list (string * string * string) :=
  flat_map
    (fun entry =>
       flat_map
         (fun lv => map (fun phrase => (fst entry, fst lv, phrase)) (snd lv))
         (HealthAI.severity_indicators (snd entry)))
    HealthAI.symptom_keywords.

(** The fixed weights of the specification: mild 1, moderate 3, severe 5. *)
Definition weight_table : list (string * nat) :=
  [("mild", 1); ("moderate", 3); ("severe", 5)].

Definition weight_of_level (level : string) : nat :=
  match find (fun row => String.eqb level (fst row)) weight_table with
  | Some row => snd row
  | None => 0
  end.

(** The weight a triple contributes for a text: its level's weight when
    its phrase occurs in the text. *)
Definition triple_weight (text : string) (t : string * string * string) : nat :=
  if Text.contains (snd t) text then weight_of_level (snd (fst t)) else 0.

(** The score of the indicator phrases: all matches accumulate. *)
Definition indicator_score (text : string) : nat :=
  list_sum (map (triple_weight text) indicator_triples).

(** Every keyword of the knowledge base, category after category. *)
Definition all_keywords : list string :=
  flat_map (fun entry => HealthAI.keywords (snd entry)) HealthAI.symptom_keywords.

(** The keywords that occur in a text, in knowledge-base order. *)
Definition keyword_matches (text : string) : list string :=
  filter (fun keyword => Text.contains keyword text) all_keywords.

(** The trimmed captures of the five patterns, pattern after pattern and,
    for one pattern, from left to right. *)
Definition trimmed_captures (text : string) : list string :=
  flat_map (fun pattern => map Text.strip (Regex.findall pattern text))
           HealthAI.symptom_patterns.

(** Of the candidates [cs], in order, those longer than 2 characters that
    are neither in [seen] nor an earlier kept candidate. *)
Fixpoint keep_new (seen : list string) (cs : list string) : list string :=
  match cs with
  | [] => []
  | c :: cs' =>
      if (2 <? String.length c) && negb (Text.mem c seen)
      then c :: keep_new (seen ++ [c])%list cs'
      else keep_new seen cs'
  end.

(** The defining phrases of a condition that occur, ignoring case, in at
    least one of the symptoms: the count the specification describes. *)
Definition phrases_matched (data : HealthAI.condition_data) (symptoms : list string)
  : list string :=
  filter
    (fun phrase =>
       existsb (fun s => Text.contains (Text.lower phrase) (Text.lower s)) symptoms)
    (HealthAI.cond_symptoms data).

(** The symptoms that contain a given defining phrase, ignoring case. *)
Definition symptoms_with (phrase : string) (symptoms : list string) : list string :=
  filter (fun s => Text.contains (Text.lower phrase) (Text.lower s)) symptoms.

(** Every defining phrase of every condition. *)
Definition condition_phrases : list string :=
  flat_map (fun entry => HealthAI.cond_symptoms (snd entry)) HealthAI.common_conditions.

(** Some phrase of the list occurs in the lower-cased message. *)
Definition mentions (phrases : list string) (message : string) : bool :=
  existsb (fun phrase => Text.contains phrase (Text.lower message)) phrases.

(** [s] is a suffix of [input]. *)
Definition suffix_of (s input : string) : Prop := exists pre, input = pre ++ s.

(** A capture, when there is one, is a part of [input]. *)
Definition cap_ok (input : string) (cap : option string) : Prop :=
  forall c, cap = Some c -> occurs_in c input.

(** The confidence of the specification, on the symptom count and the
    word count: [min(0.6 + min(0.1 * n, 0.3) + min(0.01 * w, 0.1), 0.95)]
    in binary64 arithmetic. *)
Definition confidence_formula (symptom_count word_count : nat) : F64.float :=
  F64.min
    (F64.add
       (F64.add F64.lit_0_6
                (F64.min (F64.mul F64.lit_0_1 (F64.of_nat symptom_count)) F64.lit_0_3))
       (F64.min (F64.mul F64.lit_0_01 (F64.of_nat word_count)) F64.lit_0_1))
    F64.lit_0_95.

(** The table of the formula on the saturated arguments. *)
Definition confidence_table_ok : bool :=
  forallb (fun n => forallb (fun w =>
    F64.leb F64.lit_0_6 (confidence_formula n w) &&
    F64.leb (confidence_formula n w) F64.lit_0_95 &&
    forallb (fun n' => forallb (fun w' =>
      negb ((n <=? n') && (w <=? w')) ||
      F64.leb (confidence_formula n w) (confidence_formula n' w'))
      (seq 0 11)) (seq 0 4))
    (seq 0 11)) (seq 0 4).

(** The advice one symptom adds: the first of fever, pain, cough that it
    mentions. *)
Definition fever_advice : string := "Stay hydrated and consider fever reducers".
Definition pain_advice : string := "Apply appropriate hot/cold therapy".
Definition cough_advice : string := "Try throat lozenges or warm liquids".

Definition advice_for (symptom : string) : list string :=
  if Text.contains "fever" symptom then [fever_advice]
  else if Text.contains "pain" symptom then [pain_advice]
  else if Text.contains "cough" symptom then [cough_advice]
  else [].

(** The three severity levels in increasing order. *)
Definition severity_rank (severity : string) : nat :=
  if String.eqb severity "severe" then 2
  else if String.eqb severity "moderate" then 1
  else 0.

(** The display names of the conditions, in knowledge-base order. *)
Definition condition_names : list string :=
  map (fun entry => HealthAI.display_name (fst entry)) HealthAI.common_conditions.

(** The closing sentence of every formatted analysis. *)
Definition disclaimer : string :=
  "⚠️ This is AI-generated advice. Always consult healthcare professionals for serious concerns.".

(** The words on which the message handler answers with a canned text. *)
Definition trigger_words : list string :=
  (WhatsAppBot.greetings ++ WhatsAppBot.help_words ++ ["tips"; "advice"]
   ++ WhatsAppBot.emergency_words)%list.

(** The four canned texts of the message handler. *)
Definition canned_replies : list string :=
  [ WhatsAppBot._get_welcome_message; WhatsAppBot._get_help_message;
    WhatsAppBot._get_health_tips; WhatsAppBot._get_emergency_message ].

(** Every exception a collaborator raises derives from [Exception]. *)
Definition raises_only_Exception {A B : Type} (f : A -> result B) : Prop :=
  forall a e, f a = Raised e -> is_Exception e = true.
(** Every character of [s] satisfies [p]. *)
Fixpoint all_chars (p : ascii -> bool) (s : string) : bool :=
  match s with
  | EmptyString => true
  | String c s' => p c && all_chars p s'
  end.

(** The characters [_clean_phone_number] keeps. *)
Definition phone_char (c : ascii) : bool := Str.isdigit c || Ascii.eqb c "+".

(** The characters [sanitize_phone_number] keeps. *)
Definition dial_char (c : ascii) : bool := Str.is_decimal c || Ascii.eqb c "+".

(** The next [k] characters of [s] exist and all fail [keep]. *)
Fixpoint drops (keep : ascii -> bool) (k : nat) (s : string) : Prop :=
  match k with
  | O => True
  | S k' =>
      match s with
      | EmptyString => False
      | String c s' => keep c = false /\ drops keep k' s'
      end
  end.


(** The answers a run gave to the requests of one identifier. *)
Definition answers_for {time : Type} (identifier : string)
           (requests : list (string * time)) (answers : list bool) : list bool :=
  map snd (filter (fun entry => String.eqb (fst (fst entry)) identifier)
                  (combine requests answers)).

(** The requests of one identifier. *)
Definition requests_of {time : Type} (identifier : string)
           (requests : list (string * time)) : list (string * time) :=
  filter (fun request => String.eqb (fst request) identifier) requests.


(** The number of call times a dictionary holds for an identifier. *)
Definition recorded {time : Type} (calls : string -> option (list time))
           (identifier : string) : nat :=
  match calls identifier with
  | Some times => List.length times
  | None => 0
  end.


(* ================================================================== *)
(** * Properties *)

(* ------------------------------------------------------------------ *)
(** ** Substring test *)

Lemma prefix_app (sub s : string) :
  prefix sub s = true <-> exists post, s = sub ++ post.
Proof.
  revert s; induction sub as [|a sub IH]; intros s; simpl.
  - split; [intros _; exists s; reflexivity | destruct s; reflexivity].
  - destruct s as [|c s]; simpl.
    + split; [discriminate | intros [post H]; discriminate].
    + destruct (ascii_dec a c) as [->|Hne].
      * rewrite IH. split; intros [post H]; exists post.
        -- now rewrite H.
        -- now injection H.
      * split; [discriminate | intros [post H]; injection H; intros; congruence].
Qed.

Lemma contains_occurs (sub s : string) :
  Text.contains sub s = true <-> occurs_in sub s.
Proof.
  unfold occurs_in. induction s as [|c s IH]; cbn [Text.contains].
  - rewrite orb_false_r, prefix_app. split.
    + intros [post H]. exists "", post. exact H.
    + intros [pre [post H]]. destruct pre; simpl in H.
      * now exists post.
      * discriminate.
  - rewrite orb_true_iff, prefix_app, IH. split.
    + intros [[post H] | [pre [post H]]].
      * exists "", post. exact H.
      * exists (String c pre), post. simpl. now rewrite H.
    + intros [pre [post H]]. destruct pre as [|d pre]; simpl in H.
      * left. now exists post.
      * right. injection H as _ H. now exists pre, post.
Qed.

Lemma string_app_assoc (a b c : string) : (a ++ b) ++ c = a ++ b ++ c.
Proof. induction a; simpl; congruence. Qed.

Lemma occurs_in_trans (a b c : string) :
  occurs_in a b -> occurs_in b c -> occurs_in a c.
Proof.
  intros [p1 [q1 H1]] [p2 [q2 H2]]. subst.
  exists (p2 ++ p1), (q1 ++ q2).
  now rewrite !string_app_assoc.
Qed.

Lemma occurs_in_refl (a : string) : occurs_in a a.
Proof.
  exists "", "". simpl. induction a; simpl; congruence.
Qed.

Lemma contains_trans (a b c : string) :
  Text.contains a b = true -> Text.contains b c = true -> Text.contains a c = true.
Proof. rewrite !contains_occurs. apply occurs_in_trans. Qed.

Lemma lower_app (a b : string) : Text.lower (a ++ b) = Text.lower a ++ Text.lower b.
Proof. induction a; simpl; congruence. Qed.

Lemma occurs_in_lower (a b : string) :
  occurs_in a b -> occurs_in (Text.lower a) (Text.lower b).
Proof.
  intros [p [q H]]. subst. exists (Text.lower p), (Text.lower q).
  now rewrite !lower_app.
Qed.

Lemma lower_char_idem (c : ascii) :
  Text.lower_char (Text.lower_char c) = Text.lower_char c.
Proof.
  destruct c as [[] [] [] [] [] [] [] []]; reflexivity.
Qed.

Lemma lower_idem (s : string) : Text.lower (Text.lower s) = Text.lower s.
Proof. induction s; simpl; [|rewrite lower_char_idem]; congruence. Qed.

Lemma isspace_lower_char (c : ascii) :
  Text.isspace (Text.lower_char c) = Text.isspace c.
Proof.
  destruct c as [[] [] [] [] [] [] [] []]; reflexivity.
Qed.

(* ------------------------------------------------------------------ *)
(** ** Stripping and phrases that neither start nor end with white space *)

Lemma occurs_in_lstrip (s : string) : occurs_in (Text.lstrip s) s.
Proof.
  induction s as [|c s IH]; simpl.
  - apply occurs_in_refl.
  - destruct (Text.isspace c).
    + destruct IH as [p [q H]]. exists (String c p), q. simpl. now rewrite <- H.
    + apply occurs_in_refl.
Qed.

Lemma rstrip_prefix (s : string) : exists q, s = Text.rstrip s ++ q.
Proof.
  induction s as [|c s [q IH]]; simpl.
  - now exists "".
  - destruct (Text.rstrip s) as [|d r] eqn:E.
    + destruct (Text.isspace c).
      * now exists (String c s).
      * exists s. reflexivity.
    + exists q. simpl. simpl in IH. now rewrite <- IH.
Qed.

Lemma occurs_in_strip (s : string) : occurs_in (Text.strip s) s.
Proof.
  unfold Text.strip. apply occurs_in_trans with (Text.lstrip s).
  - destruct (rstrip_prefix (Text.lstrip s)) as [q H]. now exists "", q.
  - apply occurs_in_lstrip.
Qed.

Lemma contains_lstrip (sub s : string) :
  starts_solid sub = true ->
  Text.contains sub (Text.lstrip s) = Text.contains sub s.
Proof.
  intros Hs. destruct sub as [|a sub]; [discriminate|]. simpl in Hs.
  induction s as [|c s IH]; [reflexivity|].
  cbn [Text.lstrip]. destruct (Text.isspace c) eqn:Ec; [|reflexivity].
  rewrite IH. cbn [Text.contains prefix].
  destruct (ascii_dec a c) as [->|_]; [|reflexivity].
  rewrite Ec in Hs. discriminate.
Qed.

Lemma prefix_nil_r (sub : string) : sub <> "" -> prefix sub "" = false.
Proof. destruct sub; [congruence | reflexivity]. Qed.

Lemma prefix_nil_l (s : string) : prefix "" s = true.
Proof. destruct s; reflexivity. Qed.

Lemma prefix_cons (a c : ascii) (sub s : string) :
  prefix (String a sub) (String c s) = if ascii_dec a c then prefix sub s else false.
Proof. reflexivity. Qed.

Lemma prefix_rstrip (sub s : string) :
  ends_solid sub = true ->
  prefix sub (Text.rstrip s) = prefix sub s.
Proof.
  revert sub. induction s as [|c s IH]; intros sub Hs; [reflexivity|].
  destruct sub as [|a sub]; [discriminate|].
  cbn [Text.rstrip]. rewrite (prefix_cons a c sub s). destruct sub as [|b sub].
  - simpl in Hs. rewrite prefix_nil_l.
    destruct (Text.rstrip s) as [|d r].
    + destruct (Text.isspace c) eqn:Ec.
      * destruct (ascii_dec a c) as [->|_]; [|reflexivity].
        rewrite Ec in Hs. discriminate.
      * rewrite prefix_cons, prefix_nil_l. reflexivity.
    + rewrite prefix_cons, prefix_nil_l. reflexivity.
  - assert (IH' := IH (String b sub) Hs).
    destruct (Text.rstrip s) as [|d r] eqn:Er.
    + rewrite prefix_nil_r in IH' by discriminate. rewrite <- IH'.
      destruct (Text.isspace c).
      * rewrite prefix_nil_r by discriminate. now destruct (ascii_dec a c).
      * rewrite prefix_cons, prefix_nil_r by discriminate. reflexivity.
    + rewrite prefix_cons. now rewrite IH'.
Qed.

Lemma contains_nil_r (sub : string) : sub <> "" -> Text.contains sub "" = false.
Proof. intros H. cbn [Text.contains]. now rewrite prefix_nil_r. Qed.

Lemma contains_rstrip (sub s : string) :
  ends_solid sub = true ->
  Text.contains sub (Text.rstrip s) = Text.contains sub s.
Proof.
  intros Hs. assert (Hne : sub <> "") by (destruct sub; [discriminate | congruence]).
  induction s as [|c s IH]; [reflexivity|].
  cbn [Text.contains]. rewrite <- (prefix_rstrip sub (String c s) Hs), <- IH.
  cbn [Text.rstrip]. destruct (Text.rstrip s) as [|d r] eqn:Er.
  - rewrite (contains_nil_r sub Hne).
    destruct (Text.isspace c); cbn [Text.contains];
      rewrite ?prefix_nil_r by exact Hne; rewrite ?orb_false_r; reflexivity.
  - reflexivity.
Qed.

Lemma contains_strip (sub s : string) :
  solid sub = true ->
  Text.contains sub (Text.strip s) = Text.contains sub s.
Proof.
  unfold solid, Text.strip. intros H. apply andb_true_iff in H as [H1 H2].
  now rewrite contains_rstrip, contains_lstrip.
Qed.

Lemma contains_normalize (sub message : string) :
  solid sub = true ->
  Text.contains sub (normalize message) = Text.contains sub (Text.lower message).
Proof. intros H. unfold normalize. now apply contains_strip. Qed.

(* ------------------------------------------------------------------ *)
(** ** The decimal literals *)

(** Each literal of the source is the binary64 nearest to its decimal
    value: the correctly rounded quotient of the two integers. *)
Lemma literals_correctly_rounded :
  F64.lit_0_6 = F64.div (F64.of_nat 6) (F64.of_nat 10) /\
  F64.lit_0_1 = F64.div (F64.of_nat 1) (F64.of_nat 10) /\
  F64.lit_0_3 = F64.div (F64.of_nat 3) (F64.of_nat 10) /\
  F64.lit_0_01 = F64.div (F64.of_nat 1) (F64.of_nat 100) /\
  F64.lit_0_95 = F64.div (F64.of_nat 95) (F64.of_nat 100) /\
  F64.lit_0_9 = F64.div (F64.of_nat 9) (F64.of_nat 10).
Proof. vm_compute. repeat split. Qed.

(* ------------------------------------------------------------------ *)
(** ** The emergency fast path *)

Lemma is_emergency_in_exists (kws : list string) (text : string) :
  HealthAI.is_emergency_in kws text = true <->
  exists phrase, In phrase kws /\ Text.contains phrase text = true.
Proof.
  induction kws as [|k kws IH]; simpl.
  - split; [discriminate | intros [p [[] _]]].
  - destruct (Text.contains k text) eqn:E.
    + split; [intros _; exists k; auto | reflexivity].
    + rewrite IH. split.
      * intros [p [Hin Hp]]. exists p. auto.
      * intros [p [[<-|Hin] Hp]]; [congruence | exists p; auto].
Qed.

Lemma emergency_keywords_solid :
  forallb solid HealthAI.emergency_keywords = true.
Proof. reflexivity. Qed.

(** The detector sees the lower-cased message: stripping removes no part
    of a phrase. *)
Lemma _is_emergency_normalize (message : string) :
  HealthAI._is_emergency (normalize message) = true <->
  exists phrase, In phrase HealthAI.emergency_keywords /\
                 occurs_in phrase (Text.lower message).
Proof.
  unfold HealthAI._is_emergency. rewrite is_emergency_in_exists.
  assert (Hs := emergency_keywords_solid). rewrite forallb_forall in Hs.
  split; intros [p [Hin Hp]]; exists p; split; trivial.
  - rewrite contains_normalize in Hp by auto. now apply contains_occurs.
  - rewrite contains_normalize by auto. now apply contains_occurs.
Qed.

Lemma _assess_urgency_not_emergency (sev : string) (syms : list string) :
  HealthAI._assess_urgency sev syms <> "emergency".
Proof.
  unfold HealthAI._assess_urgency.
  destruct (String.eqb sev "severe"); [discriminate|].
  destruct (String.eqb sev "moderate"); discriminate.
Qed.

(** What the fast path does establish: the urgency is [emergency] exactly
    when an emergency phrase occurs in the lower-cased message, and then
    the symptoms, severity, confidence and conditions are the fixed ones. *)
Lemma emergency_fast_path (message : string) :
  let a := HealthAI.analyze_message message in
  (HealthAI.urgency a = "emergency" <->
   exists phrase, In phrase HealthAI.emergency_keywords /\
                  occurs_in phrase (Text.lower message)) /\
  (HealthAI.urgency a = "emergency" ->
   HealthAI.symptoms a = ["emergency situation detected"] /\
   HealthAI.severity a = "severe" /\
   HealthAI.confidence a = F64.lit_0_9 /\
   HealthAI.potential_conditions a = ["medical emergency"]).
Proof.
  cbv zeta. rewrite <- _is_emergency_normalize.
  unfold HealthAI.analyze_message. fold (normalize message).
  destruct (HealthAI._is_emergency (normalize message)); simpl.
  - split; [split; reflexivity | intros _; repeat split].
  - split; [split; intros H | intros H]; try discriminate;
      now apply _assess_urgency_not_emergency in H.
Qed.

(** C1, at the input ["chest pain"]: the message contains an emergency
    phrase and the analysis has urgency [emergency], yet [is_emergency]
    is [False]; no message at all yields an analysis with the flag set,
    because the fast path leaves the field at its default. *)
Theorem C1_emergency_flag_left_unset :
  (exists phrase, In phrase HealthAI.emergency_keywords /\
                  occurs_in phrase (Text.lower "chest pain")) /\
  HealthAI.urgency (HealthAI.analyze_message "chest pain") = "emergency" /\
  HealthAI.is_emergency (HealthAI.analyze_message "chest pain") = false /\
  (forall message, HealthAI.is_emergency (HealthAI.analyze_message message) = false).
Proof.
  split; [|split; [|split]].
  - exists "chest pain". split; [simpl; auto | apply contains_occurs; reflexivity].
  - reflexivity.
  - reflexivity.
  - intros message. unfold HealthAI.analyze_message.
    destruct (HealthAI._is_emergency _); reflexivity.
Qed.

(* ------------------------------------------------------------------ *)
(** ** The empty message *)

(** C7: for the empty message the analysis is produced (the function is
    total, nothing is raised) with no symptoms, severity [mild], urgency
    [low] and confidence exactly the float [0.6]. *)
Theorem C7_empty_message :
  HealthAI.symptoms (HealthAI.analyze_message "") = [] /\
  HealthAI.severity (HealthAI.analyze_message "") = "mild" /\
  HealthAI.urgency (HealthAI.analyze_message "") = "low" /\
  HealthAI.confidence (HealthAI.analyze_message "") = F64.lit_0_6.
Proof. vm_compute. repeat split. Qed.

(* ------------------------------------------------------------------ *)
(** ** Routing in [EnhancedAI] and in the bot *)

Section Routing.
Variable gemini_available : bool.
Variable generate_content : string -> result string.
Variable format_percent : F64.float -> string.

Lemma general_question_no_triage (message user_name : string) :
  existsb is_triage
    (trace (EnhancedAI._handle_general_question gemini_available generate_content
              message user_name)) = false.
Proof.
  unfold EnhancedAI._handle_general_question, EnhancedAI.call_gemini.
  destruct gemini_available; simpl; [|reflexivity].
  destruct (generate_content _) as [txt|e]; simpl; [reflexivity|].
  destruct (is_Exception e); reflexivity.
Qed.

Lemma not_health_related_routes_general (message user_name : string) :
  EnhancedAI.is_health_related message = false ->
  EnhancedAI.analyze_message gemini_available generate_content format_percent
    message user_name
  = EnhancedAI._handle_general_question gemini_available generate_content
      message user_name.
Proof. intros H. unfold EnhancedAI.analyze_message. now rewrite H. Qed.

End Routing.

(** C9: the messages ["seizure"] and ["unconscious"] are emergency phrases
    of the triage core, the emergency detector would fire on them, but the
    health-relatedness check answers [False]; [EnhancedAI.analyze_message]
    therefore takes the general-question path, whose call trace contains
    no run of the triage core. *)
Theorem C9_emergency_phrase_routed_to_general :
  exists message,
    In message HealthAI.emergency_keywords /\
    occurs_in message (Text.lower message) /\
    HealthAI._is_emergency (normalize message) = true /\
    EnhancedAI.is_health_related message = false /\
    EnhancedAI.is_health_related "unconscious" = false /\
    forall gemini_available generate_content format_percent user_name,
      EnhancedAI.analyze_message gemini_available generate_content format_percent
        message user_name
      = EnhancedAI._handle_general_question gemini_available generate_content
          message user_name /\
      existsb is_triage
        (trace (EnhancedAI.analyze_message gemini_available generate_content
                  format_percent message user_name)) = false.
Proof.
  exists "seizure". split; [simpl; tauto|].
  split; [apply contains_occurs; reflexivity|].
  split; [reflexivity|]. split; [reflexivity|]. split; [reflexivity|].
  intros ga gc fp user_name.
  rewrite not_health_related_routes_general by reflexivity.
  split; [reflexivity | apply general_question_no_triage].
Qed.

(** C8: when the delegate is unavailable, or its call raises an exception
    (of a class derived from [Exception], which is what the handler
    catches), the general-question handler returns normally, and what it
    returns is the fallback text for that display name. *)
Theorem C8_general_question_fallback
        (gemini_available : bool) (generate_content : string -> result string)
        (message user_name : string)
        (H : gemini_available = false \/
             exists e, generate_content (EnhancedAI.general_prompt message) = Raised e /\
                       is_Exception e = true) :
  outcome (EnhancedAI._handle_general_question gemini_available generate_content
             message user_name)
  = Ok (EnhancedAI._get_fallback_general_response user_name).
Proof.
  unfold EnhancedAI._handle_general_question, EnhancedAI.call_gemini.
  destruct gemini_available; simpl.
  - destruct H as [H | [e [He Hx]]]; [discriminate|].
    rewrite He. simpl. rewrite Hx. reflexivity.
  - reflexivity.
Qed.

Lemma C8_general_question_fallback_witness :
  outcome (EnhancedAI._handle_general_question true
             (fun _ => Raised (mkExn true "timeout")) "what is the weather" "Asha")
  = Ok (EnhancedAI._get_fallback_general_response "Asha").
Proof.
  apply C8_general_question_fallback.
  right. exists (mkExn true "timeout"). split; reflexivity.
Defined.

(** The help test is the second branch: without a greeting, a message
    with [help], [menu] or [options] gets the help text, also when it
    contains one of the handler's emergency words. *)
Lemma help_preempts_emergency_reply
      (gemini_available : bool) (generate_content : string -> result string)
      (format_percent : F64.float -> string)
      (get_user_info : string -> result (option (option string)))
      (store_message : string -> string -> string -> result unit)
      (phone_number message : string) :
  WhatsAppBot.any_word_in WhatsAppBot.greetings (normalize message) = false ->
  WhatsAppBot.any_word_in WhatsAppBot.help_words (normalize message) = true ->
  WhatsAppBot._handle_message gemini_available generate_content format_percent
    get_user_info store_message phone_number message
  = ([], Ok WhatsAppBot._get_help_message).
Proof.
  intros Hg Hh. unfold WhatsAppBot._handle_message. fold (normalize message).
  now rewrite Hg, Hh.
Qed.

(** C10: when the lower-cased, trimmed message contains one of [hi],
    [hello], [hey], [start] anywhere, the handler returns the welcome
    message at once: it makes no call at all, so no symptom analysis runs,
    whatever else the message contains. *)
Theorem C10_greeting_preempts_analysis
        (gemini_available : bool) (generate_content : string -> result string)
        (format_percent : F64.float -> string)
        (get_user_info : string -> result (option (option string)))
        (store_message : string -> string -> string -> result unit)
        (phone_number message : string)
        (H : exists greeting, In greeting ["hi"; "hello"; "hey"; "start"] /\
                              occurs_in greeting (normalize message)) :
  WhatsAppBot._handle_message gemini_available generate_content format_percent
    get_user_info store_message phone_number message
  = ([], Ok WhatsAppBot._get_welcome_message).
Proof.
  unfold WhatsAppBot._handle_message. fold (normalize message).
  assert (E : WhatsAppBot.any_word_in WhatsAppBot.greetings (normalize message) = true).
  { unfold WhatsAppBot.any_word_in. apply existsb_exists.
    destruct H as [g [Hin Hg]]. exists g. split; [exact Hin|].
    now apply contains_occurs. }
  rewrite E. reflexivity.
Qed.

(** ["This chest pain"] contains [hi] inside [this] and the emergency
    phrase [chest pain]: the reply is the welcome message. *)
Lemma C10_greeting_preempts_analysis_witness :
  HealthAI._is_emergency (normalize "This chest pain") = true /\
  WhatsAppBot._handle_message true (fun _ => Ok "fine") (fun _ => "95%")
    (fun _ => Ok None) (fun _ _ _ => Ok tt) "+15550100" "This chest pain"
  = ([], Ok WhatsAppBot._get_welcome_message).
Proof.
  split; [reflexivity|].
  apply C10_greeting_preempts_analysis.
  exists "hi". split; [simpl; auto | apply contains_occurs; reflexivity].
Defined.

(* ------------------------------------------------------------------ *)
(** ** Severity and urgency *)

Lemma list_sum_flat_map {A B : Type} (f : A -> list B) (g : B -> nat) (l : list A) :
  list_sum (map g (flat_map f l)) = list_sum (map (fun a => list_sum (map g (f a))) l).
Proof.
  induction l as [|a l IH]; simpl; [reflexivity|].
  now rewrite map_app, list_sum_app, IH.
Qed.

Lemma fold_left_acc {A : Type} (step : nat -> A -> nat) (g : A -> nat) (l : list A) :
  (forall acc a, step acc a = acc + g a) ->
  forall acc, fold_left step l acc = acc + list_sum (map g l).
Proof.
  intros Hstep. induction l as [|a l IH]; intros acc; simpl.
  - lia.
  - rewrite IH, Hstep. lia.
Qed.

Lemma weight_of_level_eq (level : string) :
  weight_of_level level = HealthAI.level_weight level.
Proof.
  unfold weight_of_level, HealthAI.level_weight. simpl.
  destruct (String.eqb level "mild"); [reflexivity|].
  destruct (String.eqb level "moderate"); [reflexivity|].
  destruct (String.eqb level "severe"); reflexivity.
Qed.

Lemma scan_indicators_sum (cat level : string) (inds : list string) (text : string) (score : nat) :
  HealthAI.scan_indicators level inds text score
  = score + list_sum (map (triple_weight text) (map (fun phrase => (cat, level, phrase)) inds)).
Proof.
  unfold HealthAI.scan_indicators. rewrite map_map.
  apply fold_left_acc. intros acc i. unfold triple_weight. simpl.
  rewrite weight_of_level_eq. destruct (Text.contains i text); lia.
Qed.

Lemma scan_levels_sum (cat : string) (levels : list (string * list string))
      (text : string) (score : nat) :
  HealthAI.scan_levels levels text score
  = score + list_sum (map (triple_weight text)
                        (flat_map (fun lv => map (fun phrase => (cat, fst lv, phrase)) (snd lv))
                                  levels)).
Proof.
  unfold HealthAI.scan_levels. rewrite list_sum_flat_map.
  apply fold_left_acc. intros acc lv. apply scan_indicators_sum.
Qed.

(** The nested loops of [_assess_severity] compute the sum over all
    triples, plus the number of symptoms. *)
Lemma severity_score_sum (text : string) (symptoms : list string) :
  HealthAI.severity_score text symptoms = indicator_score text + List.length symptoms.
Proof.
  unfold HealthAI.severity_score, indicator_score, indicator_triples.
  rewrite list_sum_flat_map. f_equal.
  rewrite (fold_left_acc _
             (fun entry =>
                list_sum (map (triple_weight text)
                  (flat_map (fun lv => map (fun phrase => (fst entry, fst lv, phrase)) (snd lv))
                            (HealthAI.severity_indicators (snd entry)))))).
  - reflexivity.
  - intros acc entry. apply scan_levels_sum.
Qed.

Lemma _assess_severity_thresholds (text : string) (symptoms : list string) :
  let score := indicator_score text + List.length symptoms in
  (8 <= score -> HealthAI._assess_severity text symptoms = "severe") /\
  (4 <= score < 8 -> HealthAI._assess_severity text symptoms = "moderate") /\
  (score < 4 -> HealthAI._assess_severity text symptoms = "mild").
Proof.
  cbv zeta. unfold HealthAI._assess_severity. rewrite severity_score_sum.
  set (score := indicator_score text + List.length symptoms).
  split; [intros H; apply Nat.leb_le in H; now rewrite H|].
  split; [intros [H1 H2]|intros H].
  - apply Nat.leb_le in H1. apply Nat.leb_gt in H2. now rewrite H2, H1.
  - assert (H1 : (8 <=? score) = false) by (apply Nat.leb_gt; lia).
    assert (H2 : (4 <=? score) = false) by (apply Nat.leb_gt; lia).
    now rewrite H1, H2.
Qed.

(** C2: the severity is the threshold mapping of the accumulated score
    (every indicator phrase of every category and level that occurs in the
    text adds its weight 1, 3 or 5, then the number of symptoms is added):
    8 and more is [severe], 4 to 7 is [moderate], less is [mild]; and the
    urgency is the image of the severity under severe to [high], moderate
    to [medium], mild to [low], whatever the symptoms are. *)
Theorem C2_severity_thresholds_and_urgency (text : string) (symptoms : list string) :
  let score := indicator_score text + List.length symptoms in
  HealthAI.severity_score text symptoms = score /\
  (8 <= score -> HealthAI._assess_severity text symptoms = "severe") /\
  (4 <= score < 8 -> HealthAI._assess_severity text symptoms = "moderate") /\
  (score < 4 -> HealthAI._assess_severity text symptoms = "mild") /\
  (forall syms : list string,
      HealthAI._assess_urgency "severe" syms = "high" /\
      HealthAI._assess_urgency "moderate" syms = "medium" /\
      HealthAI._assess_urgency "mild" syms = "low") /\
  (forall syms syms' : list string,
      HealthAI._assess_urgency (HealthAI._assess_severity text symptoms) syms
      = HealthAI._assess_urgency (HealthAI._assess_severity text symptoms) syms').
Proof.
  cbv zeta. destruct (_assess_severity_thresholds text symptoms) as [H8 [H4 H0]].
  split; [apply severity_score_sum|].
  split; [exact H8|]. split; [exact H4|]. split; [exact H0|].
  split; [intros syms; repeat split | intros syms syms'; reflexivity].
Qed.

(** The message of the specification's scenario scores 16 on its indicator
    phrases and has 4 symptoms. *)
Lemma C2_severity_thresholds_and_urgency_witness :
  8 <= indicator_score "i have a severe headache and fever"
       + List.length ["ache"; "fever"; "headache"; "a severe headache and fever"] /\
  HealthAI._assess_severity "i have a severe headache and fever"
    ["ache"; "fever"; "headache"; "a severe headache and fever"] = "severe".
Proof.
  assert (H : 8 <= indicator_score "i have a severe headache and fever"
                   + List.length ["ache"; "fever"; "headache"; "a severe headache and fever"])
    by (vm_compute; lia).
  split; [exact H|].
  exact (proj1 (proj2 (C2_severity_thresholds_and_urgency _ _)) H).
Defined.

(** In the non-emergency path the fields of the analysis are the results
    of the five steps on the normalized message. *)
Lemma non_emergency_analysis (message : string) :
  HealthAI._is_emergency (normalize message) = false ->
  let a := HealthAI.analyze_message message in
  HealthAI.symptoms a = HealthAI._extract_symptoms (normalize message) /\
  HealthAI.severity a = HealthAI._assess_severity (normalize message) (HealthAI.symptoms a) /\
  HealthAI.urgency a = HealthAI._assess_urgency (HealthAI.severity a) (HealthAI.symptoms a) /\
  HealthAI.recommendations a
  = HealthAI._generate_recommendations (HealthAI.symptoms a) (HealthAI.severity a) /\
  HealthAI.potential_conditions a = HealthAI._identify_conditions (HealthAI.symptoms a) /\
  HealthAI.confidence a = HealthAI._calculate_confidence (HealthAI.symptoms a) (normalize message).
Proof.
  intros H. cbv zeta. unfold HealthAI.analyze_message. fold (normalize message).
  rewrite H. simpl. repeat split.
Qed.

(** The same thresholds, read on the fields of a non-emergency analysis. *)
Lemma analysis_severity_and_urgency (message : string) :
  HealthAI._is_emergency (normalize message) = false ->
  let a := HealthAI.analyze_message message in
  let score := indicator_score (normalize message) + List.length (HealthAI.symptoms a) in
  (8 <= score -> HealthAI.severity a = "severe" /\ HealthAI.urgency a = "high") /\
  (4 <= score < 8 -> HealthAI.severity a = "moderate" /\ HealthAI.urgency a = "medium") /\
  (score < 4 -> HealthAI.severity a = "mild" /\ HealthAI.urgency a = "low").
Proof.
  intros H. cbv zeta.
  destruct (non_emergency_analysis message H) as [_ [Hsev [Hurg _]]].
  destruct (_assess_severity_thresholds (normalize message)
              (HealthAI.symptoms (HealthAI.analyze_message message)))
    as [H8 [H4 H0]].
  rewrite Hurg.
  split; [|split]; intros Hs.
  - rewrite Hsev, (H8 Hs). now split.
  - rewrite Hsev, (H4 Hs). now split.
  - rewrite Hsev, (H0 Hs). now split.
Qed.

(* ------------------------------------------------------------------ *)
(** ** Symptom extraction *)

Lemma mem_In (x : string) (xs : list string) : Text.mem x xs = true <-> In x xs.
Proof.
  unfold Text.mem. rewrite existsb_exists. split.
  - intros [y [Hin Hy]]. apply String.eqb_eq in Hy. now subst.
  - intros H. exists x. split; [exact H | apply String.eqb_refl].
Qed.

Lemma filter_flat_map {A B : Type} (f : B -> bool) (g : A -> list B) (l : list A) :
  filter f (flat_map g l) = flat_map (fun a => filter f (g a)) l.
Proof.
  induction l as [|a l IH]; simpl; [reflexivity|].
  now rewrite filter_app, IH.
Qed.

Lemma scan_keywords_filter (kws : list string) (text : string) (acc : list string) :
  HealthAI.scan_keywords kws text acc
  = (acc ++ filter (fun keyword => Text.contains keyword text) kws)%list.
Proof.
  unfold HealthAI.scan_keywords. revert acc.
  induction kws as [|k kws IH]; intros acc; simpl.
  - now rewrite app_nil_r.
  - rewrite IH. destruct (Text.contains k text); [|reflexivity].
    now rewrite <- app_assoc.
Qed.

Lemma keyword_pass_matches (text : string) (acc : list string) :
  HealthAI.keyword_pass text acc = (acc ++ keyword_matches text)%list.
Proof.
  unfold HealthAI.keyword_pass, keyword_matches, all_keywords.
  rewrite filter_flat_map. revert acc.
  induction HealthAI.symptom_keywords as [|entry l IH]; intros acc; simpl.
  - now rewrite app_nil_r.
  - rewrite IH, scan_keywords_filter. now rewrite <- app_assoc.
Qed.

Lemma add_match_keep_new (cs : list string) (acc : list string) :
  fold_left HealthAI.add_match cs acc
  = (acc ++ keep_new acc (map Text.strip cs))%list.
Proof.
  revert acc. induction cs as [|c cs IH]; intros acc; simpl.
  - now rewrite app_nil_r.
  - rewrite IH. unfold HealthAI.add_match.
    destruct ((2 <? String.length (Text.strip c)) && negb (Text.mem (Text.strip c) acc));
      [|reflexivity].
    now rewrite <- app_assoc.
Qed.

Lemma keep_new_app (seen cs1 cs2 : list string) :
  keep_new seen (cs1 ++ cs2)
  = (keep_new seen cs1 ++ keep_new (seen ++ keep_new seen cs1) cs2)%list.
Proof.
  revert seen. induction cs1 as [|c cs1 IH]; intros seen; simpl.
  - now rewrite app_nil_r.
  - destruct ((2 <? String.length c) && negb (Text.mem c seen)).
    + rewrite IH. simpl. now rewrite <- app_assoc.
    + apply IH.
Qed.

Lemma pattern_pass_keep_new (text : string) (acc : list string) :
  HealthAI.pattern_pass text acc = (acc ++ keep_new acc (trimmed_captures text))%list.
Proof.
  unfold HealthAI.pattern_pass, trimmed_captures. revert acc.
  induction HealthAI.symptom_patterns as [|p ps IH]; intros acc; simpl.
  - now rewrite app_nil_r.
  - rewrite IH, add_match_keep_new, keep_new_app. now rewrite <- app_assoc.
Qed.

(** The two passes, merged in discovery order. *)
Lemma _extract_symptoms_order (text : string) :
  HealthAI._extract_symptoms text
  = firstn 10 (keyword_matches text
               ++ keep_new (keyword_matches text) (trimmed_captures text))%list.
Proof.
  unfold HealthAI._extract_symptoms.
  now rewrite keyword_pass_matches, pattern_pass_keep_new.
Qed.

Lemma NoDup_snoc {A : Type} (l : list A) (x : A) :
  NoDup l -> ~ In x l -> NoDup (l ++ [x]).
Proof.
  induction l as [|a l IH]; simpl; intros Hl Hx.
  - constructor; [intros [] | constructor].
  - inversion Hl as [|? ? Ha Hl']; subst. constructor.
    + rewrite in_app_iff. simpl. intros [H|[H|[]]]; [now apply Ha | subst; tauto].
    + apply IH; tauto.
Qed.

Lemma keep_new_NoDup (cs seen : list string) :
  NoDup seen -> NoDup (seen ++ keep_new seen cs).
Proof.
  revert seen. induction cs as [|c cs IH]; intros seen Hs; simpl.
  - now rewrite app_nil_r.
  - destruct (2 <? String.length c); simpl; [|now apply IH].
    destruct (Text.mem c seen) eqn:Em; simpl; [now apply IH|].
    change (c :: keep_new (seen ++ [c]) cs) with ([c] ++ keep_new (seen ++ [c]) cs)%list.
    rewrite app_assoc. apply IH. apply NoDup_snoc; [exact Hs|].
    intros Hin. apply mem_In in Hin. congruence.
Qed.

(** What [keep_new] keeps: candidates, longer than 2, not seen before. *)
Lemma keep_new_In (cs seen : list string) (c : string) :
  In c (keep_new seen cs) -> In c cs /\ 2 < String.length c /\ ~ In c seen.
Proof.
  revert seen. induction cs as [|d cs IH]; intros seen; simpl; [tauto|].
  destruct (2 <? String.length d) eqn:El; simpl.
  - destruct (Text.mem d seen) eqn:Em; simpl.
    + intros H. apply IH in H. tauto.
    + intros [<-|H].
      * split; [tauto|]. split; [now apply Nat.ltb_lt|].
        intros Hin. apply mem_In in Hin. congruence.
      * apply IH in H. destruct H as [H1 [H2 H3]].
        split; [tauto|]. split; [exact H2|].
        intros Hin. apply H3. apply in_or_app. now left.
  - intros H. apply IH in H. tauto.
Qed.

Lemma all_keywords_NoDup : NoDup all_keywords.
Proof.
  assert (E : nodup string_dec all_keywords = all_keywords) by reflexivity.
  rewrite <- E. apply NoDup_nodup.
Qed.

Lemma NoDup_firstn {A : Type} (n : nat) (l : list A) : NoDup l -> NoDup (firstn n l).
Proof.
  intros H. rewrite <- (firstn_skipn n l) in H. now apply NoDup_app_remove_r in H.
Qed.

(** C6: the extracted list has at most 10 entries and no duplicates, and
    it is the first 10 entries of: the keywords found in the text, in
    knowledge-base order, followed by the trimmed pattern captures that
    are longer than 2 characters and not already present, in the order
    they are found. *)
Theorem C6_symptoms_bounded_distinct_ordered (text : string) :
  List.length (HealthAI._extract_symptoms text) <= 10 /\
  NoDup (HealthAI._extract_symptoms text) /\
  HealthAI._extract_symptoms text
  = firstn 10 (keyword_matches text
               ++ keep_new (keyword_matches text) (trimmed_captures text))%list /\
  (forall c, In c (keep_new (keyword_matches text) (trimmed_captures text)) ->
             In c (trimmed_captures text) /\ 2 < String.length c /\
             ~ In c (keyword_matches text)).
Proof.
  split; [apply firstn_le_length|].
  split; [|split; [apply _extract_symptoms_order | intros c; apply keep_new_In]].
  rewrite _extract_symptoms_order. apply NoDup_firstn, keep_new_NoDup.
  apply NoDup_filter, all_keywords_NoDup.
Qed.

(** The message of the specification's scenario: three keywords, then the
    clause captured by the first pattern. *)
Lemma C6_symptoms_bounded_distinct_ordered_witness :
  HealthAI._extract_symptoms "i have a severe headache and fever"
  = ["ache"; "fever"; "headache"; "a severe headache and fever"] /\
  In "a severe headache and fever"
     (trimmed_captures "i have a severe headache and fever") /\
  2 < String.length "a severe headache and fever" /\
  ~ In "a severe headache and fever"
       (keyword_matches "i have a severe headache and fever").
Proof.
  split; [reflexivity|].
  apply (proj2 (proj2 (proj2
           (C6_symptoms_bounded_distinct_ordered "i have a severe headache and fever")))).
  vm_compute. auto.
Defined.

(* ------------------------------------------------------------------ *)
(** ** Captures are parts of the text *)

Lemma suffix_of_tail (c : ascii) (s input : string) :
  suffix_of (String c s) input -> suffix_of s input.
Proof.
  intros [pre H]. exists (pre ++ String c ""). rewrite string_app_assoc. exact H.
Qed.

Lemma substring_prefix (n : nat) (s : string) : exists q, s = substring 0 n s ++ q.
Proof.
  revert n. induction s as [|c s IH]; intros [|n]; simpl.
  - now exists "".
  - now exists "".
  - now exists (String c s).
  - destruct (IH n) as [q H]. exists q. now rewrite <- H.
Qed.

Lemma consumed_occurs (s s' input : string) :
  suffix_of s input -> occurs_in (Regex.consumed s s') input.
Proof.
  intros [pre H]. unfold Regex.consumed.
  destruct (substring_prefix (String.length s - String.length s') s) as [q Hq].
  exists pre, q. now rewrite <- Hq.
Qed.

Section RunInvariant.
Variable input : string.

(** Whatever the matcher hands to its continuation is a suffix of the
    input together with a capture taken from the input. *)
Lemma run_invariant (r : Regex.re) :
  forall (A : Type) (k : option string -> string -> option A)
         (cap : option string) (s : string) (x : A),
    suffix_of s input -> cap_ok input cap ->
    Regex.run r cap s k = Some x ->
    exists cap' s', suffix_of s' input /\ cap_ok input cap' /\ k cap' s' = Some x.
Proof.
  induction r as [ |c| | |a IHa b IHb|a IHa b IHb|a IHa|a IHa|a IHa];
    intros A k cap s x Hs Hc; cbn [Regex.run].
  - intros H. now exists cap, s.
  - destruct s as [|d s']; [discriminate|].
    destruct (Ascii.eqb _ _); [|discriminate].
    intros H. exists cap, s'. split; [now apply suffix_of_tail in Hs | auto].
  - destruct s as [|d s']; [discriminate|].
    destruct (Ascii.eqb _ _); [discriminate|].
    intros H. exists cap, s'. split; [now apply suffix_of_tail in Hs | auto].
  - destruct (Regex.at_end s); [|discriminate]. intros H. now exists cap, s.
  - intros H. apply IHa in H; trivial. destruct H as [cap1 [s1 [Hs1 [Hc1 H]]]].
    now apply IHb in H.
  - destruct (Regex.run a cap s k) as [y|] eqn:E.
    + intros H. injection H as <-. now apply IHa in E.
    + intros H. now apply IHb in H.
  - destruct (Regex.run a cap s k) as [y|] eqn:E.
    + intros H. injection H as <-. now apply IHa in E.
    + intros H. now exists cap, s.
  - generalize (String.length s) at 1. intros fuel. revert cap s Hs Hc.
    induction fuel as [|fuel IHf]; intros cap s Hs Hc.
    + destruct (k cap s) as [y|] eqn:E; [|discriminate].
      intros H. injection H as <-. now exists cap, s.
    + destruct (k cap s) as [y|] eqn:E.
      * intros H. injection H as <-. now exists cap, s.
      * intros H. apply IHa in H; trivial.
        destruct H as [cap1 [s1 [Hs1 [Hc1 H]]]]. now apply IHf in H.
  - intros H. apply IHa in H; trivial. destruct H as [cap1 [s1 [Hs1 [_ H]]]].
    exists (Some (Regex.consumed s s1)), s1. split; [exact Hs1|]. split; [|exact H].
    intros c Hcq. injection Hcq as <-. now apply consumed_occurs.
Qed.

End RunInvariant.

Lemma occurs_in_nil (s : string) : occurs_in "" s.
Proof. now exists "", s. Qed.

Lemma match_here_occurs (r : Regex.re) (s c rest : string) :
  Regex.match_here r s = Some (c, rest) -> occurs_in c s /\ suffix_of rest s.
Proof.
  unfold Regex.match_here. intros H.
  apply (run_invariant s) in H.
  - destruct H as [cap' [s' [Hs' [Hc' H]]]]. injection H as <- <-.
    split; [|exact Hs'].
    destruct cap' as [c|]; [now apply Hc' | apply occurs_in_nil].
  - now exists "".
  - intros c' Hc'. discriminate.
Qed.

Lemma occurs_in_suffix (c s input : string) :
  occurs_in c s -> suffix_of s input -> occurs_in c input.
Proof.
  intros [p [q H]] [pre Hpre]. subst. exists (pre ++ p), q.
  now rewrite string_app_assoc.
Qed.

Lemma findall_from_occurs (r : Regex.re) (fuel : nat) :
  forall s c, In c (Regex.findall_from fuel r s) -> occurs_in c s.
Proof.
  induction fuel as [|fuel IH]; intros s c; cbn [Regex.findall_from]; [intros []|].
  assert (Hskip : In c (match s with
                        | "" => []
                        | String _ s' => Regex.findall_from fuel r s'
                        end) -> occurs_in c s).
  { destruct s as [|d s']; [intros []|]. intros H. apply IH in H.
    apply occurs_in_suffix with s'; [exact H | now exists (String d "")]. }
  destruct (Regex.match_here r s) as [[cap rest]|] eqn:E; [|exact Hskip].
  apply match_here_occurs in E as [Hc Hrest].
  intros [<-|H]; [exact Hc|].
  destruct (String.length rest <? String.length s); [|now apply Hskip].
  apply IH in H. now apply occurs_in_suffix with rest.
Qed.

Lemma trimmed_captures_occur (text c : string) :
  In c (trimmed_captures text) -> occurs_in c text.
Proof.
  unfold trimmed_captures. rewrite in_flat_map. intros [p [_ H]].
  apply in_map_iff in H as [m [<- Hm]].
  apply occurs_in_trans with m; [apply occurs_in_strip|].
  now apply findall_from_occurs in Hm.
Qed.

(** Every extracted symptom is a part of the text it was extracted from. *)
Lemma symptoms_occur_in_text (text s : string) :
  In s (HealthAI._extract_symptoms text) -> occurs_in s text.
Proof.
  rewrite _extract_symptoms_order. intros H.
  assert (Hin : In s (keyword_matches text
                      ++ keep_new (keyword_matches text) (trimmed_captures text))%list).
  { set (l := (keyword_matches text ++ _)%list) in *.
    rewrite <- (firstn_skipn 10 l). apply in_or_app. now left. }
  apply in_app_or in Hin as [Hk|Hc].
  - unfold keyword_matches in Hk. apply filter_In in Hk as [_ Hk].
    now apply contains_occurs.
  - apply keep_new_In in Hc as [Hc _]. now apply trimmed_captures_occur.
Qed.

(* ------------------------------------------------------------------ *)
(** ** Candidate conditions *)

Lemma count_user_matches_length (phrase : string) (symptoms : list string) (n : nat) :
  HealthAI.count_user_matches phrase symptoms n
  = n + List.length (symptoms_with phrase symptoms).
Proof.
  unfold HealthAI.count_user_matches, symptoms_with. revert n.
  induction symptoms as [|s symptoms IH]; intros n; simpl; [lia|].
  rewrite IH. destruct (Text.contains _ _); simpl; lia.
Qed.

(** The counter of [_identify_conditions] counts pairs: a defining phrase
    counts once for every symptom that contains it. *)
Lemma match_count_pairs (data : HealthAI.condition_data) (symptoms : list string) :
  HealthAI.match_count data symptoms
  = list_sum (map (fun phrase => List.length (symptoms_with phrase symptoms))
                  (HealthAI.cond_symptoms data)).
Proof.
  unfold HealthAI.match_count.
  rewrite (fold_left_acc _ (fun phrase => List.length (symptoms_with phrase symptoms))).
  - reflexivity.
  - intros acc phrase. apply count_user_matches_length.
Qed.

Lemma identify_fold (conds : list (string * HealthAI.condition_data))
      (symptoms acc : list string) :
  fold_left
    (fun potential_conditions entry =>
       if 2 <=? HealthAI.match_count (snd entry) symptoms
       then (potential_conditions ++ [HealthAI.display_name (fst entry)])%list
       else potential_conditions)
    conds acc
  = (acc ++ map (fun entry => HealthAI.display_name (fst entry))
                (filter (fun entry => 2 <=? HealthAI.match_count (snd entry) symptoms)
                        conds))%list.
Proof.
  revert acc. induction conds as [|e conds IH]; intros acc; cbn [fold_left filter map].
  - now rewrite app_nil_r.
  - rewrite IH. destruct (2 <=? HealthAI.match_count (snd e) symptoms); [|reflexivity].
    cbn [map]. now rewrite <- app_assoc.
Qed.

Lemma identify_in_filter (conds : list (string * HealthAI.condition_data))
      (symptoms : list string) :
  HealthAI.identify_in conds symptoms
  = map (fun entry => HealthAI.display_name (fst entry))
        (filter (fun entry => 2 <=? HealthAI.match_count (snd entry) symptoms) conds).
Proof. unfold HealthAI.identify_in. now rewrite identify_fold. Qed.

(** The rule the code applies: a condition is listed when at least 2
    pairs of a defining phrase and a symptom containing it exist. *)
Lemma _identify_conditions_rule (symptoms : list string) (name : string) :
  In name (HealthAI._identify_conditions symptoms) <->
  exists entry, In entry HealthAI.common_conditions /\
                name = HealthAI.display_name (fst entry) /\
                2 <= list_sum (map (fun phrase => List.length (symptoms_with phrase symptoms))
                                   (HealthAI.cond_symptoms (snd entry))).
Proof.
  unfold HealthAI._identify_conditions. rewrite identify_in_filter, in_map_iff.
  split; intros [entry H]; exists entry.
  - destruct H as [<- H]. apply filter_In in H as [Hin H].
    apply Nat.leb_le in H. rewrite match_count_pairs in H. auto.
  - destruct H as [Hin [-> H]]. split; [reflexivity|]. apply filter_In.
    split; [exact Hin|]. apply Nat.leb_le. now rewrite match_count_pairs.
Qed.

(** C3, at the input of the specification's scenario: of the defining
    phrases of the flu only [fever] occurs in the extracted symptoms, but
    it occurs in two of them (the keyword and the captured clause), the
    counter reaches 2 and [Flu] is reported. *)
Theorem C3_flu_reported_for_single_phrase :
  exists flu,
    In ("flu", flu) HealthAI.common_conditions /\
    HealthAI.cond_symptoms flu = ["fever"; "body aches"; "fatigue"; "cough"] /\
    let a := HealthAI.analyze_message "I have a severe headache and fever" in
    HealthAI.symptoms a = ["ache"; "fever"; "headache"; "a severe headache and fever"] /\
    phrases_matched flu (HealthAI.symptoms a) = ["fever"] /\
    symptoms_with "fever" (HealthAI.symptoms a) = ["fever"; "a severe headache and fever"] /\
    HealthAI.match_count flu (HealthAI.symptoms a) = 2 /\
    HealthAI.potential_conditions a = ["Flu"].
Proof.
  eexists. split; [right; left; reflexivity|].
  split; [reflexivity|]. vm_compute. repeat split.
Qed.

(* ------------------------------------------------------------------ *)
(** ** Messages without recognised keywords *)

Lemma mentions_false (phrases : list string) (message phrase : string) :
  mentions phrases message = false -> In phrase phrases ->
  Text.contains phrase (Text.lower message) = false.
Proof.
  unfold mentions. intros H Hin.
  destruct (Text.contains phrase (Text.lower message)) eqn:E; [|reflexivity].
  assert (existsb (fun p => Text.contains p (Text.lower message)) phrases = true)
    by (apply existsb_exists; eauto).
  congruence.
Qed.

Lemma not_mentioned_not_emergency (message : string) :
  mentions HealthAI.emergency_keywords message = false ->
  HealthAI._is_emergency (normalize message) = false.
Proof.
  intros H. destruct (HealthAI._is_emergency (normalize message)) eqn:E; [|reflexivity].
  apply _is_emergency_normalize in E as [p [Hin Hp]].
  apply contains_occurs in Hp. rewrite (mentions_false _ _ _ H Hin) in Hp. discriminate.
Qed.

Lemma filter_none {A : Type} (f : A -> bool) (l : list A) :
  (forall x, In x l -> f x = false) -> filter f l = [].
Proof.
  induction l as [|a l IH]; intros H; simpl; [reflexivity|].
  rewrite (H a) by (now left). apply IH. intros x Hx. apply H. now right.
Qed.

Lemma list_sum_zero {A : Type} (g : A -> nat) (l : list A) :
  (forall x, In x l -> g x = 0) -> list_sum (map g l) = 0.
Proof.
  induction l as [|a l IH]; intros H; simpl; [reflexivity|].
  rewrite (H a) by (now left). apply IH. intros x Hx. apply H. now right.
Qed.

Lemma condition_phrases_lower :
  forallb (fun phrase => String.eqb (Text.lower phrase) phrase) condition_phrases = true.
Proof. reflexivity. Qed.

(** A defining phrase that occurs in an extracted symptom occurs in the
    lower-cased message. *)
Lemma phrase_in_symptom_in_message (message phrase s : string) :
  In phrase condition_phrases ->
  In s (HealthAI._extract_symptoms (normalize message)) ->
  Text.contains (Text.lower phrase) (Text.lower s) = true ->
  Text.contains phrase (Text.lower message) = true.
Proof.
  intros Hp Hs Hc.
  assert (Hl := condition_phrases_lower). rewrite forallb_forall in Hl.
  apply Hl, String.eqb_eq in Hp. rewrite Hp in Hc.
  apply contains_occurs. apply contains_occurs in Hc.
  apply occurs_in_trans with (Text.lower s); [exact Hc|].
  rewrite <- (lower_idem message). apply occurs_in_lower.
  apply occurs_in_trans with (normalize message).
  - now apply symptoms_occur_in_text.
  - apply occurs_in_strip.
Qed.

Lemma no_phrase_no_condition (message : string) :
  mentions condition_phrases message = false ->
  HealthAI._identify_conditions (HealthAI._extract_symptoms (normalize message)) = [].
Proof.
  intros H.
  destruct (HealthAI._identify_conditions _) as [|name l] eqn:E; [reflexivity|].
  assert (Hin : In name (HealthAI._identify_conditions
                           (HealthAI._extract_symptoms (normalize message))))
    by (rewrite E; now left).
  apply _identify_conditions_rule in Hin as [entry [Hentry [_ Hcount]]].
  rewrite list_sum_zero in Hcount; [lia|].
  intros phrase Hphrase. unfold symptoms_with. rewrite filter_none; [reflexivity|].
  intros s Hs.
  destruct (Text.contains (Text.lower phrase) (Text.lower s)) eqn:Ec; [|reflexivity].
  assert (Hp : In phrase condition_phrases).
  { unfold condition_phrases. apply in_flat_map. now exists entry. }
  apply (phrase_in_symptom_in_message message phrase s Hp Hs) in Ec.
  rewrite (mentions_false _ _ _ H Hp) in Ec. discriminate.
Qed.

Lemma recommendations_nonempty (symptoms : list string) (severity : string) :
  HealthAI._generate_recommendations symptoms severity <> [].
Proof.
  unfold HealthAI._generate_recommendations. intros E.
  assert (H : In "This is not a substitute for professional medical advice"
                 (nodup string_dec
                    (fold_left HealthAI.symptom_advice symptoms
                       (HealthAI.severity_advice severity) ++ HealthAI.general_advice)%list)).
  { apply nodup_In, in_or_app. right. now left. }
  rewrite E in H. exact H.
Qed.

(** The statement of C4 fails at ["I have runny nose and sneezing"]: no
    keyword and no emergency phrase occurs in it, yet the clause captured
    by the first pattern contains two defining phrases of the cold. *)
Lemma C4_counterexample :
  ~ (forall message,
        mentions all_keywords message = false ->
        mentions HealthAI.emergency_keywords message = false ->
        HealthAI.recommendations (HealthAI.analyze_message message) <> [] /\
        HealthAI.potential_conditions (HealthAI.analyze_message message) = []).
Proof.
  intros H.
  destruct (H "I have runny nose and sneezing" eq_refl eq_refl) as [_ H'].
  vm_compute in H'. discriminate.
Qed.

(** C4, amended: a message that contains no symptom keyword, no emergency
    phrase and, in addition, no defining phrase of a condition gets
    non-empty recommendations and no candidate condition. *)
Theorem C4_no_keyword_no_phrase_no_condition (message : string)
        (Hk : mentions all_keywords message = false)
        (He : mentions HealthAI.emergency_keywords message = false)
        (Hc : mentions condition_phrases message = false) :
  HealthAI.recommendations (HealthAI.analyze_message message) <> [] /\
  HealthAI.potential_conditions (HealthAI.analyze_message message) = [].
Proof.
  destruct (non_emergency_analysis message (not_mentioned_not_emergency message He))
    as [Hs [_ [_ [Hr [Hp _]]]]].
  split.
  - rewrite Hr. apply recommendations_nonempty.
  - rewrite Hp, Hs. now apply no_phrase_no_condition.
Qed.

Lemma C4_no_keyword_no_phrase_no_condition_witness :
  HealthAI.recommendations (HealthAI.analyze_message "I feel unwell today") <> [] /\
  HealthAI.potential_conditions (HealthAI.analyze_message "I feel unwell today") = [].
Proof.
  apply C4_no_keyword_no_phrase_no_condition; reflexivity.
Defined.

(* ------------------------------------------------------------------ *)
(** ** Confidence: rounding in binary64 *)

Local Open Scope Z_scope.

Lemma digits_bounds (p : positive) :
  2 ^ (Zpos (digits2_pos p) - 1) <= Zpos p < 2 ^ Zpos (digits2_pos p).
Proof.
  induction p as [p IH|p IH|]; cbn [digits2_pos].
  - rewrite Pos2Z.inj_succ.
    replace (Z.succ (Zpos (digits2_pos p)) - 1) with (Z.succ (Zpos (digits2_pos p) - 1)) by lia.
    rewrite !Z.pow_succ_r by lia. lia.
  - rewrite Pos2Z.inj_succ.
    replace (Z.succ (Zpos (digits2_pos p)) - 1) with (Z.succ (Zpos (digits2_pos p) - 1)) by lia.
    rewrite !Z.pow_succ_r by lia. lia.
  - simpl. lia.
Qed.

Lemma digits_unique (p : positive) (k : Z) :
  2 ^ (k - 1) <= Zpos p < 2 ^ k -> Zpos (digits2_pos p) = k.
Proof.
  intros [H1 H2]. destruct (digits_bounds p) as [B1 B2].
  set (d := Zpos (digits2_pos p)) in *.
  assert (0 < k).
  { destruct (Z.ltb_spec 0 k); trivial.
    assert (2 ^ k <= 1) by (destruct k; simpl; try lia; rewrite Z.pow_neg_r in H2 by lia; lia).
    lia. }
  destruct (Z.lt_trichotomy d k) as [Hlt|[Heq|Hgt]]; [|exact Heq|].
  - assert (2 ^ d <= 2 ^ (k - 1)) by (apply Z.pow_le_mono_r; lia). lia.
  - assert (2 ^ k <= 2 ^ (d - 1)) by (apply Z.pow_le_mono_r; lia). lia.
Qed.

Lemma shr_1_m (mrs : shr_record) :
  0 <= shr_m mrs -> shr_m (shr_1 mrs) = shr_m mrs / 2.
Proof.
  destruct mrs as [m r s]. cbn [shr_m]. intros Hm.
  destruct m as [|[p|p|]|p]; cbn [shr_1 shr_m]; try lia; try reflexivity.
  - change (Z.pos p~1) with (2 * Z.pos p + 1).
    apply Z.div_unique with 1; lia.
  - change (Z.pos p~0) with (2 * Z.pos p).
    apply Z.div_unique with 0; lia.
Qed.

Lemma pow2_pos (k : Z) : 0 <= k -> 0 < 2 ^ k.
Proof. intros. apply Z.pow_pos_nonneg; lia. Qed.

Lemma iter_shr_m (p : positive) :
  forall mrs, 0 <= shr_m mrs ->
              shr_m (iter_pos shr_1 p mrs) = shr_m mrs / 2 ^ Zpos p.
Proof.
  induction p as [p IH|p IH|]; intros mrs Hm; cbn [iter_pos].
  - assert (H1 : 0 <= shr_m (shr_1 mrs))
      by (rewrite shr_1_m by trivial; apply Z.div_pos; lia).
    assert (H2 : 0 <= shr_m (iter_pos shr_1 p (shr_1 mrs)))
      by (rewrite IH by trivial; apply Z.div_pos; [trivial | apply pow2_pos; lia]).
    rewrite IH, IH, shr_1_m by trivial.
    pose proof (pow2_pos (Zpos p) ltac:(lia)).
    rewrite !Z.div_div by lia. f_equal.
    change (Z.pos p~1) with (2 * Z.pos p + 1).
    replace (2 * Zpos p + 1) with (1 + Zpos p + Zpos p) by lia.
    rewrite !Z.pow_add_r by lia. lia.
  - assert (H2 : 0 <= shr_m (iter_pos shr_1 p mrs))
      by (rewrite IH by trivial; apply Z.div_pos; [trivial | apply pow2_pos; lia]).
    rewrite IH, IH by trivial.
    pose proof (pow2_pos (Zpos p) ltac:(lia)).
    rewrite !Z.div_div by lia. f_equal.
    change (Z.pos p~0) with (2 * Z.pos p).
    replace (2 * Zpos p) with (Zpos p + Zpos p) by lia.
    rewrite !Z.pow_add_r by lia. lia.
  - rewrite shr_1_m by trivial. reflexivity.
Qed.

Lemma round_nearest_even_range (m : Z) (l : location) :
  round_nearest_even m l = m \/ round_nearest_even m l = m + 1.
Proof.
  destruct l as [|[]]; cbn [round_nearest_even]; auto.
  destruct (Z.even m); auto.
Qed.

(** Shifting an exact mantissa of [d >= 53] digits down to 53 digits. *)
Lemma shr_fexp_exact (m : positive) (e : Z) :
  let d := Zpos (digits2_pos m) in
  53 <= d -> -1074 <= e + d - 53 ->
  exists mrs,
    shr_fexp F64.prec F64.emax (Zpos m) e loc_Exact = (mrs, e + (d - 53)) /\
    shr_m mrs = Zpos m / 2 ^ (d - 53).
Proof.
  intros d Hd He. unfold shr_fexp, fexp, emin, F64.prec, F64.emax.
  cbn [Zdigits2 shr_record_of_loc]. fold d.
  replace (Z.max (d + e - 53) (3 - 1024 - 53) - e) with (d - 53) by lia.
  unfold shr. destruct (d - 53) as [|p|p] eqn:E; try lia.
  - eexists. split; [f_equal; lia|]. cbn [shr_m]. now rewrite Z.div_1_r.
  - eexists. split; [reflexivity|]. now rewrite iter_shr_m.
Qed.

Lemma shifted_bounds (m : positive) :
  let d := Zpos (digits2_pos m) in
  53 <= d -> 2 ^ 52 <= Zpos m / 2 ^ (d - 53) < 2 ^ 53.
Proof.
  intros d Hd. destruct (digits_bounds m) as [B1 B2]. fold d in B1, B2.
  pose proof (pow2_pos (d - 53) ltac:(lia)) as Hp.
  split.
  - apply Z.div_le_lower_bound; [exact Hp|].
    rewrite <- Z.pow_add_r by lia. now replace (d - 53 + 52) with (d - 1) by lia.
  - apply Z.div_lt_upper_bound; [exact Hp|].
    rewrite <- Z.pow_add_r by lia. now replace (d - 53 + 53) with d by lia.
Qed.

(** The shape of a rounded exact value whose mantissa has at least 53
    digits: a 53-digit mantissa [M] at the exponent of the shifted value,
    not below the truncated mantissa, or one exponent higher after a
    carry; infinity when the exponent exceeds 971. *)
Lemma round_aux_shape (m : positive) (e : Z) :
  let d := Zpos (digits2_pos m) in
  53 <= d -> -1074 <= e + d - 53 ->
  exists (M : positive) (E : Z),
    binary_round_aux F64.prec F64.emax false (Zpos m) e loc_Exact
    = (if E <=? 971 then S754_finite false M E else S754_infinity false) /\
    2 ^ 52 <= Zpos M < 2 ^ 53 /\
    ((E = e + (d - 53) /\ Zpos m / 2 ^ (d - 53) <= Zpos M) \/ E = e + (d - 53) + 1).
Proof.
  intros d Hd He. unfold binary_round_aux.
  destruct (shr_fexp_exact m e Hd He) as [mrs [H1 H2]]. fold d in H1, H2.
  rewrite H1. pose proof (shifted_bounds m Hd) as Hb. fold d in Hb.
  rewrite <- H2 in Hb.
  set (e' := e + (d - 53)) in *.
  set (m1 := round_nearest_even (shr_m mrs) (loc_of_shr_record mrs)).
  assert (Hm1 : m1 = shr_m mrs \/ m1 = shr_m mrs + 1) by apply round_nearest_even_range.
  assert (Hcase : m1 < 2 ^ 53 \/ m1 = 2 ^ 53) by lia.
  destruct Hcase as [Hlt | Heq].
  - destruct m1 as [|M|M] eqn:Em1; try lia.
    assert (HdM : Zpos (digits2_pos M) = 53) by (apply digits_unique; simpl; lia).
    destruct (shr_fexp_exact M e') as [mrs2 [H3 H4]]; rewrite ?HdM; try lia.
    rewrite HdM in H3, H4. rewrite H3, H4.
    replace (53 - 53) with 0 by lia. rewrite Z.pow_0_r, Z.div_1_r, Z.add_0_r.
    exists M, e'. split; [reflexivity|]. split; [lia|]. left. rewrite <- H2. lia.
  - rewrite Heq.
    destruct (shr_fexp_exact (2 ^ 53)%positive e') as [mrs2 [H3 H4]];
      try (simpl; lia).
    change (Z.pos (2 ^ 53)) with (2 ^ 53) in H3, H4.
    rewrite H3, H4.
    exists (2 ^ 52)%positive, (e' + 1). split; [reflexivity|].
    split; [simpl; lia|]. right. reflexivity.
Qed.

Lemma iter_xO_pow (p q : positive) :
  Zpos (Pos.iter xO p q) = Zpos p * 2 ^ Zpos q.
Proof.
  induction q as [|q IH] using Pos.peano_ind.
  - simpl. lia.
  - rewrite Pos.iter_succ, Pos2Z.inj_succ, Z.pow_succ_r by lia.
    change (Z.pos (Pos.iter xO p q)~0) with (2 * Z.pos (Pos.iter xO p q)).
    rewrite IH. lia.
Qed.

(** [float(w)] for [w >= k >= 1]: infinity, or a normal number whose value
    is at least [k]. *)
Lemma of_nat_ge (w k : nat) :
  (1 <= k <= w)%nat -> Z.of_nat k <= 2 ^ 52 ->
  F64.of_nat w = S754_infinity false \/
  exists (M : positive) (E : Z),
    F64.of_nat w = S754_finite false M E /\
    2 ^ 52 <= Zpos M < 2 ^ 53 /\ -52 <= E /\
    Z.of_nat k * 2 ^ 52 <= Zpos M * 2 ^ (E + 52).
Proof.
  intros Hk Hk52. unfold F64.of_nat, binary_normalize.
  destruct (Z.of_nat w) as [|p|p] eqn:Ew; try lia.
  unfold binary_round, shl_align, fexp, emin, F64.prec, F64.emax.
  set (d := Zpos (digits2_pos p)).
  destruct (digits_bounds p) as [B1 B2]. fold d in B1, B2.
  assert (Hd : 1 <= d) by (unfold d; lia).
  replace (Z.max (d + 0 - 53) (3 - 1024 - 53) - 0) with (d - 53) by lia.
  replace (Z.max (d + 0 - 53) (3 - 1024 - 53)) with (d - 53) by lia.
  assert (Hkp : Z.of_nat k <= Zpos p) by lia.
  pose proof (round_aux_shape p 0) as HS. cbv zeta in HS. fold d in HS.
  destruct (d - 53) as [|q|q] eqn:Eq.
  - (* exactly 53 digits *)
    destruct HS as [M [E [HR [HM HE]]]]; try lia.
    fold F64.prec F64.emax. rewrite HR.
    rewrite Z.pow_0_r, Z.div_1_r in HE.
    destruct (E <=? 971); [right | now left].
    exists M, E. split; [reflexivity|]. split; [exact HM|].
    assert (0 < 2 ^ 52) by (apply pow2_pos; lia).
    destruct HE as [[-> HE] | ->]; simpl; split; try lia.
  - (* more than 53 digits *)
    destruct HS as [M [E [HR [HM HE]]]]; try lia.
    fold F64.prec F64.emax. rewrite HR.
    destruct (E <=? 971); [right | now left].
    exists M, E. split; [reflexivity|]. split; [exact HM|].
    assert (HE' : Zpos q <= E) by lia.
    split; [lia|].
    assert (H : 2 ^ (1 + 52) <= 2 ^ (E + 52)) by (apply Z.pow_le_mono_r; lia).
    assert (0 < 2 ^ 52) by (apply pow2_pos; lia).
    change (2 ^ (1 + 52)) with (2 * 2 ^ 52) in H.
    nia.
  - (* fewer than 53 digits: the mantissa is first shifted left *)
    assert (Hmz : 2 ^ 52 <= Zpos (Pos.iter xO p q) < 2 ^ 53).
    { rewrite iter_xO_pow.
      assert (E1 : 2 ^ 52 = 2 ^ (d - 1) * 2 ^ Zpos q)
        by (rewrite <- Z.pow_add_r by lia; f_equal; lia).
      assert (E2 : 2 ^ 53 = 2 ^ d * 2 ^ Zpos q)
        by (rewrite <- Z.pow_add_r by lia; f_equal; lia).
      pose proof (pow2_pos (Zpos q) ltac:(lia)). rewrite E1, E2. nia. }
    assert (Hdz : Zpos (digits2_pos (Pos.iter xO p q)) = 53)
      by (apply digits_unique; simpl; lia).
    clear HS. pose proof (round_aux_shape (Pos.iter xO p q) (Z.neg q)) as HS.
    cbv zeta in HS. rewrite Hdz in HS.
    destruct HS as [M [E [HR [HM HE]]]]; try lia.
    fold F64.prec F64.emax. rewrite HR.
    replace (53 - 53) with 0 in HE by lia. rewrite Z.pow_0_r, Z.div_1_r in HE.
    destruct (E <=? 971); [right | now left].
    exists M, E. split; [reflexivity|]. split; [exact HM|].
    assert (Hq : Zpos q <= 52) by lia.
    destruct HE as [[-> HE] | ->]; (split; [lia|]).
    + rewrite iter_xO_pow in HE.
      assert (E3 : 2 ^ 52 = 2 ^ Zpos q * 2 ^ (Z.neg q + 0 + 52))
        by (rewrite <- Z.pow_add_r by lia; f_equal; lia).
      pose proof (pow2_pos (Z.neg q + 0 + 52) ltac:(lia)).
      pose proof (pow2_pos (Zpos q) ltac:(lia)).
      rewrite E3. nia.
    + assert (E3 : 2 ^ (Z.neg q + 0 + 1 + 52) = 2 ^ d)
        by (f_equal; lia).
      rewrite E3. assert (0 < 2 ^ 52) by (apply pow2_pos; lia). nia.
Qed.

Lemma leb_finite (mt M : positive) (et E : Z) :
  et < E \/ (et = E /\ Zpos mt <= Zpos M) ->
  SFleb (S754_finite false mt et) (S754_finite false M E) = true.
Proof.
  intros H. unfold SFleb, SFcompare.
  destruct (Z.compare_spec et E) as [Heq|Hlt|Hgt]; try reflexivity; try lia.
  fold (Pos.compare mt M).
  destruct (Pos.compare_spec mt M); try reflexivity. lia.
Qed.

Lemma scale_bound (k mt M1 C g E1 : Z) :
  k * 2 ^ 52 <= M1 * 2 ^ (E1 + 52) -> mt * 2 ^ g <= k * C ->
  0 < C -> -52 <= E1 -> E1 <= g -> 0 <= g ->
  mt * 2 ^ (g - E1) <= M1 * C.
Proof.
  intros H1 H2 HC HE1 Hg Hg0.
  pose proof (pow2_pos (E1 + 52) ltac:(lia)) as HX.
  pose proof (pow2_pos 52 ltac:(lia)) as H52.
  apply Z.mul_le_mono_pos_r with (2 ^ (E1 + 52)); [exact HX|].
  rewrite <- Z.mul_assoc, <- Z.pow_add_r by lia.
  replace (g - E1 + (E1 + 52)) with (g + 52) by lia.
  rewrite Z.pow_add_r by lia.
  set (X := 2 ^ (E1 + 52)) in *. set (G := 2 ^ g). set (T := 2 ^ 52) in *.
  assert (A : mt * G * T <= k * C * T) by (apply Z.mul_le_mono_nonneg_r; lia).
  assert (B : k * T * C <= M1 * X * C) by (apply Z.mul_le_mono_nonneg_r; lia).
  lia.
Qed.

Lemma digits_of_product (M1 C : positive) :
  2 ^ 52 <= Zpos M1 < 2 ^ 53 -> 2 ^ 52 <= Zpos C < 2 ^ 53 ->
  105 <= Zpos (digits2_pos (M1 * C)) <= 106.
Proof.
  intros H1 H2. destruct (digits_bounds (M1 * C)) as [B1 B2].
  rewrite Pos2Z.inj_mul in B1, B2.
  set (d := Zpos (digits2_pos (M1 * C))) in *.
  assert (L : 2 ^ 104 <= Zpos M1 * Zpos C)
    by (change (2 ^ 104) with (2 ^ 52 * 2 ^ 52); nia).
  assert (U : Zpos M1 * Zpos C < 2 ^ 106)
    by (change (2 ^ 106) with (2 ^ 53 * 2 ^ 53); nia).
  split.
  - destruct (Z.le_gt_cases 105 d) as [|Hlt]; [trivial|].
    assert (2 ^ d <= 2 ^ 104) by (apply Z.pow_le_mono_r; lia). lia.
  - destruct (Z.le_gt_cases d 106) as [|Hgt]; [trivial|].
    assert (2 ^ 106 <= 2 ^ (d - 1)) by (apply Z.pow_le_mono_r; lia). lia.
Qed.

(** A product [float(w) * c] is not below a normal number [t] as soon as
    the exact product [k * c] is not below [t] for some [k <= w]. *)
Lemma mul_of_nat_ge (k : nat) (C mt : positive) (ec et : Z) :
  (1 <= k)%nat -> Z.of_nat k <= 2 ^ 52 ->
  2 ^ 52 <= Zpos C < 2 ^ 53 -> 2 ^ 52 <= Zpos mt < 2 ^ 53 ->
  -1000 <= ec -> ec <= et ->
  Zpos mt * 2 ^ (et - ec) <= Z.of_nat k * Zpos C ->
  forall w : nat, (k <= w)%nat ->
    SFleb (S754_finite false mt et)
          (F64.mul (F64.of_nat w) (S754_finite false C ec)) = true.
Proof.
  intros Hk Hk52 HC Hmt Hec Het Hval w Hw.
  destruct (of_nat_ge w k) as [Hinf | [M1 [E1 [Hfin [HM1 [HE1 Hge]]]]]];
    [lia | exact Hk52 | rewrite Hinf; reflexivity |].
  rewrite Hfin. unfold F64.mul, SFmul. cbn [xorb].
  pose proof (digits_of_product M1 C HM1 HC) as Hd.
  pose proof (round_aux_shape (M1 * C) (E1 + ec)) as HS. cbv zeta in HS.
  set (d := Zpos (digits2_pos (M1 * C))) in *.
  destruct HS as [M [E [HR [HM HE]]]]; try lia.
  rewrite HR. destruct (E <=? 971); [|reflexivity].
  apply leb_finite.
  destruct (Z.lt_ge_cases et E) as [Hlt | Hge']; [now left | right].
  assert (Hs : Zpos mt * 2 ^ (et - ec - E1) <= Zpos M1 * Zpos C)
    by (apply scale_bound with (Z.of_nat k); lia).
  destruct (digits_bounds (M1 * C)) as [B1 B2]. fold d in B1, B2.
  rewrite Pos2Z.inj_mul in B2.
  pose proof (pow2_pos (d - 53) ltac:(lia)) as Hp.
  assert (E2d : 2 ^ d = 2 ^ 53 * 2 ^ (d - 53))
    by (rewrite <- Z.pow_add_r by lia; f_equal; lia).
  destruct HE as [[-> HE] | ->].
  - (* no carry: the exponents agree and the truncated mantissa dominates *)
    assert (Hsplit : 2 ^ (et - ec - E1)
                     = 2 ^ (et - (E1 + ec + (d - 53))) * 2 ^ (d - 53))
      by (rewrite <- Z.pow_add_r by lia; f_equal; lia).
    pose proof (pow2_pos (et - (E1 + ec + (d - 53))) ltac:(lia)) as Hq.
    assert (Heq : et = E1 + ec + (d - 53)).
    { destruct (Z.eq_dec et (E1 + ec + (d - 53))) as [|Hne]; [trivial|].
      assert (2 ^ 1 <= 2 ^ (et - (E1 + ec + (d - 53))))
        by (apply Z.pow_le_mono_r; lia).
      change (2 ^ 1) with 2 in H. rewrite Hsplit in Hs. nia. }
    split; [exact Heq|].
    rewrite Pos2Z.inj_mul in HE.
    apply Z.le_trans with (Zpos M1 * Zpos C / 2 ^ (d - 53)); [|exact HE].
    apply Z.div_le_lower_bound; [exact Hp|].
    rewrite Hsplit in Hs. replace (et - (E1 + ec + (d - 53))) with 0 in Hs by lia.
    rewrite Z.pow_0_r in Hs. lia.
  - (* carry: the exponent of the result is already larger *)
    exfalso.
    assert (Hsplit : 2 ^ (et - ec - E1)
                     = 2 ^ (et - (E1 + ec + (d - 53) + 1)) * (2 * 2 ^ (d - 53))).
    { rewrite <- (Z.pow_succ_r 2 (d - 53)) by lia.
      rewrite <- Z.pow_add_r by lia. f_equal. lia. }
    pose proof (pow2_pos (et - (E1 + ec + (d - 53) + 1)) ltac:(lia)) as Hq.
    rewrite Hsplit in Hs. nia.
Qed.

Local Close Scope Z_scope.

Lemma mul_comm (x y : F64.float) : F64.mul x y = F64.mul y x.
Proof.
  unfold F64.mul.
  destruct x as [sx|sx| |sx mx ex], y as [sy|sy| |sy my ey]; cbn [SFmul];
    rewrite ?(xorb_comm sy sx); try reflexivity.
  now rewrite (Pos.mul_comm my mx), (Z.add_comm ey ex).
Qed.

Lemma compare_eq_finite (m : positive) (e : Z) (a : F64.float) :
  SFcompare (S754_finite false m e) a = Some Eq -> a = S754_finite false m e.
Proof.
  destruct a as [s|s| |s m' e']; cbn [SFcompare]; try discriminate.
  - destruct s; discriminate.
  - destruct s; try discriminate.
    destruct (Z.compare_spec e e'); try discriminate.
    fold (Pos.compare m m'). destruct (Pos.compare_spec m m'); try discriminate.
    intros _. now subst.
Qed.

(** A value that is not below a finite positive cap is cut to the cap. *)
Lemma min_cap (a : F64.float) (m : positive) (e : Z) :
  F64.leb (S754_finite false m e) a = true ->
  F64.min a (S754_finite false m e) = S754_finite false m e.
Proof.
  unfold F64.leb, F64.min, F64.ltb, SFleb, SFltb. intros H.
  destruct (SFcompare (S754_finite false m e) a) as [[]|] eqn:E; try discriminate.
  - now apply compare_eq_finite in E.
  - reflexivity.
Qed.

Lemma symptom_bonus_saturates (n : nat) :
  3 <= n ->
  F64.min (F64.mul (F64.of_nat n) F64.lit_0_1) F64.lit_0_3 = F64.lit_0_3.
Proof.
  intros H. apply min_cap. unfold F64.leb, F64.lit_0_3, F64.lit_0_1.
  apply mul_of_nat_ge with (k := 3); try (vm_compute; intuition discriminate); lia.
Qed.

Lemma length_bonus_saturates (w : nat) :
  10 <= w ->
  F64.min (F64.mul (F64.of_nat w) F64.lit_0_01) F64.lit_0_1 = F64.lit_0_1.
Proof.
  intros H. destruct (Nat.eq_dec w 10) as [->|Hne]; [reflexivity|].
  apply min_cap. unfold F64.leb, F64.lit_0_1, F64.lit_0_01.
  apply mul_of_nat_ge with (k := 11); try (vm_compute; intuition discriminate); lia.
Qed.

Lemma confidence_formula_saturates (n w : nat) :
  confidence_formula n w = confidence_formula (Nat.min n 3) (Nat.min w 10).
Proof.
  unfold confidence_formula. rewrite !(mul_comm F64.lit_0_1), !(mul_comm F64.lit_0_01).
  assert (Hn : F64.min (F64.mul (F64.of_nat n) F64.lit_0_1) F64.lit_0_3
               = F64.min (F64.mul (F64.of_nat (Nat.min n 3)) F64.lit_0_1) F64.lit_0_3).
  { destruct (Nat.le_gt_cases 3 n) as [H|H].
    - rewrite Nat.min_r by exact H. now rewrite symptom_bonus_saturates.
    - now rewrite Nat.min_l by lia. }
  assert (Hw : F64.min (F64.mul (F64.of_nat w) F64.lit_0_01) F64.lit_0_1
               = F64.min (F64.mul (F64.of_nat (Nat.min w 10)) F64.lit_0_01) F64.lit_0_1).
  { destruct (Nat.le_gt_cases 10 w) as [H|H].
    - rewrite Nat.min_r by exact H. now rewrite length_bonus_saturates.
    - now rewrite Nat.min_l by lia. }
  now rewrite Hn, Hw.
Qed.

Lemma confidence_table : confidence_table_ok = true.
Proof. vm_compute. reflexivity. Qed.

Lemma confidence_table_at (n w n' w' : nat) :
  n <= 3 -> w <= 10 -> n' <= 3 -> w' <= 10 ->
  F64.leb F64.lit_0_6 (confidence_formula n w) = true /\
  F64.leb (confidence_formula n w) F64.lit_0_95 = true /\
  (n <= n' -> w <= w' ->
   F64.leb (confidence_formula n w) (confidence_formula n' w') = true).
Proof.
  intros Hn Hw Hn' Hw'. pose proof confidence_table as T.
  unfold confidence_table_ok in T. rewrite forallb_forall in T.
  specialize (T n ltac:(apply in_seq; lia)). rewrite forallb_forall in T.
  specialize (T w ltac:(apply in_seq; lia)).
  apply andb_true_iff in T as [T T3]. apply andb_true_iff in T as [T1 T2].
  split; [exact T1|]. split; [exact T2|]. intros Hnn Hww.
  rewrite forallb_forall in T3.
  specialize (T3 n' ltac:(apply in_seq; lia)). rewrite forallb_forall in T3.
  specialize (T3 w' ltac:(apply in_seq; lia)).
  apply orb_true_iff in T3 as [T3|T3]; [|exact T3].
  apply negb_true_iff, andb_false_iff in T3 as [T3|T3];
    apply Nat.leb_gt in T3; lia.
Qed.

Lemma confidence_formula_bounds (n w : nat) :
  F64.leb F64.lit_0_6 (confidence_formula n w) = true /\
  F64.leb (confidence_formula n w) F64.lit_0_95 = true.
Proof.
  rewrite confidence_formula_saturates.
  destruct (confidence_table_at (Nat.min n 3) (Nat.min w 10) 0 0) as [H1 [H2 _]]; try lia.
  now split.
Qed.

Lemma confidence_formula_monotone (n w n' w' : nat) :
  n <= n' -> w <= w' ->
  F64.leb (confidence_formula n w) (confidence_formula n' w') = true.
Proof.
  intros Hn Hw.
  rewrite (confidence_formula_saturates n w), (confidence_formula_saturates n' w').
  destruct (confidence_table_at (Nat.min n 3) (Nat.min w 10) (Nat.min n' 3) (Nat.min w' 10))
    as [_ [_ H]]; try lia.
  apply H; lia.
Qed.

Lemma count_words_rstrip (s : string) :
  forall b, Text.count_words b (Text.rstrip s) = Text.count_words b s.
Proof.
  induction s as [|c s IH]; intros b; [reflexivity|].
  cbn [Text.rstrip Text.count_words]. rewrite <- !IH.
  destruct (Text.rstrip s) as [|d r]; destruct (Text.isspace c) eqn:Ec;
    cbn [Text.count_words]; rewrite ?Ec; reflexivity.
Qed.

Lemma count_words_lstrip (s : string) :
  Text.count_words false (Text.lstrip s) = Text.count_words false s.
Proof.
  induction s as [|c s IH]; [reflexivity|].
  cbn [Text.lstrip Text.count_words]. destruct (Text.isspace c) eqn:Ec.
  - exact IH.
  - cbn [Text.count_words]. now rewrite Ec.
Qed.

Lemma word_count_strip (s : string) : Text.word_count (Text.strip s) = Text.word_count s.
Proof.
  unfold Text.word_count, Text.strip. now rewrite count_words_rstrip, count_words_lstrip.
Qed.

Lemma _calculate_confidence_formula (symptoms : list string) (message : string) :
  HealthAI._calculate_confidence symptoms message
  = confidence_formula (List.length symptoms) (Text.word_count message).
Proof.
  unfold HealthAI._calculate_confidence, confidence_formula.
  now rewrite (mul_comm F64.lit_0_1), (mul_comm F64.lit_0_01).
Qed.

(** C5: in the non-emergency path the confidence is the formula
    [min(0.6 + min(0.1 * n, 0.3) + min(0.01 * w, 0.1), 0.95)] of the number
    [n] of extracted symptoms and the number [w] of white-space separated
    words of the lower-cased message, evaluated in binary64; it lies
    between 0.6 and 0.95, and the formula never decreases when [n] or [w]
    grows. *)
Theorem C5_confidence_formula_range_monotone (message : string)
        (H : HealthAI._is_emergency (normalize message) = false) :
  let a := HealthAI.analyze_message message in
  HealthAI.confidence a
  = confidence_formula (List.length (HealthAI.symptoms a))
                       (Text.word_count (Text.lower message)) /\
  F64.leb F64.lit_0_6 (HealthAI.confidence a) = true /\
  F64.leb (HealthAI.confidence a) F64.lit_0_95 = true /\
  (forall n w n' w' : nat,
      n <= n' -> w <= w' ->
      F64.leb (confidence_formula n w) (confidence_formula n' w') = true).
Proof.
  cbv zeta.
  destruct (non_emergency_analysis message H) as [_ [_ [_ [_ [_ Hc]]]]].
  rewrite Hc, _calculate_confidence_formula.
  unfold normalize. rewrite word_count_strip.
  split; [reflexivity|].
  split; [apply confidence_formula_bounds|].
  split; [apply confidence_formula_bounds|].
  intros n w n' w'. apply confidence_formula_monotone.
Qed.

(** ["I have a cough"]: two symptoms and four words give 0.84 (the float
    next above it). *)
Lemma C5_confidence_formula_range_monotone_witness :
  HealthAI._is_emergency (normalize "I have a cough") = false /\
  HealthAI.confidence (HealthAI.analyze_message "I have a cough")
  = confidence_formula 2 4 /\
  F64.leb F64.lit_0_6 (HealthAI.confidence (HealthAI.analyze_message "I have a cough")) = true.
Proof.
  split; [reflexivity|].
  destruct (C5_confidence_formula_range_monotone "I have a cough" eq_refl)
    as [H1 [H2 _]].
  split; [exact H1 | exact H2].
Defined.

(* ------------------------------------------------------------------ *)
(** ** Recommendations *)

Lemma symptom_advice_fold (symptoms recs : list string) :
  fold_left HealthAI.symptom_advice symptoms recs
  = (recs ++ flat_map advice_for symptoms)%list.
Proof.
  revert recs. induction symptoms as [|s symptoms IH]; intros recs; cbn [fold_left flat_map].
  - now rewrite app_nil_r.
  - rewrite IH. unfold HealthAI.symptom_advice, advice_for.
    destruct (Text.contains "fever" s); [now rewrite <- app_assoc|].
    destruct (Text.contains "pain" s); [now rewrite <- app_assoc|].
    destruct (Text.contains "cough" s); [now rewrite <- app_assoc|].
    reflexivity.
Qed.

Lemma _generate_recommendations_members (symptoms : list string) (severity x : string) :
  In x (HealthAI._generate_recommendations symptoms severity) <->
  In x (HealthAI.severity_advice severity) \/
  In x (flat_map advice_for symptoms) \/
  In x HealthAI.general_advice.
Proof.
  unfold HealthAI._generate_recommendations.
  rewrite nodup_In, symptom_advice_fold, !in_app_iff. tauto.
Qed.

Lemma advice_for_members (symptoms : list string) (x : string) :
  In x (flat_map advice_for symptoms) ->
  In x [fever_advice; pain_advice; cough_advice].
Proof.
  rewrite in_flat_map. intros [s [_ H]]. unfold advice_for in H.
  destruct (Text.contains "fever" s); [destruct H as [<-|[]]; simpl; auto|].
  destruct (Text.contains "pain" s); [destruct H as [<-|[]]; simpl; auto|].
  destruct (Text.contains "cough" s); [destruct H as [<-|[]]; simpl; auto|].
  destruct H.
Qed.

Lemma NoDup_drop_middle {A : Type} (a b c : list A) :
  NoDup (a ++ b ++ c) -> NoDup (a ++ c).
Proof.
  induction a as [|x a IH]; simpl; intros H.
  - now apply NoDup_app_remove_l in H.
  - inversion H as [|? ? Hx Ha]; subst. constructor; [|now apply IH].
    intros Hin. apply Hx. rewrite !in_app_iff in *. tauto.
Qed.

(** The ten advice texts a severity level can lead to are distinct. *)
Lemma advice_universe_NoDup (severity : string) :
  NoDup (HealthAI.severity_advice severity
         ++ [fever_advice; pain_advice; cough_advice] ++ HealthAI.general_advice)%list.
Proof.
  unfold HealthAI.severity_advice.
  destruct (String.eqb severity "severe");
    [|destruct (String.eqb severity "moderate")];
    match goal with
    | |- NoDup ?l =>
        assert (E : nodup string_dec l = l) by reflexivity;
        rewrite <- E; apply NoDup_nodup
    end.
Qed.

Lemma severity_advice_length (severity : string) :
  List.length (HealthAI.severity_advice severity) = 3.
Proof.
  unfold HealthAI.severity_advice.
  destruct (String.eqb severity "severe"); [reflexivity|].
  destruct (String.eqb severity "moderate"); reflexivity.
Qed.

(** X1: whatever the symptoms and the severity, the recommendations hold
    no text twice, contain the three texts of the severity level and the
    four general ones, and number between 7 and 10; the formatter's cut
    to the first 6 therefore always leaves some recommendation out. *)
Theorem X1_recommendations_distinct_between_7_and_10
        (symptoms : list string) (severity : string) :
  let recs := HealthAI._generate_recommendations symptoms severity in
  NoDup recs /\
  incl (HealthAI.severity_advice severity) recs /\
  incl HealthAI.general_advice recs /\
  7 <= List.length recs <= 10 /\
  List.length (firstn 6 recs) = 6.
Proof.
  cbv zeta.
  set (recs := HealthAI._generate_recommendations symptoms severity).
  assert (Hnd : NoDup recs) by apply NoDup_nodup.
  assert (Hsev : incl (HealthAI.severity_advice severity) recs).
  { intros x Hx. apply _generate_recommendations_members. now left. }
  assert (Hgen : incl HealthAI.general_advice recs).
  { intros x Hx. apply _generate_recommendations_members. now right; right. }
  pose proof (advice_universe_NoDup severity) as HU.
  assert (Hlow : 7 <= List.length recs).
  { assert (Hbase : NoDup (HealthAI.severity_advice severity ++ HealthAI.general_advice)%list).
    { now apply NoDup_drop_middle in HU. }
    apply NoDup_incl_length with (l' := recs) in Hbase.
    - rewrite length_app, severity_advice_length in Hbase. exact Hbase.
    - intros x Hx. apply in_app_or in Hx as [Hx|Hx]; auto. }
  assert (Hup : List.length recs <= 10).
  { assert (Hincl : incl recs (HealthAI.severity_advice severity
                               ++ [fever_advice; pain_advice; cough_advice]
                               ++ HealthAI.general_advice)%list).
    { intros x Hx. apply _generate_recommendations_members in Hx.
      rewrite !in_app_iff. destruct Hx as [Hx|[Hx|Hx]]; auto.
      right; left. now apply advice_for_members in Hx. }
    apply NoDup_incl_length in Hincl; [|exact Hnd].
    rewrite !length_app, severity_advice_length in Hincl. exact Hincl. }
  repeat split; auto.
  rewrite length_firstn. lia.
Qed.

Lemma NoDup_app_apart {A : Type} (a b : list A) (x : A) :
  NoDup (a ++ b) -> In x a -> ~ In x b.
Proof.
  induction a as [|y a IH]; simpl; intros H Ha; [destruct Ha|].
  inversion H as [|? ? Hy Hab]; subst. destruct Ha as [->|Ha]; [|now apply IH].
  intros Hb. apply Hy, in_or_app. now right.
Qed.

Lemma NoDup_middle_apart {A : Type} (a b c : list A) (x : A) :
  NoDup (a ++ b ++ c) -> In x b -> ~ In x a /\ ~ In x c.
Proof.
  intros H Hb. split.
  - intros Ha. apply (NoDup_app_apart _ _ x H Ha), in_or_app. now left.
  - apply NoDup_app_remove_l in H. now apply (NoDup_app_apart _ _ x H).
Qed.

Lemma specific_advice_members (symptoms : list string) (severity x : string) :
  In x [fever_advice; pain_advice; cough_advice] ->
  (In x (HealthAI._generate_recommendations symptoms severity) <->
   In x (flat_map advice_for symptoms)).
Proof.
  intros Hx. rewrite _generate_recommendations_members.
  destruct (NoDup_middle_apart _ _ _ x (advice_universe_NoDup severity) Hx) as [H1 H2].
  tauto.
Qed.

(** X2: the fever advice is recommended exactly when some symptom
    mentions [fever]; the pain advice exactly when some symptom mentions
    [pain] and not [fever]; the cough advice exactly when some symptom
    mentions [cough] and neither [fever] nor [pain]. *)
Theorem X2_symptom_specific_advice (symptoms : list string) (severity : string) :
  let recs := HealthAI._generate_recommendations symptoms severity in
  (In fever_advice recs <->
   exists s, In s symptoms /\ Text.contains "fever" s = true) /\
  (In pain_advice recs <->
   exists s, In s symptoms /\ Text.contains "fever" s = false /\
             Text.contains "pain" s = true) /\
  (In cough_advice recs <->
   exists s, In s symptoms /\ Text.contains "fever" s = false /\
             Text.contains "pain" s = false /\ Text.contains "cough" s = true).
Proof.
  cbv zeta.
  rewrite !specific_advice_members by (simpl; auto).
  rewrite !in_flat_map. unfold advice_for.
  split; [|split]; split; intros [s [Hs H]]; exists s; (split; [exact Hs|]);
    revert H;
    destruct (Text.contains "fever" s), (Text.contains "pain" s),
      (Text.contains "cough" s); simpl;
    solve [ intuition discriminate | auto ].
Qed.

Lemma X2_symptom_specific_advice_witness :
  In pain_advice (HealthAI._generate_recommendations ["stomach pain"; "a cough"] "mild").
Proof.
  apply (proj1 (proj2 (X2_symptom_specific_advice ["stomach pain"; "a cough"] "mild"))).
  exists "stomach pain". repeat split. simpl. auto.
Defined.

(* ------------------------------------------------------------------ *)
(** ** The formatted reply *)

(** X3: for a message with an emergency phrase the formatted reply is the
    fixed emergency notice: neither the user name nor any field of the
    analysis shows in it. *)
Theorem X3_emergency_reply_is_fixed
        (format_percent : F64.float -> string) (message user_name : string)
        (H : exists phrase, In phrase HealthAI.emergency_keywords /\
                            occurs_in phrase (Text.lower message)) :
  HealthAI.format_response format_percent (HealthAI.analyze_message message) user_name
  = HealthAI._format_emergency_response.
Proof.
  apply (proj1 (emergency_fast_path message)) in H.
  unfold HealthAI.format_response. now rewrite H.
Qed.

Lemma X3_emergency_reply_is_fixed_witness :
  HealthAI.format_response (fun _ => "90%")
    (HealthAI.analyze_message "My father just had a STROKE") "Asha"
  = HealthAI._format_emergency_response.
Proof.
  apply X3_emergency_reply_is_fixed.
  exists "stroke". split; [simpl; tauto | apply contains_occurs; reflexivity].
Defined.

Lemma string_app_nil_r (s : string) : s ++ "" = s.
Proof. induction s; simpl; congruence. Qed.

Lemma concat_head (sep x : string) (l : list string) :
  exists t, String.concat sep (x :: l) = x ++ t.
Proof.
  destruct l as [|y l].
  - exists "". simpl. now rewrite string_app_nil_r.
  - eexists. reflexivity.
Qed.

Lemma concat_last (sep y : string) (l : list string) :
  exists pre, String.concat sep (l ++ [y]) = pre ++ y.
Proof.
  induction l as [|x l [pre IH]].
  - now exists "".
  - exists (x ++ sep ++ pre). cbn [app].
    destruct (l ++ [y])%list as [|z l'] eqn:E.
    + now destruct l.
    + cbn [String.concat]. cbn [String.concat] in IH. rewrite IH.
      now rewrite !string_app_assoc.
Qed.

Lemma format_response_parts (format_percent : F64.float -> string)
      (analysis : HealthAI.SymptomAnalysis) (user_name : string) :
  HealthAI.urgency analysis <> "emergency" ->
  exists parts,
    HealthAI.format_response format_percent analysis user_name
    = String.concat Utils.paragraph_sep parts /\
    (exists middle,
        parts = ("Hi " ++ user_name ++ "! I've analyzed your symptoms.") :: middle) /\
    (exists init, parts = app init [disclaimer]).
Proof.
  intros Hu. unfold HealthAI.format_response.
  apply String.eqb_neq in Hu. rewrite Hu. cbv zeta.
  destruct (HealthAI.symptoms analysis);
    destruct (HealthAI.potential_conditions analysis);
    (eexists; split; [reflexivity|]; split;
     [cbn [app]; eexists; reflexivity | eexists; reflexivity]).
Qed.

(** X4: outside the emergency path the formatted reply opens with the
    greeting for the given name and closes with the disclaimer. *)
Theorem X4_reply_opens_with_greeting_closes_with_disclaimer
        (format_percent : F64.float -> string) (message user_name : string)
        (H : HealthAI._is_emergency (normalize message) = false) :
  let reply :=
    HealthAI.format_response format_percent (HealthAI.analyze_message message) user_name in
  prefix ("Hi " ++ user_name ++ "! I've analyzed your symptoms.") reply = true /\
  suffix_of disclaimer reply.
Proof.
  cbv zeta.
  destruct (format_response_parts format_percent (HealthAI.analyze_message message)
              user_name) as [parts [E [[middle Hhead] [init Hlast]]]].
  { destruct (non_emergency_analysis message H) as [_ [_ [Hu _]]].
    rewrite Hu. apply _assess_urgency_not_emergency. }
  rewrite E. split.
  - rewrite Hhead. apply prefix_app, concat_head.
  - rewrite Hlast. apply concat_last.
Qed.

Lemma X4_reply_opens_with_greeting_closes_with_disclaimer_witness :
  prefix "Hi Asha! I've analyzed your symptoms."
    (HealthAI.format_response (fun _ => "76%")
       (HealthAI.analyze_message "I have runny nose and sneezing") "Asha") = true.
Proof.
  exact (proj1 (X4_reply_opens_with_greeting_closes_with_disclaimer
                  (fun _ => "76%") "I have runny nose and sneezing" "Asha" eq_refl)).
Defined.

(* ------------------------------------------------------------------ *)
(** ** What the analysis can contain *)

Lemma lower_length (s : string) : String.length (Text.lower s) = String.length s.
Proof. induction s; simpl; congruence. Qed.

Lemma string_app_inj (a a' b b' : string) :
  String.length a = String.length a' -> a ++ b = a' ++ b' -> a = a' /\ b = b'.
Proof.
  revert a'. induction a as [|c a IH]; intros [|c' a'] Hl H; simpl in *; try discriminate.
  - now split.
  - injection H as -> H. injection Hl as Hl.
    destruct (IH a' Hl H) as [-> ->]. now split.
Qed.

(** A piece of a lower-case text is lower-case. *)
Lemma occurs_in_lower_fixed (s t : string) :
  occurs_in s (Text.lower t) -> Text.lower s = s.
Proof.
  intros [pre [post H]].
  assert (E : Text.lower (pre ++ s ++ post) = pre ++ s ++ post)
    by (rewrite <- H; apply lower_idem).
  rewrite !lower_app in E.
  apply string_app_inj in E as [_ E]; [|apply lower_length].
  apply string_app_inj in E as [E _]; [exact E | apply lower_length].
Qed.

(** X5: every symptom of a non-emergency analysis is a piece of the
    lower-cased message, hence lower-case itself, and is a keyword of the
    knowledge base or a text of more than two characters. *)
Theorem X5_symptoms_are_pieces_of_the_message (message s : string)
        (H : HealthAI._is_emergency (normalize message) = false)
        (Hs : In s (HealthAI.symptoms (HealthAI.analyze_message message))) :
  occurs_in s (Text.lower message) /\
  Text.lower s = s /\
  (In s all_keywords \/ 2 < String.length s).
Proof.
  destruct (non_emergency_analysis message H) as [E _]. rewrite E in Hs.
  assert (Ho : occurs_in s (Text.lower message)).
  { apply occurs_in_trans with (normalize message).
    - now apply symptoms_occur_in_text.
    - apply occurs_in_strip. }
  split; [exact Ho|]. split; [now apply occurs_in_lower_fixed in Ho|].
  rewrite _extract_symptoms_order in Hs.
  set (l := (keyword_matches (normalize message) ++ _)%list) in Hs.
  assert (Hin : In s l) by (rewrite <- (firstn_skipn 10 l); apply in_or_app; now left).
  apply in_app_or in Hin as [Hk|Hc].
  - left. unfold keyword_matches in Hk. now apply filter_In in Hk.
  - right. now apply keep_new_In in Hc.
Qed.

Lemma X5_symptoms_are_pieces_of_the_message_witness :
  occurs_in "a cough" (Text.lower "I have a COUGH").
Proof.
  apply (X5_symptoms_are_pieces_of_the_message "I have a COUGH" "a cough" eq_refl).
  vm_compute. auto.
Defined.

(* ------------------------------------------------------------------ *)
(** ** Severity as a function of the score *)

Lemma severity_rank_of_score (text : string) (symptoms : list string) :
  let score := indicator_score text + List.length symptoms in
  severity_rank (HealthAI._assess_severity text symptoms)
  = if 8 <=? score then 2 else if 4 <=? score then 1 else 0.
Proof.
  cbv zeta. unfold HealthAI._assess_severity. rewrite severity_score_sum.
  destruct (8 <=? _); [reflexivity|]. destruct (4 <=? _); reflexivity.
Qed.

(** X6: for one and the same text, a longer symptom list never gives a
    lower severity. *)
Theorem X6_severity_monotone_in_symptom_count
        (text : string) (symptoms symptoms' : list string)
        (H : List.length symptoms <= List.length symptoms') :
  severity_rank (HealthAI._assess_severity text symptoms)
  <= severity_rank (HealthAI._assess_severity text symptoms').
Proof.
  rewrite !severity_rank_of_score.
  destruct (8 <=? indicator_score text + List.length symptoms) eqn:E8;
    destruct (8 <=? indicator_score text + List.length symptoms') eqn:E8';
    destruct (4 <=? indicator_score text + List.length symptoms) eqn:E4;
    destruct (4 <=? indicator_score text + List.length symptoms') eqn:E4';
    try lia;
    repeat match goal with
           | H : (_ <=? _) = true |- _ => apply Nat.leb_le in H
           | H : (_ <=? _) = false |- _ => apply Nat.leb_gt in H
           end; lia.
Qed.

Lemma X6_severity_monotone_in_symptom_count_witness :
  severity_rank (HealthAI._assess_severity "fever" ["fever"])
  <= severity_rank (HealthAI._assess_severity "fever" ["fever"; "a fever"]).
Proof.
  apply X6_severity_monotone_in_symptom_count. simpl. lia.
Defined.

Lemma list_sum_In_le {A : Type} (g : A -> nat) (l : list A) (x : A) :
  In x l -> g x <= list_sum (map g l).
Proof.
  induction l as [|a l IH]; simpl; [intros []|].
  intros [->|H]; [lia|]. apply IH in H. lia.
Qed.

(** X7: when a severe-level indicator phrase of any category occurs in
    the text, the severity is never [mild], and it is [severe] as soon as
    three symptoms were extracted. *)
Theorem X7_severe_indicator_floor
        (text category phrase : string) (symptoms : list string)
        (Hin : In (category, "severe", phrase) indicator_triples)
        (Hocc : Text.contains phrase text = true) :
  HealthAI._assess_severity text symptoms <> "mild" /\
  (3 <= List.length symptoms -> HealthAI._assess_severity text symptoms = "severe").
Proof.
  assert (H5 : 5 <= indicator_score text).
  { unfold indicator_score.
    apply (list_sum_In_le (triple_weight text)) in Hin.
    unfold triple_weight in Hin at 1. simpl in Hin. rewrite Hocc in Hin. exact Hin. }
  unfold HealthAI._assess_severity. rewrite severity_score_sum. split.
  - destruct (8 <=? _); [discriminate|].
    destruct (4 <=? indicator_score text + List.length symptoms) eqn:E; [discriminate|].
    apply Nat.leb_gt in E. lia.
  - intros H3.
    assert (E : (8 <=? indicator_score text + List.length symptoms) = true)
      by (apply Nat.leb_le; lia).
    now rewrite E.
Qed.

Lemma X7_severe_indicator_floor_witness :
  HealthAI._assess_severity "an unbearable itch" [] <> "mild".
Proof.
  apply (X7_severe_indicator_floor "an unbearable itch" "pain" "unbearable" []).
  - vm_compute. tauto.
  - reflexivity.
Defined.

(* ------------------------------------------------------------------ *)
(** ** Candidate conditions: order, repetition, growth *)

Lemma mem_false_notin (x : string) (xs : list string) :
  Text.mem x xs = false <-> ~ In x xs.
Proof.
  rewrite <- mem_In. destruct (Text.mem x xs); split; intros H; congruence.
Qed.

(** A sub-list picked by a filter is found again by membership, when the
    listed names are distinct. *)
Lemma filter_by_membership {A : Type} (d : A -> string) (P : A -> bool) (l : list A) :
  NoDup (map d l) ->
  filter (fun n => Text.mem n (map d (filter P l))) (map d l) = map d (filter P l).
Proof.
  induction l as [|a l IH]; intros Hnd; [reflexivity|].
  cbn [map] in Hnd. inversion Hnd as [|? ? Ha Hl]; subst.
  assert (Hsub : forall n, In n (map d (filter P l)) -> In n (map d l)).
  { intros n Hn. apply in_map_iff in Hn as [b [<- Hb]].
    apply filter_In in Hb as [Hb _]. now apply in_map. }
  cbn [filter map]. destruct (P a) eqn:EP; cbn [map filter].
  - assert (E : Text.mem (d a) (d a :: map d (filter P l)) = true)
      by (apply mem_In; now left).
    rewrite E. f_equal. etransitivity; [|exact (IH Hl)].
    apply filter_ext_in. intros n Hn.
    destruct (Text.mem n (map d (filter P l))) eqn:Em.
    + apply mem_In. right. now apply mem_In.
    + apply mem_false_notin. intros [Heq|Hin].
      * subst. contradiction.
      * apply mem_false_notin in Em. contradiction.
  - assert (E : Text.mem (d a) (map d (filter P l)) = false).
    { apply mem_false_notin. intros Hin. apply Ha. now apply Hsub. }
    rewrite E. now apply IH.
Qed.

Lemma symptoms_with_app (phrase : string) (symptoms more : list string) :
  List.length (symptoms_with phrase symptoms)
  <= List.length (symptoms_with phrase (symptoms ++ more)).
Proof.
  unfold symptoms_with. rewrite filter_app, length_app. lia.
Qed.

Lemma list_sum_map_le {A : Type} (g h : A -> nat) (l : list A) :
  (forall x, g x <= h x) -> list_sum (map g l) <= list_sum (map h l).
Proof.
  intros H. induction l as [|a l IH]; simpl; [lia|]. specialize (H a). lia.
Qed.

(** X8: the candidate conditions are display names of the knowledge base,
    listed in its order and none twice; no symptom gives no candidate;
    further symptoms never remove a candidate. *)
Theorem X8_conditions_ordered_distinct_growing (symptoms more : list string) :
  let found := HealthAI._identify_conditions symptoms in
  condition_names = ["Cold"; "Flu"; "Headache"; "Stomach Bug"] /\
  found = filter (fun name => Text.mem name found) condition_names /\
  NoDup found /\
  HealthAI._identify_conditions [] = [] /\
  incl found (HealthAI._identify_conditions (symptoms ++ more)).
Proof.
  cbv zeta. split; [reflexivity|].
  assert (Hnd : NoDup condition_names).
  { assert (E : nodup string_dec condition_names = condition_names) by reflexivity.
    rewrite <- E. apply NoDup_nodup. }
  unfold HealthAI._identify_conditions. rewrite !identify_in_filter.
  split; [symmetry; now apply filter_by_membership|].
  split.
  - rewrite <- filter_by_membership by exact Hnd. now apply NoDup_filter.
  - split; [reflexivity|].
    intros name Hin. apply in_map_iff in Hin as [entry [<- Hin]].
    apply (in_map (fun e => HealthAI.display_name (fst e))), filter_In.
    apply filter_In in Hin as [Hin Hc].
    split; [exact Hin|]. apply Nat.leb_le. apply Nat.leb_le in Hc.
    rewrite match_count_pairs in *.
    eapply Nat.le_trans; [exact Hc|].
    apply list_sum_map_le. intros phrase. apply symptoms_with_app.
Qed.

(* ------------------------------------------------------------------ *)
(** ** [EnhancedAI]: the two paths *)

Lemma any_in_exists (entries : list string) (text : string) :
  EnhancedAI.any_in entries text = true <->
  exists entry, In entry entries /\ Text.contains entry text = true.
Proof.
  induction entries as [|k entries IH]; simpl.
  - split; [discriminate | intros [p [[] _]]].
  - destruct (Text.contains k text) eqn:E.
    + split; [intros _; exists k; auto | reflexivity].
    + rewrite IH. split.
      * intros [p [Hin Hp]]. exists p. auto.
      * intros [p [[<-|Hin] Hp]]; [congruence | exists p; auto].
Qed.

Lemma is_health_related_iff (message : string) :
  EnhancedAI.is_health_related message = true <->
  exists entry,
    (In entry EnhancedAI.health_keywords \/ In entry EnhancedAI.health_patterns) /\
    occurs_in entry (Text.lower message).
Proof.
  unfold EnhancedAI.is_health_related.
  destruct (EnhancedAI.any_in EnhancedAI.health_keywords (Text.lower message)) eqn:Ek.
  - split; [intros _ | reflexivity].
    apply any_in_exists in Ek as [k [Hin Hk]]. exists k.
    split; [now left | now apply contains_occurs].
  - destruct (EnhancedAI.any_in EnhancedAI.health_patterns (Text.lower message)) eqn:Ep.
    + split; [intros _ | reflexivity].
      apply any_in_exists in Ep as [k [Hin Hk]]. exists k.
      split; [now right | now apply contains_occurs].
    + split; [discriminate|]. intros [k [[Hin|Hin] Hk]]; apply contains_occurs in Hk.
      * assert (EnhancedAI.any_in EnhancedAI.health_keywords (Text.lower message) = true)
          by (apply any_in_exists; eauto). congruence.
      * assert (EnhancedAI.any_in EnhancedAI.health_patterns (Text.lower message) = true)
          by (apply any_in_exists; eauto). congruence.
Qed.

(** X9: a message in which a health keyword or health phrase occurs,
    whatever its case, is answered by the triage core alone: one run of
    the analysis on the message as received, no call of the delegate even
    when it is available, and the reply is the formatted analysis, with
    the note on general questions appended exactly when the delegate is
    available. *)
Theorem X9_health_message_answered_by_triage
        (gemini_available : bool) (generate_content : string -> result string)
        (format_percent : F64.float -> string) (message user_name : string)
        (H : exists entry,
            (In entry EnhancedAI.health_keywords \/ In entry EnhancedAI.health_patterns) /\
            occurs_in entry (Text.lower message)) :
  EnhancedAI.analyze_message gemini_available generate_content format_percent
    message user_name
  = ([HealthAnalyze message],
     Ok (let reply := HealthAI.format_response format_percent
                        (HealthAI.analyze_message message) user_name in
         if gemini_available then reply ++ EnhancedAI.general_note else reply)).
Proof.
  apply is_health_related_iff in H.
  unfold EnhancedAI.analyze_message. rewrite H.
  unfold EnhancedAI._handle_health_question, EnhancedAI.call_health_ai.
  reflexivity.
Qed.

Lemma X9_health_message_answered_by_triage_witness :
  trace (EnhancedAI.analyze_message true (fun _ => Ok "unused") (fun _ => "84%")
           "I HAVE a cough" "Asha")
  = [HealthAnalyze "I HAVE a cough"].
Proof.
  rewrite X9_health_message_answered_by_triage; [reflexivity|].
  exists "cough". split; [left; simpl; tauto | apply contains_occurs; reflexivity].
Defined.

(** X10: [EnhancedAI.analyze_message] hands no exception of the delegate
    on to its caller: when the delegate raises nothing outside
    [Exception], a reply is returned for every message and every name. *)
Theorem X10_enhanced_ai_always_replies
        (gemini_available : bool) (generate_content : string -> result string)
        (format_percent : F64.float -> string) (message user_name : string)
        (H : raises_only_Exception generate_content) :
  exists reply,
    outcome (EnhancedAI.analyze_message gemini_available generate_content
               format_percent message user_name) = Ok reply.
Proof.
  unfold EnhancedAI.analyze_message.
  destruct (EnhancedAI.is_health_related message).
  - eexists. reflexivity.
  - unfold EnhancedAI._handle_general_question, EnhancedAI.call_gemini.
    destruct gemini_available; [|eexists; reflexivity].
    cbn [negb]. destruct (generate_content (EnhancedAI.general_prompt message)) as [t|e] eqn:E.
    + eexists. reflexivity.
    + apply H in E. unfold try_except, bind. rewrite E. eexists. reflexivity.
Qed.

Lemma X10_enhanced_ai_always_replies_witness :
  exists reply,
    outcome (EnhancedAI.analyze_message true (fun _ => Raised (mkExn true "quota"))
               (fun _ => "0%") "Tell me a joke" "Asha") = Ok reply.
Proof.
  apply X10_enhanced_ai_always_replies.
  intros a e He. now injection He as <-.
Defined.

Lemma occurs_in_middle (pre s post : string) : occurs_in s (pre ++ s ++ post).
Proof. now exists pre, post. Qed.

(** X11: a message without any health keyword or phrase, with the
    delegate available and answering, is answered by the delegate alone:
    the prompt carries the message verbatim, and the reply is the greeting
    for the name, the delegate's text and the note on health advice. *)
Theorem X11_general_message_answered_by_delegate
        (generate_content : string -> result string)
        (format_percent : F64.float -> string) (message user_name text : string)
        (Hh : EnhancedAI.is_health_related message = false)
        (Hg : generate_content (EnhancedAI.general_prompt message) = Ok text) :
  occurs_in message (EnhancedAI.general_prompt message) /\
  EnhancedAI.analyze_message true generate_content format_percent message user_name
  = ([GeminiGenerate (EnhancedAI.general_prompt message)],
     Ok ("Hi " ++ user_name ++ "! " ++ text ++ EnhancedAI.health_note)).
Proof.
  split.
  - unfold EnhancedAI.general_prompt. apply occurs_in_middle.
  - unfold EnhancedAI.analyze_message. rewrite Hh.
    unfold EnhancedAI._handle_general_question, EnhancedAI.call_gemini.
    cbn [negb]. unfold try_except, bind. rewrite Hg. cbn [ret app].
    now rewrite !string_app_assoc.
Qed.

Lemma X11_general_message_answered_by_delegate_witness :
  outcome (EnhancedAI.analyze_message true (fun _ => Ok "Why did the chicken...")
             (fun _ => "0%") "Tell me a joke" "Asha")
  = Ok ("Hi Asha! Why did the chicken..." ++ EnhancedAI.health_note).
Proof.
  now rewrite (proj2 (X11_general_message_answered_by_delegate
                        (fun _ => Ok "Why did the chicken...") (fun _ => "0%")
                        "Tell me a joke" "Asha" "Why did the chicken..."
                        eq_refl eq_refl)).
Defined.

(** X12: the connection test reports [gemini_configured] exactly when the
    delegate is available and answered the test prompt, reports status
    [success] exactly then, does not call the delegate when it is
    unavailable, and raises nothing when the delegate raises nothing
    outside [Exception]. *)
Theorem X12_connection_test_report
        (gemini_available : bool) (generate_content : string -> result string)
        (H : raises_only_Exception generate_content) :
  exists report,
    outcome (GeminiCheck.test_gemini_connection gemini_available generate_content)
    = Ok report /\
    (GeminiCheck.gemini_configured report = true <->
     gemini_available = true /\
     exists text, generate_content GeminiCheck.test_prompt = Ok text) /\
    (GeminiCheck.status report = "success" <->
     GeminiCheck.gemini_configured report = true) /\
    (gemini_available = false ->
     trace (GeminiCheck.test_gemini_connection gemini_available generate_content) = []).
Proof.
  unfold GeminiCheck.test_gemini_connection, EnhancedAI.call_gemini.
  destruct gemini_available; cbn [negb].
  - destruct (generate_content GeminiCheck.test_prompt) as [t|e] eqn:E.
    + eexists. split; [reflexivity|]. cbn. repeat split; eauto; discriminate.
    + apply H in E. unfold try_except, bind. rewrite E.
      eexists. split; [reflexivity|]. cbn.
      repeat split; try discriminate; intros [_ [t Ht]]; discriminate.
  - eexists. split; [reflexivity|]. cbn.
    repeat split; try discriminate; intros [Hf _]; discriminate.
Qed.

Lemma X12_connection_test_report_witness :
  exists report,
    outcome (GeminiCheck.test_gemini_connection true (fun _ => Raised (mkExn true "401")))
    = Ok report /\ GeminiCheck.gemini_configured report = false.
Proof.
  destruct (X12_connection_test_report true (fun _ => Raised (mkExn true "401")))
    as [report [Ho [Hc _]]].
  - intros a e He. now injection He as <-.
  - exists report. split; [exact Ho|].
    destruct (GeminiCheck.gemini_configured report); [|reflexivity].
    destruct (proj1 Hc eq_refl) as [_ [t Ht]]. discriminate.
Defined.

(* ------------------------------------------------------------------ *)
(** ** The message handler of the bot *)

Section BotHandler.
Variable gemini_available : bool.
Variable generate_content : string -> result string.
Variable format_percent : F64.float -> string.
Variable get_user_info : string -> result (option (option string)).
Variable store_message : string -> string -> string -> result unit.

Let handle := WhatsAppBot._handle_message gemini_available generate_content
                format_percent get_user_info store_message.
Let analyze := WhatsAppBot._analyze_message gemini_available generate_content
                 format_percent get_user_info store_message.
Let enhanced := EnhancedAI.analyze_message gemini_available generate_content
                  format_percent.

Lemma handle_cases (phone_number message : string) :
  (WhatsAppBot.any_word_in trigger_words (normalize message) = true /\
   trace (handle phone_number message) = [] /\
   exists reply, In reply canned_replies /\
                 outcome (handle phone_number message) = Ok reply) \/
  (WhatsAppBot.any_word_in trigger_words (normalize message) = false /\
   handle phone_number message = analyze phone_number message).
Proof.
  unfold handle, WhatsAppBot._handle_message, trigger_words, WhatsAppBot.any_word_in.
  fold (normalize message). rewrite !existsb_app.
  fold (WhatsAppBot.any_word_in WhatsAppBot.greetings (normalize message)).
  fold (WhatsAppBot.any_word_in WhatsAppBot.help_words (normalize message)).
  fold (WhatsAppBot.any_word_in WhatsAppBot.emergency_words (normalize message)).
  cbn [existsb]. rewrite orb_false_r.
  destruct (WhatsAppBot.any_word_in WhatsAppBot.greetings (normalize message)).
  { left. split; [reflexivity|]. split; [reflexivity|].
    eexists. split; [|reflexivity]. simpl. tauto. }
  destruct (WhatsAppBot.any_word_in WhatsAppBot.help_words (normalize message)).
  { left. split; [reflexivity|]. split; [reflexivity|].
    eexists. split; [|reflexivity]. simpl. tauto. }
  destruct (Text.contains "tips" (normalize message) || Text.contains "advice" (normalize message)).
  { left. split; [reflexivity|]. split; [reflexivity|].
    eexists. split; [|reflexivity]. simpl. tauto. }
  destruct (WhatsAppBot.any_word_in WhatsAppBot.emergency_words (normalize message)).
  { left. split; [reflexivity|]. split; [reflexivity|].
    eexists. split; [|reflexivity]. simpl. tauto. }
  right. split; reflexivity.
Qed.

Lemma analyze_replies (phone_number message : string) :
  raises_only_Exception generate_content ->
  raises_only_Exception get_user_info ->
  (forall p t k e, store_message p t k = Raised e -> is_Exception e = true) ->
  exists reply, outcome (analyze phone_number message) = Ok reply.
Proof.
  intros Hg Hu Hs. unfold analyze, WhatsAppBot._analyze_message,
    WhatsAppBot.db_get_user_info, WhatsAppBot.db_store_message.
  destruct (get_user_info phone_number) as [info|e] eqn:Eu.
  - destruct (X10_enhanced_ai_always_replies gemini_available generate_content
                format_percent message (WhatsAppBot.user_name_of info) Hg) as [reply Hr].
    unfold outcome in Hr.
    destruct (EnhancedAI.analyze_message gemini_available generate_content
                format_percent message (WhatsAppBot.user_name_of info)) as [t r] eqn:Ea.
    cbn [snd] in Hr. subst r.
    destruct (store_message phone_number
                ("AI Response: " ++ substring 0 100 reply ++ "...") "analysis")
      as [[]|e] eqn:Est.
    + unfold try_except, bind. rewrite Ea, Est. eexists. reflexivity.
    + apply Hs in Est as Hx. unfold try_except, bind. rewrite Ea, Est, Hx.
      eexists. reflexivity.
  - apply Hu in Eu as Hx. unfold try_except, bind. rewrite Hx. eexists. reflexivity.
Qed.

End BotHandler.

(** X13: when one of the twelve trigger words (greeting, help, tips,
    emergency) occurs in the lower-cased, trimmed message, the handler
    answers with one of its four canned texts and calls no collaborator:
    no database access, no triage, no delegate. *)
Theorem X13_canned_replies_make_no_call
        (gemini_available : bool) (generate_content : string -> result string)
        (format_percent : F64.float -> string)
        (get_user_info : string -> result (option (option string)))
        (store_message : string -> string -> string -> result unit)
        (phone_number message : string)
        (H : exists word, In word trigger_words /\ occurs_in word (normalize message)) :
  trace (WhatsAppBot._handle_message gemini_available generate_content format_percent
           get_user_info store_message phone_number message) = [] /\
  exists reply,
    In reply canned_replies /\
    outcome (WhatsAppBot._handle_message gemini_available generate_content format_percent
               get_user_info store_message phone_number message) = Ok reply.
Proof.
  destruct (handle_cases gemini_available generate_content format_percent
              get_user_info store_message phone_number message)
    as [[_ Hc] | [Hn _]]; [exact Hc|].
  destruct H as [w [Hin Hw]].
  assert (WhatsAppBot.any_word_in trigger_words (normalize message) = true).
  { unfold WhatsAppBot.any_word_in. apply existsb_exists. exists w.
    split; [exact Hin | now apply contains_occurs]. }
  congruence.
Qed.

Lemma X13_canned_replies_make_no_call_witness :
  trace (WhatsAppBot._handle_message true (fun _ => Ok "fine") (fun _ => "0%")
           (fun _ => Ok None) (fun _ _ _ => Ok tt) "+15550100"
           "Is a seizure urgent?") = [].
Proof.
  apply X13_canned_replies_make_no_call.
  exists "urgent". split; [simpl; tauto | apply contains_occurs; reflexivity].
Defined.

(** X14: when the user lookup raises, the analysis step answers
    [Debug Error: ] followed by the text of the exception; neither the
    triage core nor the delegate runs and nothing is stored. *)
Theorem X14_lookup_failure_gives_debug_error
        (gemini_available : bool) (generate_content : string -> result string)
        (format_percent : F64.float -> string)
        (get_user_info : string -> result (option (option string)))
        (store_message : string -> string -> string -> result unit)
        (phone_number message : string) (e : exn)
        (Hu : get_user_info phone_number = Raised e)
        (He : is_Exception e = true) :
  WhatsAppBot._analyze_message gemini_available generate_content format_percent
    get_user_info store_message phone_number message
  = ([DbGetUserInfo phone_number;
      LogError ("Error in message analysis: " ++ exn_str e)],
     Ok ("Debug Error: " ++ exn_str e)).
Proof.
  unfold WhatsAppBot._analyze_message, WhatsAppBot.db_get_user_info.
  unfold try_except, bind. rewrite Hu, He. reflexivity.
Qed.

Lemma X14_lookup_failure_gives_debug_error_witness :
  outcome (WhatsAppBot._analyze_message true (fun _ => Ok "fine") (fun _ => "0%")
             (fun _ => Raised (mkExn true "database is locked"))
             (fun _ _ _ => Ok tt) "+15550100" "I have a cough")
  = Ok "Debug Error: database is locked".
Proof.
  now rewrite (X14_lookup_failure_gives_debug_error true (fun _ => Ok "fine")
                 (fun _ => "0%") (fun _ => Raised (mkExn true "database is locked"))
                 (fun _ _ _ => Ok tt) "+15550100" "I have a cough"
                 (mkExn true "database is locked") eq_refl eq_refl).
Defined.





(* ------------------------------------------------------------------ *)
(** ** Phone numbers on the way in and on the way out *)

Lemma prefix_drops (keep : ascii -> bool) (sub s : string) :
  all_chars (fun c => negb (keep c)) sub = true ->
  prefix sub s = true -> drops keep (String.length sub) s.
Proof.
  revert s. induction sub as [|a sub IH]; intros s Hall Hp; [exact I|].
  destruct s as [|c s]; [discriminate|].
  cbn [all_chars] in Hall. apply andb_true_iff in Hall as [Ha Hall].
  rewrite prefix_cons in Hp. destruct (ascii_dec a c) as [<-|]; [|discriminate].
  cbn [String.length drops]. split; [now apply negb_true_iff|]. now apply IH.
Qed.

(** Removing the occurrences of a non-empty text none of whose characters
    is kept changes nothing for the filter that follows. *)
Lemma filter_remove_from (keep : ascii -> bool) (sub : string) :
  sub <> "" ->
  all_chars (fun c => negb (keep c)) sub = true ->
  forall s skip, drops keep skip s ->
    Str.filter_chars keep (Str.remove_from sub skip s) = Str.filter_chars keep s.
Proof.
  intros Hne Hall. induction s as [|c s IH]; intros skip Hd; [reflexivity|].
  cbn [Str.remove_from]. destruct skip as [|k].
  - destruct (prefix sub (String c s)) eqn:Ep.
    + apply (prefix_drops keep) in Ep; [|exact Hall].
      destruct sub as [|a sub]; [congruence|].
      cbn [String.length drops] in Ep. destruct Ep as [Ek Ep].
      cbn [Str.filter_chars]. rewrite Ek.
      apply IH. cbn [String.length Nat.sub]. rewrite Nat.sub_0_r. exact Ep.
    + cbn [Str.filter_chars]. now rewrite IH by exact I.
  - destruct Hd as [Ek Hd]. cbn [Str.filter_chars]. rewrite Ek. now apply IH.
Qed.

Lemma filter_chars_all (keep : ascii -> bool) (s : string) :
  all_chars keep (Str.filter_chars keep s) = true.
Proof.
  induction s as [|c s IH]; [reflexivity|]. cbn [Str.filter_chars].
  destruct (keep c) eqn:E; [|exact IH]. cbn [all_chars]. now rewrite E, IH.
Qed.

Lemma filter_chars_fixed (keep : ascii -> bool) (s : string) :
  all_chars keep s = true -> Str.filter_chars keep s = s.
Proof.
  induction s as [|c s IH]; [reflexivity|]. cbn [all_chars Str.filter_chars].
  intros H. apply andb_true_iff in H as [Hc Hs]. now rewrite Hc, IH.
Qed.

Lemma filter_chars_length (keep : ascii -> bool) (s : string) :
  String.length (Str.filter_chars keep s) <= String.length s.
Proof.
  induction s as [|c s IH]; [reflexivity|]. cbn [Str.filter_chars].
  destruct (keep c); simpl; lia.
Qed.

Lemma filter_chars_app (keep : ascii -> bool) (a b : string) :
  Str.filter_chars keep (a ++ b) = Str.filter_chars keep a ++ Str.filter_chars keep b.
Proof.
  induction a as [|c a IH]; [reflexivity|]. simpl.
  destruct (keep c); simpl; now rewrite IH.
Qed.

Lemma _clean_phone_number_filter (phone_number : string) :
  Transport._clean_phone_number phone_number = Str.filter_chars phone_char phone_number.
Proof.
  unfold Transport._clean_phone_number, Str.remove_all.
  apply (filter_remove_from phone_char "whatsapp:"); [discriminate | reflexivity | exact I].
Qed.

(** X17: the cleaned number consists of digits and plus signs only and is
    not longer than the input; cleaning twice changes nothing more; and
    the removal of [whatsapp:] has no effect of its own, the result being
    the digits and plus signs of the input in their order. *)
Theorem X17_clean_phone_number (phone_number : string) :
  let clean := Transport._clean_phone_number phone_number in
  all_chars phone_char clean = true /\
  String.length clean <= String.length phone_number /\
  Transport._clean_phone_number clean = clean /\
  clean = Str.filter_chars phone_char phone_number.
Proof.
  cbv zeta. rewrite !_clean_phone_number_filter.
  split; [apply filter_chars_all|]. split; [apply filter_chars_length|].
  split; [|reflexivity]. apply filter_chars_fixed, filter_chars_all.
Qed.

Lemma with_whatsapp_prefix_cases (number : string) :
  Transport.with_whatsapp_prefix number = number \/
  Transport.with_whatsapp_prefix number = "whatsapp:" ++ number.
Proof.
  unfold Transport.with_whatsapp_prefix.
  destruct (prefix "whatsapp:" number); auto.
Qed.

Lemma prefix_self_app (a b : string) : prefix a (a ++ b) = true.
Proof. apply prefix_app. now exists b. Qed.

Lemma with_whatsapp_prefix_starts (number : string) :
  prefix "whatsapp:" (Transport.with_whatsapp_prefix number) = true.
Proof.
  unfold Transport.with_whatsapp_prefix.
  destruct (prefix "whatsapp:" number) eqn:E; [exact E | apply prefix_self_app].
Qed.

(** X18: the number handed to the client always starts with [whatsapp:],
    adding the prefix twice adds it once, and the round trip holds: a
    cleaned sender number, prefixed for sending and cleaned again, is the
    cleaned number. *)
Theorem X18_whatsapp_prefix_round_trip (number : string) :
  prefix "whatsapp:" (Transport.with_whatsapp_prefix number) = true /\
  Transport.with_whatsapp_prefix (Transport.with_whatsapp_prefix number)
  = Transport.with_whatsapp_prefix number /\
  Transport._clean_phone_number
    (Transport.with_whatsapp_prefix (Transport._clean_phone_number number))
  = Transport._clean_phone_number number.
Proof.
  pose proof (with_whatsapp_prefix_starts number) as Hp.
  split; [exact Hp|]. split.
  - unfold Transport.with_whatsapp_prefix at 1. now rewrite Hp.
  - assert (Hfix : Transport._clean_phone_number (Transport._clean_phone_number number)
                   = Transport._clean_phone_number number).
    { rewrite !_clean_phone_number_filter. apply filter_chars_fixed, filter_chars_all. }
    destruct (with_whatsapp_prefix_cases (Transport._clean_phone_number number)) as [->| ->].
    + exact Hfix.
    + rewrite _clean_phone_number_filter, filter_chars_app.
      change (Str.filter_chars phone_char "whatsapp:") with "".
      cbn [append]. rewrite <- _clean_phone_number_filter. exact Hfix.
Qed.

(** X19: [send_message] answers [True] when the client accepts the
    message and [False] when the client raises; it raises nothing itself
    as long as the client raises nothing outside [Exception]; and both
    numbers it hands to the client start with [whatsapp:]. *)
Theorem X19_send_message_answers_a_boolean
        (twilio_number : string)
        (messages_create : string -> string -> string -> result string)
        (is_twilio : exn -> bool) (to_number message_body : string)
        (H : forall body from_ to e,
            messages_create body from_ to = Raised e -> is_Exception e = true) :
  Transport.create_arguments twilio_number to_number message_body
  = (message_body, Transport.with_whatsapp_prefix twilio_number,
     Transport.with_whatsapp_prefix to_number) /\
  prefix "whatsapp:" (Transport.with_whatsapp_prefix twilio_number) = true /\
  prefix "whatsapp:" (Transport.with_whatsapp_prefix to_number) = true /\
  outcome (Transport.send_message twilio_number messages_create is_twilio
             to_number message_body)
  = Ok (match messages_create message_body
                (Transport.with_whatsapp_prefix twilio_number)
                (Transport.with_whatsapp_prefix to_number) with
        | Ok _ => true
        | Raised _ => false
        end).
Proof.
  split; [reflexivity|].
  split; [apply with_whatsapp_prefix_starts|].
  split; [apply with_whatsapp_prefix_starts|].
  cbv beta iota zeta delta [Transport.send_message Transport.create_arguments].
  destruct (messages_create message_body
              (Transport.with_whatsapp_prefix twilio_number)
              (Transport.with_whatsapp_prefix to_number)) as [sid|e] eqn:E.
  - reflexivity.
  - apply H in E as Hx. unfold try_except, bind. rewrite Hx. reflexivity.
Qed.

Lemma X19_send_message_answers_a_boolean_witness :
  outcome (Transport.send_message "+14155238886"
             (fun _ _ _ => Raised (mkExn true "HTTP 401")) (fun _ => true)
             "+15550100" "hello")
  = Ok false.
Proof.
  pose proof (X19_send_message_answers_a_boolean "+14155238886"
                (fun _ _ _ => Raised (mkExn true "HTTP 401")) (fun _ => true)
                "+15550100" "hello") as H.
  apply H. intros body from_ to e He. now injection He as <-.
Defined.

Section Incoming.
Variable gemini_available : bool.
Variable generate_content : string -> result string.
Variable format_percent : F64.float -> string.
Variable get_user_info : string -> result (option (option string)).
Variable store_message : string -> string -> string -> result unit.

Hypothesis Hgen : raises_only_Exception generate_content.
Hypothesis Huser : raises_only_Exception get_user_info.
Hypothesis Hstore : forall p t k e, store_message p t k = Raised e -> is_Exception e = true.

Lemma handle_replies (phone_number message : string) :
  exists calls reply,
    WhatsAppBot._handle_message gemini_available generate_content format_percent
      get_user_info store_message phone_number message = (calls, Ok reply).
Proof.
  destruct (handle_cases gemini_available generate_content format_percent
              get_user_info store_message phone_number message)
    as [[_ [Ht [reply [_ Ho]]]] | [_ He]].
  - destruct (WhatsAppBot._handle_message _ _ _ _ _ _ _) as [t r].
    unfold trace, outcome in *. cbn [fst snd] in *. subst. now exists [], reply.
  - rewrite He.
    destruct (analyze_replies gemini_available generate_content format_percent
                get_user_info store_message phone_number message Hgen Huser Hstore)
      as [reply Ho].
    destruct (WhatsAppBot._analyze_message _ _ _ _ _ _ _) as [t r].
    unfold outcome in Ho. cbn [snd] in Ho. subst. now exists t, reply.
Qed.

Lemma incoming_cases (from_number message_body : string) :
  let clean := Transport._clean_phone_number from_number in
  let run := Transport.process_incoming_message gemini_available generate_content
               format_percent get_user_info store_message from_number message_body in
  match store_message clean message_body "incoming" with
  | Raised e =>
      run = ([DbStoreMessage clean message_body "incoming";
              LogError ("Error processing message: " ++ exn_str e)],
             Ok Transport.apology)
  | Ok _ =>
      exists calls reply,
        WhatsAppBot._handle_message gemini_available generate_content format_percent
          get_user_info store_message clean message_body = (calls, Ok reply) /\
        match store_message clean reply "outgoing" with
        | Ok _ =>
            run = ((DbStoreMessage clean message_body "incoming" :: calls)
                     ++ [DbStoreMessage clean reply "outgoing"], Ok reply)%list
        | Raised e =>
            run = ((DbStoreMessage clean message_body "incoming" :: calls)
                     ++ [DbStoreMessage clean reply "outgoing";
                         LogError ("Error processing message: " ++ exn_str e)],
                   Ok Transport.apology)%list
        end
  end.
Proof.
  cbv zeta. unfold Transport.process_incoming_message, WhatsAppBot.db_store_message.
  set (clean := Transport._clean_phone_number from_number).
  destruct (store_message clean message_body "incoming") as [[]|e] eqn:E1.
  - destruct (handle_replies clean message_body) as [calls [reply Hh]].
    exists calls, reply. split; [exact Hh|].
    destruct (store_message clean reply "outgoing") as [[]|e] eqn:E2.
    + unfold try_except, bind. rewrite Hh, E2. cbn [ret app].
      rewrite ?app_nil_r. reflexivity.
    + apply Hstore in E2 as Hx. unfold try_except, bind. rewrite Hh, E2, Hx.
      cbn [ret emit app]. rewrite <- ?app_assoc. reflexivity.
  - apply Hstore in E1 as Hx. unfold try_except, bind. rewrite Hx. reflexivity.
Qed.

End Incoming.

(** X20: [process_incoming_message] always returns a reply: whatever the
    sender and the message, no exception of the database or of the
    delegate reaches its caller, as long as they raise nothing outside
    [Exception]. *)
Theorem X20_incoming_message_always_answered
        (gemini_available : bool) (generate_content : string -> result string)
        (format_percent : F64.float -> string)
        (get_user_info : string -> result (option (option string)))
        (store_message : string -> string -> string -> result unit)
        (from_number message_body : string)
        (Hgen : raises_only_Exception generate_content)
        (Huser : raises_only_Exception get_user_info)
        (Hstore : forall p t k e, store_message p t k = Raised e -> is_Exception e = true) :
  exists reply,
    outcome (Transport.process_incoming_message gemini_available generate_content
               format_percent get_user_info store_message from_number message_body)
    = Ok reply.
Proof.
  pose proof (incoming_cases gemini_available generate_content format_percent
                get_user_info store_message Hgen Huser Hstore
                from_number message_body) as H.
  cbv zeta in H.
  destruct (store_message (Transport._clean_phone_number from_number) message_body
              "incoming") as [[]|e].
  - destruct H as [calls [reply [_ H]]].
    destruct (store_message (Transport._clean_phone_number from_number) reply "outgoing");
      rewrite H; eexists; reflexivity.
  - rewrite H. eexists. reflexivity.
Qed.

Lemma X20_incoming_message_always_answered_witness :
  exists reply,
    outcome (Transport.process_incoming_message true
               (fun _ => Raised (mkExn true "timeout")) (fun _ => "0%")
               (fun _ => Raised (mkExn true "locked"))
               (fun _ _ _ => Raised (mkExn true "disk full"))
               "whatsapp:+15550100" "I have a cough")
    = Ok reply.
Proof.
  apply X20_incoming_message_always_answered.
  - intros a e He. now injection He as <-.
  - intros a e He. now injection He as <-.
  - intros p t k e He. now injection He as <-.
Defined.

(** X21: when storing the incoming message raises, the sender gets the
    fixed apology and the message is not handled at all: the call trace
    holds the failed store and the log entry, nothing else. *)
Theorem X21_failed_incoming_store_gives_apology
        (gemini_available : bool) (generate_content : string -> result string)
        (format_percent : F64.float -> string)
        (get_user_info : string -> result (option (option string)))
        (store_message : string -> string -> string -> result unit)
        (from_number message_body : string) (e : exn)
        (Hs : store_message (Transport._clean_phone_number from_number) message_body
                "incoming" = Raised e)
        (He : is_Exception e = true) :
  Transport.process_incoming_message gemini_available generate_content
    format_percent get_user_info store_message from_number message_body
  = ([DbStoreMessage (Transport._clean_phone_number from_number) message_body "incoming";
      LogError ("Error processing message: " ++ exn_str e)],
     Ok Transport.apology).
Proof.
  unfold Transport.process_incoming_message, WhatsAppBot.db_store_message.
  unfold try_except, bind. rewrite Hs, He. reflexivity.
Qed.

Lemma X21_failed_incoming_store_gives_apology_witness :
  outcome (Transport.process_incoming_message true (fun _ => Ok "fine") (fun _ => "0%")
             (fun _ => Ok None) (fun _ _ _ => Raised (mkExn true "disk full"))
             "whatsapp:+15550100" "hello")
  = Ok Transport.apology.
Proof.
  now rewrite (X21_failed_incoming_store_gives_apology true (fun _ => Ok "fine")
                 (fun _ => "0%") (fun _ => Ok None)
                 (fun _ _ _ => Raised (mkExn true "disk full"))
                 "whatsapp:+15550100" "hello" (mkExn true "disk full")
                 eq_refl eq_refl).
Defined.

(** X22: with both stores succeeding, the reply returned is the reply of
    the message handler for the cleaned sender number, the incoming
    message is stored before the handler runs and the reply is stored
    after it, under the same cleaned number. *)
Theorem X22_incoming_message_recorded_around_handling
        (gemini_available : bool) (generate_content : string -> result string)
        (format_percent : F64.float -> string)
        (get_user_info : string -> result (option (option string)))
        (store_message : string -> string -> string -> result unit)
        (from_number message_body reply : string) (calls : list event)
        (Hin : store_message (Transport._clean_phone_number from_number) message_body
                 "incoming" = Ok tt)
        (Hh : WhatsAppBot._handle_message gemini_available generate_content
                format_percent get_user_info store_message
                (Transport._clean_phone_number from_number) message_body
              = (calls, Ok reply))
        (Hout : store_message (Transport._clean_phone_number from_number) reply
                  "outgoing" = Ok tt) :
  Transport.process_incoming_message gemini_available generate_content
    format_percent get_user_info store_message from_number message_body
  = ((DbStoreMessage (Transport._clean_phone_number from_number) message_body "incoming"
        :: calls)
       ++ [DbStoreMessage (Transport._clean_phone_number from_number) reply "outgoing"],
     Ok reply)%list.
Proof.
  unfold Transport.process_incoming_message, WhatsAppBot.db_store_message.
  unfold try_except, bind. rewrite Hin, Hh, Hout. cbn [ret app].
  rewrite ?app_nil_r. reflexivity.
Qed.

Lemma X22_incoming_message_recorded_around_handling_witness :
  Transport.process_incoming_message true (fun _ => Ok "fine") (fun _ => "0%")
    (fun _ => Ok None) (fun _ _ _ => Ok tt) "whatsapp:+1 (555) 0100" "hello"
  = ([DbStoreMessage "+15550100" "hello" "incoming";
      DbStoreMessage "+15550100" WhatsAppBot._get_welcome_message "outgoing"],
     Ok WhatsAppBot._get_welcome_message).
Proof.
  apply (X22_incoming_message_recorded_around_handling true (fun _ => Ok "fine")
           (fun _ => "0%") (fun _ => Ok None) (fun _ _ _ => Ok tt)
           "whatsapp:+1 (555) 0100" "hello" WhatsAppBot._get_welcome_message []);
    reflexivity.
Defined.

(* ------------------------------------------------------------------ *)
(** ** [utils.py]: sanitizing a phone number *)

Lemma sanitize_phone_number_filter (phone_number : string) :
  Str.filter_chars dial_char (Str.remove_all "whatsapp:" phone_number)
  = Str.filter_chars dial_char phone_number.
Proof.
  unfold Str.remove_all.
  apply (filter_remove_from dial_char "whatsapp:"); [discriminate | reflexivity | exact I].
Qed.

Lemma sanitize_phone_number_of_dial (number : string) :
  all_chars dial_char number = true ->
  Utils.sanitize_phone_number number
  = if negb (prefix "+" number) then
      if String.length number =? 10 then "+1" ++ number
      else if (String.length number =? 11) && prefix "1" number then "+" ++ number
           else number
    else number.
Proof.
  intros H. unfold Utils.sanitize_phone_number.
  now rewrite sanitize_phone_number_filter, (filter_chars_fixed dial_char number H).
Qed.

Lemma sanitize_phone_number_chars (phone_number : string) :
  all_chars dial_char (Utils.sanitize_phone_number phone_number) = true.
Proof.
  unfold Utils.sanitize_phone_number. rewrite sanitize_phone_number_filter.
  pose proof (filter_chars_all dial_char phone_number) as H.
  destruct (negb (prefix "+" (Str.filter_chars dial_char phone_number))); [|exact H].
  destruct (String.length _ =? 10); [cbn [append all_chars]; now rewrite H|].
  destruct ((String.length _ =? 11) && prefix "1" _); [|exact H].
  cbn [append all_chars]. now rewrite H.
Qed.

Lemma decimal_not_plus (number : string) :
  all_chars Str.is_decimal number = true -> prefix "+" number = false.
Proof.
  destruct number as [|c number]; [reflexivity|].
  cbn [all_chars]. intros H. apply andb_true_iff in H as [Hc _].
  rewrite prefix_cons. destruct (ascii_dec "+" c) as [<-|]; [discriminate | reflexivity].
Qed.

Lemma decimal_is_dial (number : string) :
  all_chars Str.is_decimal number = true -> all_chars dial_char number = true.
Proof.
  induction number as [|c number IH]; [reflexivity|]. cbn [all_chars].
  intros H. apply andb_true_iff in H as [Hc Hn]. unfold dial_char at 1.
  now rewrite Hc, IH.
Qed.

(** X23: the sanitized number consists of decimal digits and plus signs,
    sanitizing it again changes nothing, and the two ways of writing a
    ten-digit national number, bare and with a leading 1, give the same
    result, the digits after [+1]. *)
Theorem X23_sanitize_phone_number (phone_number digits : string)
        (Hd : all_chars Str.is_decimal digits = true)
        (Hl : String.length digits = 10) :
  all_chars dial_char (Utils.sanitize_phone_number phone_number) = true /\
  Utils.sanitize_phone_number (Utils.sanitize_phone_number phone_number)
  = Utils.sanitize_phone_number phone_number /\
  Utils.sanitize_phone_number digits = "+1" ++ digits /\
  Utils.sanitize_phone_number ("1" ++ digits) = "+1" ++ digits.
Proof.
  split; [apply sanitize_phone_number_chars|]. split; [|split].
  - rewrite (sanitize_phone_number_of_dial _ (sanitize_phone_number_chars phone_number)).
    unfold Utils.sanitize_phone_number. rewrite sanitize_phone_number_filter.
    set (c := Str.filter_chars dial_char phone_number).
    destruct (prefix "+" c) eqn:Ep; cbn [negb].
    + rewrite Ep. reflexivity.
    + destruct (String.length c =? 10) eqn:E10.
      { change ("+1" ++ c) with ("+" ++ ("1" ++ c)).
        now rewrite (prefix_self_app "+" ("1" ++ c)). }
      destruct ((String.length c =? 11) && prefix "1" c) eqn:E11.
      { now rewrite (prefix_self_app "+" c). }
      rewrite Ep. cbn [negb]. now rewrite E10, E11.
  - rewrite sanitize_phone_number_of_dial by now apply decimal_is_dial.
    rewrite (decimal_not_plus digits Hd). cbn [negb]. now rewrite Hl.
  - rewrite sanitize_phone_number_of_dial
      by (cbn [append all_chars]; now rewrite (decimal_is_dial digits Hd)).
    cbn [append]. rewrite prefix_cons.
    destruct (ascii_dec "+" "1"); [discriminate|]. cbn [negb String.length].
    rewrite Hl, prefix_cons, prefix_nil_l. reflexivity.
Qed.

Lemma X23_sanitize_phone_number_witness :
  Utils.sanitize_phone_number "4155550100" = "+14155550100" /\
  Utils.sanitize_phone_number "14155550100" = "+14155550100".
Proof.
  destruct (X23_sanitize_phone_number "" "4155550100" eq_refl eq_refl)
    as [_ [_ [H1 H2]]].
  split; [exact H1 | exact H2].
Defined.

(* ------------------------------------------------------------------ *)
(** ** [utils.py]: the rate limiter *)

Section RateLimiterFacts.
Variable time : Type.
Variable within_window : time -> time -> bool.
Variable max_calls : Z.

Let allowed := Utils.is_allowed time within_window max_calls.
Let run := Utils.run_requests time within_window max_calls.

(** The times kept for the identifier of a call. *)
Let kept (calls : Utils.calls_map time) (identifier : string) (now : time) : list time :=
  match calls identifier with
  | Some times => filter (fun call_time => within_window now call_time) times
  | None => []
  end.

Lemma set_calls_same (calls : Utils.calls_map time) (identifier : string)
      (times : list time) :
  Utils.set_calls time calls identifier times identifier = Some times.
Proof. unfold Utils.set_calls. now rewrite String.eqb_refl. Qed.

Lemma set_calls_other (calls : Utils.calls_map time) (identifier other : string)
      (times : list time) :
  other <> identifier ->
  Utils.set_calls time calls identifier times other = calls other.
Proof.
  intros H. unfold Utils.set_calls. apply String.eqb_neq in H. now rewrite H.
Qed.

Lemma allowed_at (calls : Utils.calls_map time) (identifier : string) (now : time) :
  let k := kept calls identifier now in
  if (Z.of_nat (List.length k) <? max_calls)%Z
  then snd (allowed calls identifier now) = true /\
       fst (allowed calls identifier now) identifier = Some (k ++ [now])%list
  else snd (allowed calls identifier now) = false /\
       fst (allowed calls identifier now) identifier = Some k.
Proof.
  cbv zeta. unfold allowed, Utils.is_allowed. fold (kept calls identifier now).
  destruct (Z.of_nat (List.length (kept calls identifier now)) <? max_calls)%Z;
    cbn [fst snd]; now rewrite set_calls_same.
Qed.

Lemma allowed_elsewhere (calls : Utils.calls_map time) (identifier other : string)
      (now : time) :
  other <> identifier ->
  fst (allowed calls identifier now) other = calls other.
Proof.
  intros H. unfold allowed, Utils.is_allowed.
  destruct (Z.of_nat _ <? max_calls)%Z; cbn [fst];
    now rewrite ?set_calls_other by exact H.
Qed.

Lemma kept_length (calls : Utils.calls_map time) (identifier : string) (now : time) :
  List.length (kept calls identifier now) <= recorded calls identifier.
Proof.
  unfold kept, recorded. destruct (calls identifier); [apply filter_length_le | reflexivity].
Qed.

Lemma allowed_bounded (calls : Utils.calls_map time) (identifier : string) (now : time) :
  (forall i, Z.of_nat (recorded calls i) <= Z.max 0 max_calls)%Z ->
  forall i, (Z.of_nat (recorded (fst (allowed calls identifier now)) i)
             <= Z.max 0 max_calls)%Z.
Proof.
  intros H i. destruct (String.eqb_spec i identifier) as [->|Hne].
  - pose proof (allowed_at calls identifier now) as Ha. cbv zeta in Ha.
    pose proof (kept_length calls identifier now) as Hk. specialize (H identifier).
    unfold recorded at 1.
    destruct (Z.of_nat (List.length (kept calls identifier now)) <? max_calls)%Z eqn:E;
      destruct Ha as [_ ->].
    + apply Z.ltb_lt in E. rewrite length_app. cbn [List.length]. lia.
    + lia.
  - unfold recorded. rewrite allowed_elsewhere by exact Hne. apply H.
Qed.

Lemma run_bounded (requests : list (string * time)) :
  forall calls,
    (forall i, Z.of_nat (recorded calls i) <= Z.max 0 max_calls)%Z ->
    forall i, (Z.of_nat (recorded (fst (run calls requests)) i) <= Z.max 0 max_calls)%Z.
Proof.
  induction requests as [|[identifier now] requests IH]; intros calls H i.
  - apply H.
  - unfold run. cbn [Utils.run_requests].
    pose proof (allowed_bounded calls identifier now H) as Hb. unfold allowed in Hb.
    destruct (Utils.is_allowed time within_window max_calls calls identifier now)
      as [calls' answer].
    cbn [fst] in Hb. specialize (IH calls' Hb i). unfold run in IH.
    destruct (Utils.run_requests time within_window max_calls calls' requests)
      as [final answers].
    exact IH.
Qed.

Lemma run_from_empty_bounded (requests : list (string * time)) (identifier : string) :
  (Z.of_nat (recorded (fst (run (Utils.no_calls time) requests)) identifier)
   <= Z.max 0 max_calls)%Z.
Proof.
  apply (run_bounded requests). intros i. unfold recorded, Utils.no_calls.
  simpl. lia.
Qed.

(** X24: starting from the empty dictionary of the constructor, after any
    run of requests and whatever the clock reads, the limiter holds at most
    [max_calls] call times for any identifier (none when [max_calls] is
    not positive). *)
Theorem X24_rate_limiter_storage_bounded
        (requests : list (string * time)) (identifier : string) :
  (Z.of_nat (recorded (fst (Utils.run_requests time within_window max_calls
                              (Utils.no_calls time) requests)) identifier)
   <= Z.max 0 max_calls)%Z.
Proof.
  apply run_from_empty_bounded.
Qed.




Lemma allowed_depends_on_own_times (c1 c2 : Utils.calls_map time)
      (identifier : string) (now : time) :
  c1 identifier = c2 identifier ->
  snd (allowed c1 identifier now) = snd (allowed c2 identifier now) /\
  fst (allowed c1 identifier now) identifier = fst (allowed c2 identifier now) identifier.
Proof.
  intros H. pose proof (allowed_at c1 identifier now) as H1.
  pose proof (allowed_at c2 identifier now) as H2. cbv zeta in H1, H2.
  assert (Hk : kept c1 identifier now = kept c2 identifier now)
    by (unfold kept; now rewrite H).
  rewrite Hk in H1.
  destruct (Z.of_nat (List.length (kept c2 identifier now)) <? max_calls)%Z;
    destruct H1 as [-> ->]; destruct H2 as [-> ->]; now split.
Qed.

Lemma run_depends_on_own_requests (identifier : string)
      (requests : list (string * time)) :
  forall c1 c2 : Utils.calls_map time,
    c1 identifier = c2 identifier ->
    answers_for identifier requests (snd (run c1 requests))
    = snd (run c2 (requests_of identifier requests)).
Proof.
  induction requests as [|[id now] requests IH]; intros c1 c2 H; [reflexivity|].
  unfold run, requests_of. cbn [Utils.run_requests filter fst].
  destruct (String.eqb_spec id identifier) as [->|Hne].
  - destruct (allowed_depends_on_own_times c1 c2 identifier now H) as [Hs Hf].
    unfold allowed in Hs, Hf. cbn [Utils.run_requests].
    destruct (Utils.is_allowed time within_window max_calls c1 identifier now)
      as [c1' a1].
    destruct (Utils.is_allowed time within_window max_calls c2 identifier now)
      as [c2' a2].
    cbn [fst snd] in Hs, Hf. subst a2. specialize (IH c1' c2' Hf).
    unfold run, requests_of in IH.
    destruct (Utils.run_requests time within_window max_calls c1' requests)
      as [f1 ans1].
    destruct (Utils.run_requests time within_window max_calls c2' _) as [f2 ans2].
    cbn [snd] in IH |- *. unfold answers_for in *. cbn [combine filter fst].
    rewrite String.eqb_refl. cbn [map snd]. now rewrite IH.
  - pose proof (allowed_elsewhere c1 id identifier now) as He. unfold allowed in He.
    destruct (Utils.is_allowed time within_window max_calls c1 id now) as [c1' a1].
    cbn [fst] in He.
    assert (H' : c1' identifier = c2 identifier) by (rewrite He; congruence).
    specialize (IH c1' c2 H'). unfold run, requests_of in IH.
    destruct (Utils.run_requests time within_window max_calls c1' requests)
      as [f1 ans1].
    cbn [snd] in IH |- *. unfold answers_for in *. cbn [combine filter fst].
    apply String.eqb_neq in Hne. rewrite Hne. exact IH.
Qed.

(** X26: the answers an identifier gets do not depend on the requests of
    the other identifiers: they are the answers it would get if its own
    requests were the only ones. *)
Theorem X26_rate_limiter_identifiers_independent
        (requests : list (string * time)) (identifier : string) :
  answers_for identifier requests
    (snd (Utils.run_requests time within_window max_calls (Utils.no_calls time) requests))
  = snd (Utils.run_requests time within_window max_calls (Utils.no_calls time)
           (requests_of identifier requests)).
Proof.
  apply run_depends_on_own_requests.
  (* both runs start without any call time for the identifier *)
  unfold Utils.no_calls. reflexivity.
Qed.

End RateLimiterFacts.

Section ChunkFacts.
Variable max_length : Z.
Variable paragraphs : list string.












End ChunkFacts.


